(** * I2S sound base device (lib/i2ssoundbasedevice.cpp)

    A shallow embedding of [CI2SSoundBaseDevice]: the clock divider
    computed in the constructor, the register bring-up [RunI2S], the
    streaming entry points [Start], [Cancel], [IsActive], the two DMA
    completion handlers and the two codec initialisation sequences
    [InitPCM51xx] and [InitWM8960].

    The device object, the PCM registers and a log of every call made to
    a collaborator (clock generator, GPIO pins, I2C master, DMA buffers,
    timer, name service) form the machine state.  Results that come back
    from a collaborator are supplied by an environment whose answers may
    depend on the whole log so far. *)

From Stdlib Require Import ZArith List Bool Lia.
Import ListNotations.
Local Open Scope Z_scope.

(** ** Machine integers *)

(** [unsigned] and [u32] are 32 bits wide, [u8] is 8 bits wide. *)
Definition u32 (x : Z) : Z := x mod 2 ^ 32.
Definition u8 (x : Z) : Z := x mod 2 ^ 8.

(** ** Constants of the source file *)

Definition CHANS : Z := 2.
Definition CHANLEN : Z := 32.

Definition CS_A_STBY : Z := Z.shiftl 1 25.
Definition CS_A_SYNC : Z := Z.shiftl 1 24.
Definition CS_A_RXSEX : Z := Z.shiftl 1 23.
Definition CS_A_TXE : Z := Z.shiftl 1 21.
Definition CS_A_TXD : Z := Z.shiftl 1 19.
Definition CS_A_TXW : Z := Z.shiftl 1 17.
Definition CS_A_TXERR : Z := Z.shiftl 1 15.
Definition CS_A_TXSYNC : Z := Z.shiftl 1 13.
Definition CS_A_DMAEN : Z := Z.shiftl 1 9.
Definition CS_A_TXTHR__SHIFT : Z := 5.
Definition CS_A_RXCLR : Z := Z.shiftl 1 4.
Definition CS_A_TXCLR : Z := Z.shiftl 1 3.
Definition CS_A_TXON : Z := Z.shiftl 1 2.
Definition CS_A_RXON : Z := Z.shiftl 1 1.
Definition CS_A_EN : Z := Z.shiftl 1 0.

Definition MODE_A_CLKI : Z := Z.shiftl 1 22.
Definition MODE_A_CLKM : Z := Z.shiftl 1 23.
Definition MODE_A_FSI : Z := Z.shiftl 1 20.
Definition MODE_A_FSM : Z := Z.shiftl 1 21.
Definition MODE_A_FLEN__SHIFT : Z := 10.
Definition MODE_A_FSLEN__SHIFT : Z := 0.

Definition RXC_A_CH1WEX : Z := Z.shiftl 1 31.
Definition RXC_A_CH1EN : Z := Z.shiftl 1 30.
Definition RXC_A_CH1POS__SHIFT : Z := 20.
Definition RXC_A_CH1WID__SHIFT : Z := 16.
Definition RXC_A_CH2WEX : Z := Z.shiftl 1 15.
Definition RXC_A_CH2EN : Z := Z.shiftl 1 14.
Definition RXC_A_CH2POS__SHIFT : Z := 4.
Definition RXC_A_CH2WID__SHIFT : Z := 0.

Definition TXC_A_CH1WEX : Z := Z.shiftl 1 31.
Definition TXC_A_CH1EN : Z := Z.shiftl 1 30.
Definition TXC_A_CH1POS__SHIFT : Z := 20.
Definition TXC_A_CH1WID__SHIFT : Z := 16.
Definition TXC_A_CH2WEX : Z := Z.shiftl 1 15.
Definition TXC_A_CH2EN : Z := Z.shiftl 1 14.
Definition TXC_A_CH2POS__SHIFT : Z := 4.
Definition TXC_A_CH2WID__SHIFT : Z := 0.

Definition DREQ_A_TX__SHIFT : Z := 8.
Definition DREQ_A_TX__MASK : Z := Z.shiftl 0x7F 8.
Definition DREQ_A_RX__SHIFT : Z := 0.
Definition DREQ_A_RX__MASK : Z := Z.shiftl 0x7F 0.

(** ** Types declared in headers that are not part of the sources *)

(** Modelled from the spec: the declaration of [TDeviceMode] (in
    circle/i2ssoundbasedevice.h) is missing; the spec lists the three
    modes TXOnly, RXOnly and Duplex, and the source names the first two
    [DeviceModeTXOnly] and [DeviceModeRXOnly]. *)
Inductive TDeviceMode : Type :=
| DeviceModeTXOnly
| DeviceModeRXOnly
| DeviceModeTXRX.

Definition TDeviceMode_eqb (a b : TDeviceMode) : bool :=
  match a, b with
  | DeviceModeTXOnly, DeviceModeTXOnly => true
  | DeviceModeRXOnly, DeviceModeRXOnly => true
  | DeviceModeTXRX, DeviceModeTXRX => true
  | _, _ => false
  end.

(** Modelled from the spec: the declaration of [TMachineModel] (in
    circle/machineinfo.h) is missing; the spec speaks of a legacy model
    variant with its own base pin and function code, the source names
    three such models, and every other model is [MachineModelOther]
    here. *)
Inductive TMachineModel : Type :=
| MachineModelA
| MachineModelBRelease2MB256
| MachineModelBRelease2MB512
| MachineModelOther.

(** Modelled from the spec: the declaration of [TGPIOMode] (in
    circle/gpiopin.h) is missing; these are the three modes the source
    sets: the peripheral's alternate function (0, or 2 on the early
    models) and the input mode pins are reverted to. *)
Inductive TGPIOMode : Type :=
| GPIOModeInput
| GPIOModeAlternateFunction0
| GPIOModeAlternateFunction2.

(** The PCM registers the source accesses (their addresses are declared
    in circle/bcm2835.h and play no role here). *)
Inductive Reg : Type :=
| ARM_PCM_CS_A
| ARM_PCM_MODE_A
| ARM_PCM_RXC_A
| ARM_PCM_TXC_A
| ARM_PCM_DREQ_A.

Definition Reg_eqb (a b : Reg) : bool :=
  match a, b with
  | ARM_PCM_CS_A, ARM_PCM_CS_A => true
  | ARM_PCM_MODE_A, ARM_PCM_MODE_A => true
  | ARM_PCM_RXC_A, ARM_PCM_RXC_A => true
  | ARM_PCM_TXC_A, ARM_PCM_TXC_A => true
  | ARM_PCM_DREQ_A, ARM_PCM_DREQ_A => true
  | _, _ => false
  end.

(** The four GPIO pin members of the device. *)
Inductive Pin : Type :=
| m_PCMCLKPin
| m_PCMFSPin
| m_PCMDINPin
| m_PCMDOUTPin.

(** The two DMA buffer members and the two static completion handlers. *)
Inductive DMABuffers : Type :=
| m_TXBuffers
| m_RXBuffers.

Inductive Handler : Type :=
| pTXCompletedHandler
| pRXCompletedHandler.

(** ** The log of calls to collaborators *)

Inductive Event : Type :=
| EvPeripheralEntry
| EvPeripheralExit
| EvWrite32 (reg : Reg) (nValue : Z)
| EvDelay (nMicroSeconds : Z)
| EvClockStart (nDivI nDivF nMASH : Z)
| EvClockStop
| EvAssignPin (pin : Pin) (nPin : Z)
| EvSetMode (pin : Pin) (Mode : TGPIOMode)
| EvI2CWrite (bus : nat) (ucAddress : Z) (data : list Z) (nResult : Z)
| EvDMAStart (buf : DMABuffers) (handler : Handler) (bOK : bool)
| EvDMACancel (buf : DMABuffers)
| EvDMAIsActive (buf : DMABuffers) (bActive : bool)
| EvGetChunk (nChunkSize : Z) (nResult : Z)
| EvPutChunk (nChunkSize : Z)
| EvAddDevice
| EvRemoveDevice.

(** ** The environment

    What the collaborators answer.  Every answer may depend on the log of
    all earlier calls, so a bus may fail at its n-th transaction, a DMA
    start may fail the second time, and so on. *)
Record Env : Type := mkEnv {
  GetGPIOClockSourceRate : Z;
  GetMachineModel : TMachineModel;
  I2CMaster_Write : list Event -> nat -> Z -> list Z -> Z;
  DMABuffers_Start : list Event -> DMABuffers -> bool;
  DMABuffers_IsActive : list Event -> DMABuffers -> bool;
  GetChunk : list Event -> Z -> Z
}.

(** ** The device object and the machine state *)

(** [m_pI2CMaster] is a pointer: [None] is the null pointer, [Some bus]
    points to the I2C master numbered [bus]. *)
Record CI2SSoundBaseDevice : Type := mkDevice {
  m_nChunkSize : Z;
  m_bSlave : bool;
  m_pI2CMaster : option nat;
  m_ucI2CAddress : Z;
  m_DeviceMode : TDeviceMode;
  m_bI2CInited : bool;
  m_bError : bool
}.

Definition set_bI2CInited (b : bool) (d : CI2SSoundBaseDevice) :=
  mkDevice (m_nChunkSize d) (m_bSlave d) (m_pI2CMaster d) (m_ucI2CAddress d)
           (m_DeviceMode d) b (m_bError d).

Definition set_bError (b : bool) (d : CI2SSoundBaseDevice) :=
  mkDevice (m_nChunkSize d) (m_bSlave d) (m_pI2CMaster d) (m_ucI2CAddress d)
           (m_DeviceMode d) (m_bI2CInited d) b.

(** The PCM registers are modelled as a store: [read32] gives back what
    the last [write32] to the register put there. *)
Record Machine : Type := mkMachine {
  this : CI2SSoundBaseDevice;
  regs : Reg -> Z;
  trace : list Event
}.

(** ** A state monad with failure

    [None] stands for a failed [assert] (or a null pointer that is
    dereferenced): the program stops there. *)
Definition M (A : Type) : Type := Machine -> option (A * Machine).

Definition ret {A} (a : A) : M A := fun m => Some (a, m).

Definition bind {A B} (c : M A) (k : A -> M B) : M B :=
  fun m => match c m with
           | Some (a, m') => k a m'
           | None => None
           end.

Notation "x <- c1 ;; c2" := (bind c1 (fun x => c2))
  (at level 61, c1 at next level, right associativity).
Notation "c1 ;; c2" := (bind c1 (fun _ => c2))
  (at level 61, right associativity).

Definition assert (b : bool) : M unit :=
  fun m => if b then Some (tt, m) else None.

Definition abort {A} : M A := fun _ => None.

Definition get_this : M CI2SSoundBaseDevice := fun m => Some (this m, m).

Definition get_trace : M (list Event) := fun m => Some (trace m, m).

Definition modify_this (f : CI2SSoundBaseDevice -> CI2SSoundBaseDevice) : M unit :=
  fun m => Some (tt, mkMachine (f (this m)) (regs m) (trace m)).

Definition emit (e : Event) : M unit :=
  fun m => Some (tt, mkMachine (this m) (regs m) (trace m ++ [e])).

Definition read32 (r : Reg) : M Z := fun m => Some (regs m r, m).

Definition write32 (r : Reg) (nValue : Z) : M unit :=
  fun m => Some (tt, mkMachine (this m)
                       (fun r' => if Reg_eqb r' r then u32 nValue else regs m r')
                       (trace m ++ [EvWrite32 r (u32 nValue)])).

Definition PeripheralEntry : M unit := emit EvPeripheralEntry.
Definition PeripheralExit : M unit := emit EvPeripheralExit.
Definition usDelay (n : Z) : M unit := emit (EvDelay n).

(** ** The clock divider (constructor, lines 114-127)

    [nClockFreq] and [nSampleRate] are [unsigned]; the product and the sum
    wrap around at 32 bits. *)

(** Line 119. *)
Definition ClockDivider_nDivI (nClockFreq nSampleRate : Z) : Z :=
  nClockFreq / (CHANLEN * CHANS) / nSampleRate.

(** Line 120. *)
Definition ClockDivider_nTemp (nClockFreq nSampleRate : Z) : Z :=
  nClockFreq / (CHANLEN * CHANS) mod nSampleRate.

(** Line 121. *)
Definition ClockDivider_nDivF (nClockFreq nSampleRate : Z) : Z :=
  u32 (u32 (ClockDivider_nTemp nClockFreq nSampleRate * 4096)
       + nSampleRate / 2) / nSampleRate.

(** The pair handed to [m_Clock.Start]; [None] when one of the four
    assertions fails. *)
Definition ClockDivider (nClockFreq nSampleRate : Z) : option (Z * Z) :=
  if negb (0 <? nClockFreq) then None else
  if negb ((8000 <=? nSampleRate) && (nSampleRate <=? 192000)) then None else
  if negb (nClockFreq mod (CHANLEN * CHANS) =? 0) then None else
  let nDivI := ClockDivider_nDivI nClockFreq nSampleRate in
  let nDivF := ClockDivider_nDivF nClockFreq nSampleRate in
  if negb (nDivF <=? 4096) then None else
  if 4095 <? nDivF then Some (u32 (nDivI + 1), 0) else Some (nDivI, nDivF).

Section Device.

Variable env : Env.

(** ** RunI2S *)
Definition RunI2S : M unit :=
  PeripheralEntry ;;
  (* disable I2S *)
  write32 ARM_PCM_CS_A 0 ;;
  usDelay 10 ;;
  (* clearing FIFOs *)
  v <- read32 ARM_PCM_CS_A ;;
  write32 ARM_PCM_CS_A (Z.lor (Z.lor v CS_A_TXCLR) CS_A_RXCLR) ;;
  usDelay 10 ;;
  (* enable channel 1 and 2 *)
  write32 ARM_PCM_TXC_A
    (Z.lor (Z.lor (Z.lor (Z.lor (Z.lor (Z.lor (Z.lor
       TXC_A_CH1WEX
       TXC_A_CH1EN)
       (Z.shiftl 1 TXC_A_CH1POS__SHIFT))
       (Z.shiftl 0 TXC_A_CH1WID__SHIFT))
       TXC_A_CH2WEX)
       TXC_A_CH2EN)
       (Z.shiftl (CHANLEN + 1) TXC_A_CH2POS__SHIFT))
       (Z.shiftl 0 TXC_A_CH2WID__SHIFT)) ;;
  write32 ARM_PCM_RXC_A
    (Z.lor (Z.lor (Z.lor (Z.lor (Z.lor (Z.lor (Z.lor
       RXC_A_CH1WEX
       RXC_A_CH1EN)
       (Z.shiftl 1 RXC_A_CH1POS__SHIFT))
       (Z.shiftl 0 RXC_A_CH1WID__SHIFT))
       RXC_A_CH2WEX)
       RXC_A_CH2EN)
       (Z.shiftl (CHANLEN + 1) RXC_A_CH2POS__SHIFT))
       (Z.shiftl 0 RXC_A_CH2WID__SHIFT)) ;;
  d <- get_this ;;
  let nModeA := Z.lor (Z.lor (Z.lor
       MODE_A_CLKI
       MODE_A_FSI)
       (Z.shiftl (CHANS * CHANLEN - 1) MODE_A_FLEN__SHIFT))
       (Z.shiftl CHANLEN MODE_A_FSLEN__SHIFT) in
  (* set PCM clock and frame sync as inputs if in slave mode *)
  let nModeA := if m_bSlave d
                then Z.lor nModeA (Z.lor MODE_A_CLKM MODE_A_FSM)
                else nModeA in
  write32 ARM_PCM_MODE_A nModeA ;;
  (* init GPIO pins, assigned to the P5 header on early models *)
  let early := match GetMachineModel env with
               | MachineModelA
               | MachineModelBRelease2MB256
               | MachineModelBRelease2MB512 => true
               | MachineModelOther => false
               end in
  let nPinBase := if early then 28 else 18 in
  let GPIOMode := if early then GPIOModeAlternateFunction2
                  else GPIOModeAlternateFunction0 in
  emit (EvAssignPin m_PCMCLKPin nPinBase) ;;
  emit (EvSetMode m_PCMCLKPin GPIOMode) ;;
  emit (EvAssignPin m_PCMFSPin (nPinBase + 1)) ;;
  emit (EvSetMode m_PCMFSPin GPIOMode) ;;
  (if negb (TDeviceMode_eqb (m_DeviceMode d) DeviceModeTXOnly)
   then emit (EvAssignPin m_PCMDINPin (nPinBase + 2)) ;;
        emit (EvSetMode m_PCMDINPin GPIOMode)
   else ret tt) ;;
  (if negb (TDeviceMode_eqb (m_DeviceMode d) DeviceModeRXOnly)
   then emit (EvAssignPin m_PCMDOUTPin (nPinBase + 3)) ;;
        emit (EvSetMode m_PCMDOUTPin GPIOMode)
   else ret tt) ;;
  (* disable standby *)
  v <- read32 ARM_PCM_CS_A ;;
  write32 ARM_PCM_CS_A (Z.lor v CS_A_STBY) ;;
  usDelay 50 ;;
  (* enable I2S *)
  v <- read32 ARM_PCM_CS_A ;;
  write32 ARM_PCM_CS_A (Z.lor v CS_A_EN) ;;
  usDelay 10 ;;
  PeripheralExit.

(** ** StopI2S *)
Definition StopI2S : M unit :=
  PeripheralEntry ;;
  write32 ARM_PCM_CS_A 0 ;;
  usDelay 50 ;;
  PeripheralExit ;;
  d <- get_this ;;
  (if negb (m_bSlave d) then emit EvClockStop else ret tt) ;;
  (* de-init GPIO pins *)
  emit (EvSetMode m_PCMCLKPin GPIOModeInput) ;;
  emit (EvSetMode m_PCMFSPin GPIOModeInput) ;;
  (if negb (TDeviceMode_eqb (m_DeviceMode d) DeviceModeTXOnly)
   then emit (EvSetMode m_PCMDINPin GPIOModeInput)
   else ret tt) ;;
  (if negb (TDeviceMode_eqb (m_DeviceMode d) DeviceModeRXOnly)
   then emit (EvSetMode m_PCMDOUTPin GPIOModeInput)
   else ret tt).

(** ** Constructor and destructor

    The constructor runs on a machine whose device object is still
    uninitialised: it first sets the members from its arguments
    ([m_bI2CInited] and [m_bError] to [FALSE]).  The constructors of the
    base class and of the clock, pin and DMA buffer members belong to
    other source files; they make no call that is logged here. *)
Definition Constructor (nSampleRate nChunkSize : Z) (bSlave : bool)
    (pI2CMaster : option nat) (ucI2CAddress : Z) (DeviceMode : TDeviceMode)
    : M unit :=
  modify_this (fun _ => mkDevice nChunkSize bSlave pI2CMaster ucI2CAddress
                                 DeviceMode false false) ;;
  assert (32 <=? nChunkSize) ;;
  assert (Z.land nChunkSize 1 =? 0) ;;
  (* start clock and I2S device *)
  (if negb bSlave
   then match ClockDivider (GetGPIOClockSourceRate env) nSampleRate with
        | Some (nDivI, nDivF) =>
            emit (EvClockStart nDivI nDivF (if 0 <? nDivF then 1 else 0))
        | None => abort
        end
   else ret tt) ;;
  RunI2S ;;
  emit EvAddDevice.

Definition Destructor : M unit :=
  emit EvRemoveDevice ;;
  (* stop I2S device and clock *)
  StopI2S.

(** ** GetRangeMin, GetRangeMax *)
Definition GetRangeMin (d : CI2SSoundBaseDevice) : Z := - (Z.shiftl 1 23) + 1.
Definition GetRangeMax (d : CI2SSoundBaseDevice) : Z := Z.shiftl 1 23 - 1.

(** ** The I2C master and the DMA buffers *)

(** [m_pI2CMaster->Write (ucAddress, data, nCount)]; the answer is the
    number of bytes transferred or a negative error code. *)
Definition I2C_Write (ucAddress : Z) (data : list Z) : M Z :=
  d <- get_this ;;
  match m_pI2CMaster d with
  | None => abort
  | Some bus =>
      tr <- get_trace ;;
      let n := I2CMaster_Write env tr bus ucAddress data in
      emit (EvI2CWrite bus ucAddress data n) ;;
      ret n
  end.

Definition DMA_Start (buf : DMABuffers) (handler : Handler) : M bool :=
  tr <- get_trace ;;
  let bOK := DMABuffers_Start env tr buf in
  emit (EvDMAStart buf handler bOK) ;;
  ret bOK.

Definition DMA_IsActive (buf : DMABuffers) : M bool :=
  tr <- get_trace ;;
  let bActive := DMABuffers_IsActive env tr buf in
  emit (EvDMAIsActive buf bActive) ;;
  ret bActive.

(** ** Codec initialisation *)

(** Every command is a [u8 [2]], so [sizeof (command)] is 2. *)
Definition sizeof_command : Z := 2.

(** The loop [for (auto &command : initBytes)] of both init functions. *)
Fixpoint send_commands (ucI2CAddress : Z) (initBytes : list (Z * Z)) : M bool :=
  match initBytes with
  | [] => ret true
  | command :: rest =>
      n <- I2C_Write ucI2CAddress [fst command; snd command] ;;
      if negb (n =? sizeof_command) then ret false
      else send_commands ucI2CAddress rest
  end.

Definition initBytes_PCM51xx : list (Z * Z) :=
  [ (0x0d, 0x10);   (* Set PLL reference clock to BCK (set SREF to 001b) *)
    (0x25, 0x08);   (* Ignore clock halt detection (set IDCH to 1) *)
    (0x41, 0x04) ]. (* Disable auto mute *)

Definition InitPCM51xx (ucI2CAddress : Z) : M bool :=
  send_commands ucI2CAddress initBytes_PCM51xx.

(** The macro [SHIFT_BIT(r, v)]; both bytes are stored in a [u8]. *)
Definition SHIFT_BIT (r v : Z) : Z * Z :=
  (u8 (Z.lor (Z.shiftr (Z.land v 0x0100) 8) (Z.shiftl r 1)),
   u8 (Z.land v 0xff)).

(** The (register, value) arguments of the macro, in table order. *)
Definition WM8960_settings : list (Z * Z) :=
  [ (15, 0x000);                                          (* reset *)
    (25, 0x1FC); (26, 0x1F9); (47, 0x03C);                (* Power *)
    (4, 0x001); (52, 0x027); (53, 0x086); (54, 0x0C2);
    (55, 0x026);                                          (* Clock PLL *)
    (5, 0x000); (7, 0x002);                               (* ADC/DAC *)
    (20, 0x0F9); (17, 0x1FB); (18, 0x000); (19, 0x032);   (* ALC and Noise control *)
    (2, 0x16F); (3, 0x16F);                               (* OUT1 volume *)
    (40, 0x17F); (41, 0x178); (51, 0x08D);                (* SPK volume *)
    (0, 0x13F); (1, 0x13F);                               (* input volume *)
    (32, 0x138); (33, 0x138);                             (* INPUTS *)
    (49, 0x0F7); (10, 0x1FF); (11, 0x1FF); (34, 0x100);
    (37, 0x100) ].                                        (* OUTPUTS *)

Definition initBytes_WM8960 : list (Z * Z) :=
  map (fun rv => SHIFT_BIT (fst rv) (snd rv)) WM8960_settings.

Definition InitWM8960 (ucI2CAddress : Z) : M bool :=
  send_commands ucI2CAddress initBytes_WM8960.

(** ** Start *)

(** A block of a function body either falls through or executes
    [return b]. *)
Inductive Flow : Type :=
| Next
| Return (b : bool).

Definition isSome {A} (o : option A) : bool :=
  match o with Some _ => true | None => false end.

(** Lines 162-201: optional DAC init via I2C. *)
Definition Start_codec : M Flow :=
  d <- get_this ;;
  if negb (TDeviceMode_eqb (m_DeviceMode d) DeviceModeRXOnly)
     && isSome (m_pI2CMaster d)
     && negb (m_bI2CInited d)
  then
    r <- (if negb (m_ucI2CAddress d =? 0)
          then
            (* fixed address, must succeed *)
            if negb (m_ucI2CAddress d =? 0x1A)
            then
              ok <- InitPCM51xx (m_ucI2CAddress d) ;;
              if negb ok
              then modify_this (set_bError true) ;; ret (Return false)
              else ret Next
            else
              ok <- InitWM8960 (m_ucI2CAddress d) ;;
              if negb ok
              then modify_this (set_bError true) ;; ret (Return false)
              else ret Next
          else
            (* auto probing, ignore failure *)
            ok <- InitPCM51xx 0x4C ;;
            (if negb ok
             then
               ok <- InitPCM51xx 0x4D ;;
               if negb ok
               then InitWM8960 0x1A ;; ret tt
               else ret tt
             else ret tt) ;;
            ret Next) ;;
    match r with
    | Return b => ret (Return b)
    | Next => modify_this (set_bI2CInited true) ;; ret Next
    end
  else ret Next.

(** Lines 203-259: enable I2S DMA operation, start the DMA buffers,
    enable TX and/or RX. *)
Definition Start_stream : M bool :=
  d <- get_this ;;
  PeripheralEntry ;;
  (if m_nChunkSize d <? 64
   then
     assert (32 <=? m_nChunkSize d) ;;
     (if negb (TDeviceMode_eqb (m_DeviceMode d) DeviceModeRXOnly)
      then
        v <- read32 ARM_PCM_DREQ_A ;;
        write32 ARM_PCM_DREQ_A
          (Z.lor (Z.land v (Z.lnot DREQ_A_TX__MASK))
                 (Z.shiftl 0x18 DREQ_A_TX__SHIFT))
      else ret tt) ;;
     (if negb (TDeviceMode_eqb (m_DeviceMode d) DeviceModeTXOnly)
      then
        v <- read32 ARM_PCM_DREQ_A ;;
        write32 ARM_PCM_DREQ_A
          (Z.lor (Z.land v (Z.lnot DREQ_A_RX__MASK))
                 (Z.shiftl 0x18 DREQ_A_RX__SHIFT))
      else ret tt)
   else ret tt) ;;
  v <- read32 ARM_PCM_CS_A ;;
  write32 ARM_PCM_CS_A (Z.lor v CS_A_DMAEN) ;;
  PeripheralExit ;;
  let nTXRXOn := 0 in
  tx <- (if negb (TDeviceMode_eqb (m_DeviceMode d) DeviceModeRXOnly)
         then
           ok <- DMA_Start m_TXBuffers pTXCompletedHandler ;;
           if negb ok
           then modify_this (set_bError true) ;; ret None
           else ret (Some (Z.lor nTXRXOn CS_A_TXON))
         else ret (Some nTXRXOn)) ;;
  match tx with
  | None => ret false
  | Some nTXRXOn =>
      rx <- (if negb (TDeviceMode_eqb (m_DeviceMode d) DeviceModeTXOnly)
             then
               ok <- DMA_Start m_RXBuffers pRXCompletedHandler ;;
               if negb ok
               then modify_this (set_bError true) ;; ret None
               else ret (Some (Z.lor nTXRXOn (Z.lor CS_A_RXON CS_A_RXSEX)))
             else ret (Some nTXRXOn)) ;;
      match rx with
      | None => ret false
      | Some nTXRXOn =>
          (* enable TX and/or RX *)
          PeripheralEntry ;;
          v <- read32 ARM_PCM_CS_A ;;
          write32 ARM_PCM_CS_A (Z.lor v nTXRXOn) ;;
          PeripheralExit ;;
          ret true
      end
  end.

Definition Start : M bool :=
  d <- get_this ;;
  if m_bError d then ret false
  else
    r <- Start_codec ;;
    match r with
    | Return b => ret b
    | Next => Start_stream
    end.

(** ** Cancel, IsActive *)
Definition Cancel : M unit :=
  d <- get_this ;;
  (if negb (TDeviceMode_eqb (m_DeviceMode d) DeviceModeRXOnly)
   then emit (EvDMACancel m_TXBuffers)
   else ret tt) ;;
  (if negb (TDeviceMode_eqb (m_DeviceMode d) DeviceModeTXOnly)
   then emit (EvDMACancel m_RXBuffers)
   else ret tt).

Definition IsActive : M bool :=
  d <- get_this ;;
  tx <- (if negb (TDeviceMode_eqb (m_DeviceMode d) DeviceModeRXOnly)
         then DMA_IsActive m_TXBuffers
         else ret false) ;;
  if tx then ret true
  else
    rx <- (if negb (TDeviceMode_eqb (m_DeviceMode d) DeviceModeTXOnly)
           then DMA_IsActive m_RXBuffers
           else ret false) ;;
    if rx then ret true else ret false.

(** ** The completion handlers

    [pParam] is the device itself; the buffer contents are not modelled. *)
Definition TXCompletedHandler (bStatus : bool) (nChunkSize : Z) : M Z :=
  if negb bStatus
  then modify_this (set_bError true) ;; ret 0
  else
    tr <- get_trace ;;
    let n := GetChunk env tr nChunkSize in
    emit (EvGetChunk nChunkSize n) ;;
    ret n.

Definition RXCompletedHandler (bStatus : bool) (nChunkSize : Z) : M Z :=
  if negb bStatus
  then modify_this (set_bError true) ;; ret 0
  else
    emit (EvPutChunk nChunkSize) ;;
    ret 0.

(** ** The life of a device object

    Between construction and destruction the owner calls [Start],
    [Cancel] and [IsActive], and the DMA buffers call the completion
    handlers, in any order. *)
Inductive Call : Type :=
| CallStart
| CallCancel
| CallIsActive
| CallTXCompleted (bStatus : bool) (nChunkSize : Z)
| CallRXCompleted (bStatus : bool) (nChunkSize : Z).

Definition run_call (c : Call) : M unit :=
  match c with
  | CallStart => Start ;; ret tt
  | CallCancel => Cancel
  | CallIsActive => IsActive ;; ret tt
  | CallTXCompleted bStatus nChunkSize =>
      TXCompletedHandler bStatus nChunkSize ;; ret tt
  | CallRXCompleted bStatus nChunkSize =>
      RXCompletedHandler bStatus nChunkSize ;; ret tt
  end.

Fixpoint run_calls (cs : list Call) : M unit :=
  match cs with
  | [] => ret tt
  | c :: rest => run_call c ;; run_calls rest
  end.

End Device.

(** ** Definitions used to state the properties *)

(** The machine [m] after the calls [evs] were logged. *)
Definition logged (m : Machine) (evs : list Event) : Machine :=
  mkMachine (this m) (regs m) (trace m ++ evs).

(** Rounding of [n / d] to the nearest integer, halves upwards. *)
Definition round_div (n d : Z) : Z := (2 * n + d) / (2 * d).

(** The divider as the specification words it: [B = F / 64],
    [DivI = B / S], [R = B mod S], [DivF = round (R * 4096 / S)], with a
    carry into [DivI] when [DivF] exceeds 4095. *)
Definition spec_divider (F S : Z) : Z * Z :=
  let B := F / 64 in
  let DivI := B / S in
  let R := B mod S in
  let DivF := round_div (R * 4096) S in
  if 4095 <? DivF then (DivI + 1, 0) else (DivI, DivF).

(** [(DivI + DivF/4096) * S] is within one part in 4096 of [F/64]; both
    sides are multiplied by 4096. *)
Definition within_one_part_in_4096 (F S DivI DivF : Z) : Prop :=
  Z.abs ((4096 * DivI + DivF) * S - 4096 * (F / 64)) <= F / 64.

(** What is claimed of the divider pair for [F] and [S]. *)
Definition divider_ok (F S : Z) : Prop :=
  exists DivI DivF,
    ClockDivider F S = Some (DivI, DivF) /\
    1 <= DivI /\ 0 <= DivF <= 4095 /\
    within_one_part_in_4096 F S DivI DivF.

Definition is_ClockStart (e : Event) : bool :=
  match e with EvClockStart _ _ _ => true | _ => false end.

Definition is_I2CWrite (e : Event) : bool :=
  match e with EvI2CWrite _ _ _ _ => true | _ => false end.

(** The bytes of a bit-packed transaction as the specification words
    them: the top bit of the 9-bit value in bit 0 of the first byte, the
    7-bit register above it, the low 8 bits of the value in the second
    byte. *)
Definition packed_bytes (register value : Z) : Z * Z :=
  (Z.lor (Z.land (Z.shiftr value 8) 1) (Z.shiftl register 1),
   Z.land value 0xFF).

(** The transactions logged when the commands [cmds] are written to the
    device at [addr] and the bus answers [results]: one transaction for
    every answer, in table order. *)
Definition i2c_events (bus : nat) (addr : Z) (cmds : list (Z * Z))
    (results : list Z) : list Event :=
  map (fun cn => EvI2CWrite bus addr [fst (fst cn); snd (fst cn)] (snd cn))
      (combine cmds results).

(** The answers of a run over [cmds] that ended with [ok]: either every
    command was written and answered with 2, or the run stopped at the
    first answer that is not 2. *)
Definition transfer_outcome (cmds : list (Z * Z)) (results : list Z)
    (ok : bool) : Prop :=
  if ok
  then length results = length cmds /\ Forall (fun n => n = 2) results
  else exists pre n,
         results = pre ++ [n] /\ Forall (fun n => n = 2) pre /\ n <> 2 /\
         (length results <= length cmds)%nat.

(** The device with one of its two flags raised. *)
Definition mark_inited (m : Machine) : Machine :=
  mkMachine (set_bI2CInited true (this m)) (regs m) (trace m).

Definition mark_error (m : Machine) : Machine :=
  mkMachine (set_bError true (this m)) (regs m) (trace m).

(** [Start] reaches the codec initialisation (the test of lines
    163-165). *)
Definition codec_step_due (d : CI2SSoundBaseDevice) : bool :=
  negb (TDeviceMode_eqb (m_DeviceMode d) DeviceModeRXOnly)
  && isSome (m_pI2CMaster d)
  && negb (m_bI2CInited d).

(** The members that are set by the constructor only. *)
Definition same_config (d d' : CI2SSoundBaseDevice) : Prop :=
  m_nChunkSize d' = m_nChunkSize d /\
  m_bSlave d' = m_bSlave d /\
  m_pI2CMaster d' = m_pI2CMaster d /\
  m_ucI2CAddress d' = m_ucI2CAddress d /\
  m_DeviceMode d' = m_DeviceMode d.

Definition Pin_eqb (a b : Pin) : bool :=
  match a, b with
  | m_PCMCLKPin, m_PCMCLKPin => true
  | m_PCMFSPin, m_PCMFSPin => true
  | m_PCMDINPin, m_PCMDINPin => true
  | m_PCMDOUTPin, m_PCMDOUTPin => true
  | _, _ => false
  end.

(** The call assigns the pin or sets its mode. *)
Definition on_pin (p : Pin) (e : Event) : bool :=
  match e with
  | EvAssignPin q _ => Pin_eqb p q
  | EvSetMode q _ => Pin_eqb p q
  | _ => false
  end.

(** The call registers the receive completion handler, or is any other
    call to the receive DMA buffers. *)
Definition uses_rx (e : Event) : bool :=
  match e with
  | EvDMAStart m_RXBuffers _ _ => true
  | EvDMAStart _ pRXCompletedHandler _ => true
  | EvDMACancel m_RXBuffers => true
  | EvDMAIsActive m_RXBuffers _ => true
  | _ => false
  end.

Definition is_DMACancel (e : Event) : bool :=
  match e with EvDMACancel _ => true | _ => false end.

Definition is_failed_DMAStart (e : Event) : bool :=
  match e with EvDMAStart _ _ false => true | _ => false end.

Definition is_TXStarted (e : Event) : bool :=
  match e with
  | EvDMAStart m_TXBuffers pTXCompletedHandler true => true
  | _ => false
  end.

Definition is_RXStarted (e : Event) : bool :=
  match e with
  | EvDMAStart m_RXBuffers pRXCompletedHandler true => true
  | _ => false
  end.

(** Every DMA sub-pipeline the mode requires was started successfully
    during [evs], and no start failed. *)
Definition dma_ready (mode : TDeviceMode) (evs : list Event) : bool :=
  (TDeviceMode_eqb mode DeviceModeRXOnly || existsb is_TXStarted evs)
  && (TDeviceMode_eqb mode DeviceModeTXOnly || existsb is_RXStarted evs)
  && negb (existsb is_failed_DMAStart evs).

(** The TX-enable and RX-enable bits of a value of the CS_A register. *)
Definition enable_bits (v : Z) : Z := Z.land v (Z.lor CS_A_TXON CS_A_RXON).

(** The call is not a write to CS_A that changes the enable bits away
    from [bits]. *)
Definition keeps_enable_bits (bits : Z) (e : Event) : bool :=
  match e with
  | EvWrite32 ARM_PCM_CS_A v => enable_bits v =? bits
  | _ => true
  end.

(** The call touches neither the receive DMA buffers and their handler
    nor the data-in pin. *)
Definition no_rx_side (e : Event) : bool :=
  negb (uses_rx e) && negb (on_pin m_PCMDINPin e).

(** The call is neither an I2C transaction nor touches the data-out
    pin. *)
Definition no_codec_no_dout (e : Event) : bool :=
  negb (is_I2CWrite e) && negb (on_pin m_PCMDOUTPin e).

(** What every member function keeps when it takes the device from [d]
    to [d'] and logs [evs]: the configuration, the two sticky flags, no
    I2C transaction once one of the flags is up, and the gating of the
    calls by the device mode. *)
Definition step_summary (d d' : CI2SSoundBaseDevice) (evs : list Event)
    : Prop :=
  same_config d d' /\
  (m_bError d = true -> m_bError d' = true) /\
  (m_bI2CInited d = true -> m_bI2CInited d' = true) /\
  (m_bI2CInited d || m_bError d = true ->
   forallb (fun e => negb (is_I2CWrite e)) evs = true) /\
  (m_DeviceMode d = DeviceModeTXOnly -> forallb no_rx_side evs = true) /\
  (m_DeviceMode d = DeviceModeRXOnly ->
   forallb no_codec_no_dout evs = true).

(** ** Concrete environments and machines, for examples *)

(** The reference clock runs at 500 MHz, no codec answers on the I2C bus,
    the DMA buffers always start. *)
Definition env_no_codec : Env :=
  mkEnv 500000000 MachineModelOther
        (fun _ _ _ _ => -1) (fun _ _ => true) (fun _ _ => true)
        (fun _ n => n).

(** As before, with a codec that acknowledges every transaction. *)
Definition env_codec : Env :=
  mkEnv 500000000 MachineModelOther
        (fun _ _ _ data => Z.of_nat (length data)) (fun _ _ => true)
        (fun _ _ => true) (fun _ n => n).

(** As [env_codec], but the receive DMA buffers never start. *)
Definition env_rx_fails : Env :=
  mkEnv 500000000 MachineModelOther
        (fun _ _ _ data => Z.of_nat (length data))
        (fun _ buf => match buf with m_TXBuffers => true | m_RXBuffers => false end)
        (fun _ _ => true) (fun _ n => n).

(** The machine before the constructor runs: registers cleared, nothing
    logged, the members of the object not yet set. *)
Definition machine_reset : Machine :=
  mkMachine (mkDevice 0 false None 0 DeviceModeTXOnly false false)
            (fun _ => 0) [].

(** A constructed master device in duplex mode with chunk size 32, an
    I2C master and address 0 (probe for a codec), not yet started. *)
Definition machine_probe : Machine :=
  mkMachine (mkDevice 32 false (Some 1%nat) 0 DeviceModeTXRX false false)
            (fun _ => 0) [].

(** ** Further definitions used to state properties *)

(** [nTXRXOn] as [Start] accumulates it for the mode (lines 226-250). *)
Definition nTXRXOn_of (mode : TDeviceMode) : Z :=
  let n := 0 in
  let n := if negb (TDeviceMode_eqb mode DeviceModeRXOnly)
           then Z.lor n CS_A_TXON else n in
  if negb (TDeviceMode_eqb mode DeviceModeTXOnly)
  then Z.lor n (Z.lor CS_A_RXON CS_A_RXSEX) else n.

(** The discipline of the peripheral guard over a log, starting inside
    or outside the guard: [PeripheralEntry] only outside, [PeripheralExit]
    only inside, register writes only inside, calls to the I2C master, the
    DMA buffers and the sample source or sink only outside.  The result
    tells whether the log ends inside the guard; [None] is a violation. *)
Fixpoint guard_discipline (inside : bool) (evs : list Event) : option bool :=
  match evs with
  | [] => Some inside
  | e :: rest =>
      match e with
      | EvPeripheralEntry =>
          if inside then None else guard_discipline true rest
      | EvPeripheralExit =>
          if inside then guard_discipline false rest else None
      | EvWrite32 _ _ =>
          if inside then guard_discipline inside rest else None
      | EvI2CWrite _ _ _ _ | EvDMAStart _ _ _ | EvDMACancel _
      | EvDMAIsActive _ _ | EvGetChunk _ _ | EvPutChunk _ =>
          if inside then None else guard_discipline inside rest
      | _ => guard_discipline inside rest
      end
  end.

Definition is_ClockStop (e : Event) : bool :=
  match e with EvClockStop => true | _ => false end.

Definition is_Write32 (e : Event) : bool :=
  match e with EvWrite32 _ _ => true | _ => false end.

Definition is_DMAStart (e : Event) : bool :=
  match e with EvDMAStart _ _ _ => true | _ => false end.

(** The call assigns the pin to a GPIO line. *)
Definition assigns_pin (p : Pin) (e : Event) : bool :=
  match e with EvAssignPin q _ => Pin_eqb p q | _ => false end.

(** The call reverts the pin to input mode. *)
Definition reverts_pin (p : Pin) (e : Event) : bool :=
  match e with EvSetMode q GPIOModeInput => Pin_eqb p q | _ => false end.

(** The registers that hold the channel framing; [RunI2S] programs
    them. *)
Definition is_framing_reg (r : Reg) : bool :=
  match r with
  | ARM_PCM_MODE_A | ARM_PCM_RXC_A | ARM_PCM_TXC_A => true
  | _ => false
  end.

(** Calls that are neither [Start] nor a completion with
    [bStatus = FALSE]. *)
Definition quiet_call (c : Call) : bool :=
  match c with
  | CallStart => false
  | CallCancel | CallIsActive => true
  | CallTXCompleted bStatus _ | CallRXCompleted bStatus _ => bStatus
  end.

(** The buffers the mode uses. *)
Definition mode_uses (mode : TDeviceMode) (buf : DMABuffers) : bool :=
  match buf with
  | m_TXBuffers => negb (TDeviceMode_eqb mode DeviceModeRXOnly)
  | m_RXBuffers => negb (TDeviceMode_eqb mode DeviceModeTXOnly)
  end.

(** The call asks a buffer of the mode whether it is active. *)
Definition is_query_of (mode : TDeviceMode) (e : Event) : bool :=
  match e with EvDMAIsActive buf _ => mode_uses mode buf | _ => false end.

Definition answers_active (e : Event) : bool :=
  match e with EvDMAIsActive _ true => true | _ => false end.

(** The call does not write a framing register. *)
Definition no_framing_write (e : Event) : bool :=
  match e with EvWrite32 r _ => negb (is_framing_reg r) | _ => true end.

(** The pins a device of the mode drives: clock and frame sync always,
    data-in unless transmit-only, data-out unless receive-only. *)
Definition pin_used (mode : TDeviceMode) (p : Pin) : bool :=
  match p with
  | m_PCMCLKPin | m_PCMFSPin => true
  | m_PCMDINPin => negb (TDeviceMode_eqb mode DeviceModeTXOnly)
  | m_PCMDOUTPin => negb (TDeviceMode_eqb mode DeviceModeRXOnly)
  end.

(** Fields of the MODE_A register: frame length, frame sync length, and
    the four clock and frame sync mode bits. *)
Definition MODE_A_FLEN (v : Z) : Z := Z.land (Z.shiftr v MODE_A_FLEN__SHIFT) 0x3FF.
Definition MODE_A_FSLEN (v : Z) : Z := Z.land (Z.shiftr v MODE_A_FSLEN__SHIFT) 0x3FF.

(** Fields of a channel register (TXC_A or RXC_A): for each channel the
    enable bit, the width extension bit, the position and the width. *)
Definition CH1_fields (v : Z) : bool * bool * Z * Z :=
  (Z.testbit v 30, Z.testbit v 31,
   Z.land (Z.shiftr v TXC_A_CH1POS__SHIFT) 0x3FF,
   Z.land (Z.shiftr v TXC_A_CH1WID__SHIFT) 0xF).
Definition CH2_fields (v : Z) : bool * bool * Z * Z :=
  (Z.testbit v 14, Z.testbit v 15,
   Z.land (Z.shiftr v TXC_A_CH2POS__SHIFT) 0x3FF,
   Z.land (Z.shiftr v TXC_A_CH2WID__SHIFT) 0xF).

(** * HD44780 display device (addon/display/hd44780device.cpp)

    A shallow embedding of [CHD44780Device]: the escape sequence
    interpreter [Write], the cursor and erase functions, the shadow
    buffer [m_Buffer] and the nibble protocol of [WriteByte] over the I2C
    expander or the GPIO pins.

    The scalar members of the object, the shadow buffer and a log of
    every call to a pin, the I2C master, the timer and the spin lock form
    the machine state.  The driver reads nothing back, so there is no
    environment.  [None] stands for a failed [assert], for an access to
    [m_Buffer] outside its bounds, or for the deletion of a pointer that
    was never initialised. *)
Module HD44780.

Definition HD44780_MAX_COLUMNS : Z := 40.
Definition HD44780_MAX_ROWS : Z := 4.

Definition HD44780_CMD : Z := 0.
Definition HD44780_DATA : Z := 1.

Definition LCD_DATA_BIT : Z := Z.shiftl 1 0.
Definition LCD_ENABLE_BIT : Z := Z.shiftl 1 2.
Definition LCD_BACKLIGHT_BIT : Z := Z.shiftl 1 3.

Inductive TDisplayState : Type :=
| ScreenStateStart
| ScreenStateEscape
| ScreenStateBracket
| ScreenStateNumber1
| ScreenStateQuestionMark
| ScreenStateSemicolon
| ScreenStateNumber2
| ScreenStateNumber3
| ScreenStateAutoPage.

(** The pin members; [pRW] stands for the pin [m_pRW] points to. *)
Inductive LCDPin : Type :=
| m_D4
| m_D5
| m_D6
| m_D7
| m_EN
| m_RS
| pRW.

(** The log of calls to collaborators.  [EvPinWrite p true] is
    [p.Write (HIGH)]; [EvI2CWrite bus a b] is
    [m_pI2CMaster->Write (a, &b, 1)], whose result the driver ignores. *)
Inductive Event : Type :=
| EvPinWrite (pin : LCDPin) (bHigh : bool)
| EvI2CWrite (bus : nat) (ucAddress : Z) (nByte : Z)
| EvSimpleusDelay (nMicroSeconds : Z)
| EvSimpleMsDelay (nMilliSeconds : Z)
| EvAcquire
| EvRelease.

(** The value of the member [m_pRW]: the null pointer, the object that
    [new CGPIOPin (nPin, GPIOModeOutput)] returned, or what the memory
    held when no constructor initialiser set the member. *)
Inductive TPinPointer : Type :=
| PinNull
| PinObject (nPin : Z)
| PinUninitialised.

(** The scalar members.  [m_nState] only ever holds one of the nine
    enumerators, so the [default] branch of the outer [switch] of [Write]
    is never taken.  [m_pI2CMaster] is a pointer, [None] is the null
    pointer. *)
Record CHD44780Device : Type := mkDevice {
  m_nColumns : Z;
  m_nRows : Z;
  m_pRW : TPinPointer;
  m_pI2CMaster : option nat;
  m_nAddress : Z;
  m_bBlockCursor : bool;
  m_nState : TDisplayState;
  m_nCursorX : Z;
  m_nCursorY : Z;
  m_bCursorOn : bool;
  m_nParam1 : Z;
  m_nParam2 : Z;
  m_bAutoPage : bool
}.

Definition set_pRW (v : TPinPointer) (d : CHD44780Device) :=
  mkDevice (m_nColumns d) (m_nRows d) v (m_pI2CMaster d) (m_nAddress d)
           (m_bBlockCursor d) (m_nState d) (m_nCursorX d) (m_nCursorY d)
           (m_bCursorOn d) (m_nParam1 d) (m_nParam2 d) (m_bAutoPage d).

Definition set_nState (v : TDisplayState) (d : CHD44780Device) :=
  mkDevice (m_nColumns d) (m_nRows d) (m_pRW d) (m_pI2CMaster d) (m_nAddress d)
           (m_bBlockCursor d) v (m_nCursorX d) (m_nCursorY d)
           (m_bCursorOn d) (m_nParam1 d) (m_nParam2 d) (m_bAutoPage d).

Definition set_nCursorX (v : Z) (d : CHD44780Device) :=
  mkDevice (m_nColumns d) (m_nRows d) (m_pRW d) (m_pI2CMaster d) (m_nAddress d)
           (m_bBlockCursor d) (m_nState d) v (m_nCursorY d)
           (m_bCursorOn d) (m_nParam1 d) (m_nParam2 d) (m_bAutoPage d).

Definition set_nCursorY (v : Z) (d : CHD44780Device) :=
  mkDevice (m_nColumns d) (m_nRows d) (m_pRW d) (m_pI2CMaster d) (m_nAddress d)
           (m_bBlockCursor d) (m_nState d) (m_nCursorX d) v
           (m_bCursorOn d) (m_nParam1 d) (m_nParam2 d) (m_bAutoPage d).

Definition set_bCursorOn (v : bool) (d : CHD44780Device) :=
  mkDevice (m_nColumns d) (m_nRows d) (m_pRW d) (m_pI2CMaster d) (m_nAddress d)
           (m_bBlockCursor d) (m_nState d) (m_nCursorX d) (m_nCursorY d)
           v (m_nParam1 d) (m_nParam2 d) (m_bAutoPage d).

Definition set_nParam1 (v : Z) (d : CHD44780Device) :=
  mkDevice (m_nColumns d) (m_nRows d) (m_pRW d) (m_pI2CMaster d) (m_nAddress d)
           (m_bBlockCursor d) (m_nState d) (m_nCursorX d) (m_nCursorY d)
           (m_bCursorOn d) v (m_nParam2 d) (m_bAutoPage d).

Definition set_nParam2 (v : Z) (d : CHD44780Device) :=
  mkDevice (m_nColumns d) (m_nRows d) (m_pRW d) (m_pI2CMaster d) (m_nAddress d)
           (m_bBlockCursor d) (m_nState d) (m_nCursorX d) (m_nCursorY d)
           (m_bCursorOn d) (m_nParam1 d) v (m_bAutoPage d).

Definition set_bAutoPage (v : bool) (d : CHD44780Device) :=
  mkDevice (m_nColumns d) (m_nRows d) (m_pRW d) (m_pI2CMaster d) (m_nAddress d)
           (m_bBlockCursor d) (m_nState d) (m_nCursorX d) (m_nCursorY d)
           (m_bCursorOn d) (m_nParam1 d) (m_nParam2 d) v.

(** [m_Buffer y x] is [m_Buffer[y][x]], a character held as its byte;
    only the entries with [y < 4] and [x < 40] exist. *)
Record Machine : Type := mkMachine {
  this : CHD44780Device;
  m_Buffer : Z -> Z -> Z;
  trace : list Event
}.

Definition M (A : Type) : Type := Machine -> option (A * Machine).

Definition ret {A} (a : A) : M A := fun m => Some (a, m).

Definition bind {A B} (c : M A) (k : A -> M B) : M B :=
  fun m => match c m with
           | Some (a, m') => k a m'
           | None => None
           end.

Declare Scope hd_scope.
Notation "x <- c1 ;; c2" := (bind c1 (fun x => c2))
  (at level 61, c1 at next level, right associativity) : hd_scope.
Notation "c1 ;; c2" := (bind c1 (fun _ => c2))
  (at level 61, right associativity) : hd_scope.
#[local] Open Scope hd_scope.

Definition abort {A} : M A := fun _ => None.

Definition get_this : M CHD44780Device := fun m => Some (this m, m).

Definition modify_this (f : CHD44780Device -> CHD44780Device) : M unit :=
  fun m => Some (tt, mkMachine (f (this m)) (m_Buffer m) (trace m)).

Definition emit (e : Event) : M unit :=
  fun m => Some (tt, mkMachine (this m) (m_Buffer m) (trace m ++ [e])).

Definition in_buffer (nPosY nPosX : Z) : bool :=
  (0 <=? nPosY) && (nPosY <? HD44780_MAX_ROWS)
  && (0 <=? nPosX) && (nPosX <? HD44780_MAX_COLUMNS).

(** The buffer with one entry replaced. *)
Definition buffer_with (buf : Z -> Z -> Z) (nPosY nPosX chChar : Z)
    : Z -> Z -> Z :=
  fun y x => if (y =? nPosY) && (x =? nPosX) then chChar else buf y x.

(** [m_Buffer[nPosY][nPosX]] as a value. *)
Definition buffer_load (nPosY nPosX : Z) : M Z :=
  fun m => if in_buffer nPosY nPosX then Some (m_Buffer m nPosY nPosX, m)
           else None.

(** [m_Buffer[nPosY][nPosX] = chChar]. *)
Definition buffer_store (nPosY nPosX chChar : Z) : M unit :=
  fun m => if in_buffer nPosY nPosX
           then Some (tt, mkMachine (this m)
                            (buffer_with (m_Buffer m) nPosY nPosX chChar)
                            (trace m))
           else None.

(** [for (unsigned i = first; i < bound; i++) body (i)], for a bound that
    the body does not change. *)
Fixpoint for_loop (n : nat) (i : Z) (body : Z -> M unit) : M unit :=
  match n with
  | O => ret tt
  | S n' => body i ;; for_loop n' (i + 1) body
  end.

Definition for_range (first bound : Z) (body : Z -> M unit) : M unit :=
  for_loop (Z.to_nat (bound - first)) first body.

(** ** WriteHalfByte, WriteByte *)
Definition WriteHalfByte (nData mode : Z) : M unit :=
  let nData := u8 nData in
  d <- get_this ;;
  match m_pI2CMaster d with
  | Some bus =>
      (* I2C interface *)
      let nByte := u8 (Z.lor (Z.land (Z.shiftl nData 4) 0xF0) LCD_ENABLE_BIT) in
      let nByte := u8 (Z.lor nByte LCD_BACKLIGHT_BIT) in
      let nByte := if mode =? HD44780_DATA
                   then u8 (Z.lor nByte LCD_DATA_BIT) else nByte in
      emit (EvI2CWrite bus (m_nAddress d) nByte) ;;
      emit (EvSimpleusDelay 5) ;;
      let nByte := u8 (Z.land nByte (Z.lnot LCD_ENABLE_BIT)) in
      emit (EvI2CWrite bus (m_nAddress d) nByte) ;;
      emit (EvSimpleusDelay 100)
  | None =>
      (* 4-pin data interface *)
      (if mode =? HD44780_DATA then emit (EvPinWrite m_RS true) else ret tt) ;;
      emit (EvPinWrite m_D4 (negb (Z.land nData 1 =? 0))) ;;
      emit (EvPinWrite m_D5 (negb (Z.land nData 2 =? 0))) ;;
      emit (EvPinWrite m_D6 (negb (Z.land nData 4 =? 0))) ;;
      emit (EvPinWrite m_D7 (negb (Z.land nData 8 =? 0))) ;;
      emit (EvPinWrite m_EN true) ;;
      emit (EvSimpleusDelay 1) ;;
      emit (EvPinWrite m_EN false) ;;
      emit (EvSimpleusDelay 50) ;;
      (if mode =? HD44780_DATA then emit (EvPinWrite m_RS false) else ret tt)
  end.

Definition WriteByte (nData mode : Z) : M unit :=
  let nData := u8 nData in
  WriteHalfByte (Z.shiftr nData 4) mode ;;
  WriteHalfByte (Z.land nData 0x0F) mode.

(** ** GetDDRAMAddress, SetChar, SetCursor *)
Definition GetDDRAMAddress (nPosX nPosY : Z) : M Z :=
  d <- get_this ;;
  let uchAddress := u8 nPosX in
  if nPosY =? 0 then ret uchAddress
  else if nPosY =? 1 then ret (u8 (uchAddress + 0x40))
  else if nPosY =? 2 then ret (u8 (uchAddress + m_nColumns d))
  else if nPosY =? 3 then ret (u8 (uchAddress + u32 (0x40 + m_nColumns d)))
  else abort.

Definition SetChar (nPosX nPosY chChar : Z) : M unit :=
  a <- GetDDRAMAddress nPosX nPosY ;;
  WriteByte (Z.lor 0x80 a) HD44780_CMD ;;
  WriteByte (u8 chChar) HD44780_DATA ;;
  buffer_store nPosY nPosX (u8 chChar).

Definition SetCursor : M unit :=
  d <- get_this ;;
  if m_bCursorOn d
  then a <- GetDDRAMAddress (m_nCursorX d) (m_nCursorY d) ;;
       WriteByte (Z.lor 0x80 a) HD44780_CMD
  else ret tt.

(** ** The cursor and erase functions *)
Definition CarriageReturn : M unit := modify_this (set_nCursorX 0).

Definition ClearLineEnd : M unit :=
  d <- get_this ;;
  for_range (m_nCursorX d) (m_nColumns d)
    (fun nPosX => SetChar nPosX (m_nCursorY d) 32).

Definition ClearDisplayEnd : M unit :=
  d <- get_this ;;
  if (m_nCursorX d =? 0) && (m_nCursorY d =? 0)
  then
    WriteByte 0x01 HD44780_CMD ;;
    emit (EvSimpleMsDelay 2) ;;
    for_range 0 (m_nRows d) (fun nPosY =>
      for_range 0 (m_nColumns d) (fun nPosX =>
        buffer_store nPosY nPosX 32))
  else
    ClearLineEnd ;;
    for_range (u32 (m_nCursorY d + 1)) (m_nRows d) (fun nPosY =>
      for_range 0 (m_nColumns d) (fun nPosX =>
        SetChar nPosX nPosY 32)).

Definition Scroll : M unit :=
  d <- get_this ;;
  for_range 1 (m_nRows d) (fun nPosY =>
    for_range 0 (m_nColumns d) (fun nPosX =>
      c <- buffer_load nPosY nPosX ;;
      SetChar nPosX (nPosY - 1) c)) ;;
  for_range 0 (m_nColumns d) (fun nPosX =>
    SetChar nPosX (u32 (m_nRows d - 1)) 32).

Definition CursorDown : M unit :=
  d <- get_this ;;
  let y := u32 (m_nCursorY d + 1) in
  modify_this (set_nCursorY y) ;;
  if m_nRows d <=? y
  then
    if negb (m_bAutoPage d)
    then Scroll ;;
         modify_this (fun d => set_nCursorY (u32 (m_nCursorY d - 1)) d)
    else modify_this (set_nCursorY 0)
  else ret tt.

Definition CursorHome : M unit :=
  modify_this (set_nCursorX 0) ;;
  modify_this (set_nCursorY 0).

Definition CursorLeft : M unit :=
  d <- get_this ;;
  if 0 <? m_nCursorX d
  then modify_this (set_nCursorX (u32 (m_nCursorX d - 1)))
  else
    if 0 <? m_nCursorY d
    then modify_this (set_nCursorX (u32 (m_nColumns d - 1))) ;;
         modify_this (set_nCursorY (u32 (m_nCursorY d - 1)))
    else ret tt.

Definition CursorMove (nRow nColumn : Z) : M unit :=
  d <- get_this ;;
  let nColumn := u32 (nColumn - 1) in
  if nColumn <? m_nColumns d
  then
    let nRow := u32 (nRow - 1) in
    if nRow <? m_nRows d
    then modify_this (set_nCursorX nColumn) ;;
         modify_this (set_nCursorY nRow)
    else ret tt
  else ret tt.

Definition NewLine : M unit :=
  CarriageReturn ;;
  CursorDown.

Definition CursorRight : M unit :=
  d <- get_this ;;
  let x := u32 (m_nCursorX d + 1) in
  modify_this (set_nCursorX x) ;;
  if m_nColumns d <=? x then NewLine else ret tt.

Definition CursorUp : M unit :=
  d <- get_this ;;
  if 0 <? m_nCursorY d
  then modify_this (set_nCursorY (u32 (m_nCursorY d - 1)))
  else ret tt.

Definition DisplayChar (chChar : Z) : M unit :=
  let uchChar := u8 chChar in
  if 32 <=? uchChar
  then
    let uchChar := if (0x80 <=? uchChar) && (uchChar <=? 0x87)
                   then u8 (uchChar - 0x80) else uchChar in
    d <- get_this ;;
    SetChar (m_nCursorX d) (m_nCursorY d) uchChar ;;
    CursorRight
  else ret tt.

Definition EraseChars (nCount : Z) : M unit :=
  if nCount =? 0 then ret tt
  else
    d <- get_this ;;
    let nEndX := u32 (m_nCursorX d + nCount) in
    let nEndX := if m_nColumns d <? nEndX then m_nColumns d else nEndX in
    for_range (m_nCursorX d) nEndX
      (fun nPosX => SetChar nPosX (m_nCursorY d) 32).

Definition SetAutoPageMode (bEnable : bool) : M unit :=
  modify_this (set_bAutoPage bEnable).

Definition SetCursorMode (bVisible : bool) : M unit :=
  modify_this (set_bCursorOn bVisible) ;;
  d <- get_this ;;
  WriteByte (if m_bCursorOn d
             then (if m_bBlockCursor d then 0x0D else 0x0E)
             else 0x0C) HD44780_CMD.

Definition Tabulator : M unit :=
  d <- get_this ;;
  let x := u32 (u32 (m_nCursorX d + 8) / 8 * 8) in
  modify_this (set_nCursorX x) ;;
  if m_nColumns d <=? x then NewLine else ret tt.

(** ** Write (char chChar)

    Characters are bytes; the comparisons of the source come out the
    same for a signed and an unsigned [char]. *)
Definition is_digit (chChar : Z) : bool := (48 <=? chChar) && (chChar <=? 57).

Definition goto_Start : M unit := modify_this (set_nState ScreenStateStart).

Definition Write_char (chChar : Z) : M unit :=
  d <- get_this ;;
  match m_nState d with
  | ScreenStateStart =>
      if chChar =? 8 (* '\b' *) then CursorLeft
      else if chChar =? 9 (* '\t' *) then Tabulator
      else if chChar =? 10 (* '\n' *) then NewLine
      else if chChar =? 13 (* '\r' *) then CarriageReturn
      else if chChar =? 27 (* '\x1b' *)
      then modify_this (set_nState ScreenStateEscape)
      else DisplayChar chChar
  | ScreenStateEscape =>
      if chChar =? 91 (* '[' *)
      then modify_this (set_nState ScreenStateBracket)
      else if chChar =? 100 (* 'd' *)
      then modify_this (set_nState ScreenStateAutoPage)
      else goto_Start
  | ScreenStateBracket =>
      if chChar =? 63 (* '?' *)
      then modify_this (set_nState ScreenStateQuestionMark)
      else if chChar =? 65 (* 'A' *) then CursorUp ;; goto_Start
      else if chChar =? 66 (* 'B' *) then CursorDown ;; goto_Start
      else if chChar =? 67 (* 'C' *) then CursorRight ;; goto_Start
      else if chChar =? 68 (* 'D' *) then CursorLeft ;; goto_Start
      else if chChar =? 72 (* 'H' *) then CursorHome ;; goto_Start
      else if chChar =? 74 (* 'J' *) then ClearDisplayEnd ;; goto_Start
      else if chChar =? 75 (* 'K' *) then ClearLineEnd ;; goto_Start
      else if is_digit chChar
      then modify_this (set_nParam1 (u32 (chChar - 48))) ;;
           modify_this (set_nState ScreenStateNumber1)
      else goto_Start
  | ScreenStateNumber1 =>
      if chChar =? 59 (* ';' *)
      then modify_this (set_nState ScreenStateSemicolon)
      else if chChar =? 88 (* 'X' *)
      then EraseChars (m_nParam1 d) ;; goto_Start
      else if is_digit chChar
      then
        let p := u32 (u32 (m_nParam1 d * 10) + (chChar - 48)) in
        modify_this (set_nParam1 p) ;;
        if 99 <? p then goto_Start else ret tt
      else goto_Start
  | ScreenStateSemicolon =>
      if is_digit chChar
      then modify_this (set_nParam2 (u32 (chChar - 48))) ;;
           modify_this (set_nState ScreenStateNumber2)
      else goto_Start
  | ScreenStateQuestionMark =>
      if is_digit chChar
      then modify_this (set_nParam1 (u32 (chChar - 48))) ;;
           modify_this (set_nState ScreenStateNumber3)
      else goto_Start
  | ScreenStateNumber2 =>
      if chChar =? 72 (* 'H' *)
      then CursorMove (m_nParam1 d) (m_nParam2 d) ;; goto_Start
      else if is_digit chChar
      then
        let p := u32 (u32 (m_nParam2 d * 10) + (chChar - 48)) in
        modify_this (set_nParam2 p) ;;
        if 199 <? p then goto_Start else ret tt
      else goto_Start
  | ScreenStateNumber3 =>
      if (chChar =? 104 (* 'h' *)) || (chChar =? 108 (* 'l' *))
      then
        (if m_nParam1 d =? 25
         then SetCursorMode (chChar =? 104)
         else ret tt) ;;
        goto_Start
      else if is_digit chChar
      then
        let p := u32 (u32 (m_nParam1 d * 10) + (chChar - 48)) in
        modify_this (set_nParam1 p) ;;
        if 99 <? p then goto_Start else ret tt
      else goto_Start
  | ScreenStateAutoPage =>
      if chChar =? 43 (* '+' *) then SetAutoPageMode true ;; goto_Start
      else if chChar =? 42 (* '*' *) then SetAutoPageMode false ;; goto_Start
      else goto_Start
  end.

(** ** Write (const void *pBuffer, size_t nCount)

    The buffer is the list of its [nCount] characters. *)
Fixpoint Write_chars (pChar : list Z) : M unit :=
  match pChar with
  | [] => ret tt
  | chChar :: rest => Write_char chChar ;; Write_chars rest
  end.

Definition Write (pBuffer : list Z) : M Z :=
  emit EvAcquire ;;
  Write_chars pBuffer ;;
  SetCursor ;;
  emit EvRelease ;;
  ret (Z.of_nat (length pBuffer)).

(** ** DefineCharFont

    [FontData n] is [FontData[n]]. *)
Definition DefineCharFont (chChar : Z) (FontData : Z -> Z) : M unit :=
  let uchChar := u8 chChar in
  if (uchChar <? 0x80) || (0x87 <? uchChar) then ret tt
  else
    let uchChar := u8 (uchChar - 0x80) in
    let uchCGRAMAddress := u8 (Z.shiftl uchChar 3) in
    for_range 0 8 (fun nLine =>
      WriteByte (Z.lor 0x40 (uchCGRAMAddress + nLine)) HD44780_CMD ;;
      WriteByte (Z.land (FontData nLine) 0x1F) HD44780_DATA).

(** ** Initialize, constructors, destructor *)
Definition Initialize : M bool :=
  (* set 4-bit mode, line count and font *)
  WriteHalfByte 0x02 HD44780_CMD ;;
  d <- get_this ;;
  WriteByte (if m_nRows d =? 1 then 0x20 else 0x28) HD44780_CMD ;;
  SetCursorMode true ;;
  SetAutoPageMode false ;;
  CursorHome ;;
  ClearDisplayEnd ;;
  (* set move cursor right, do not shift display *)
  WriteByte 0x06 HD44780_CMD ;;
  ret true.

(** The constructors set the members they name and leave the cursor, the
    parameters, the two mode flags and the buffer as they find them
    (uninitialised); the second constructor does not name [m_pRW]
    either.  The pin members are built by the constructor of
    [CGPIOPin], which belongs to other source files; [bNewOK] tells
    whether [new CGPIOPin] returned an object. *)
Definition Constructor_GPIO (nColumns nRows nRWPin : Z) (bBlockCursor : bool)
    (bNewOK : bool) : M unit :=
  modify_this (fun d =>
    mkDevice nColumns nRows PinNull None 0 bBlockCursor ScreenStateStart
             (m_nCursorX d) (m_nCursorY d) (m_bCursorOn d)
             (m_nParam1 d) (m_nParam2 d) (m_bAutoPage d)) ;;
  (if nColumns <=? HD44780_MAX_COLUMNS then ret tt else abort) ;;
  (if nRows <=? HD44780_MAX_ROWS then ret tt else abort) ;;
  emit (EvPinWrite m_EN false) ;;
  emit (EvPinWrite m_RS false) ;;
  if negb (nRWPin =? 0)
  then
    if bNewOK
    then modify_this (set_pRW (PinObject nRWPin)) ;;
         (* set to pin write, we do not read *)
         emit (EvPinWrite pRW false)
    else ret tt
  else ret tt.

Definition Constructor_I2C (pI2CMaster : option nat) (nAddress : Z)
    (nColumns nRows : Z) (bBlockCursor : bool) : M unit :=
  modify_this (fun d =>
    mkDevice nColumns nRows (m_pRW d) pI2CMaster nAddress bBlockCursor
             ScreenStateStart
             (m_nCursorX d) (m_nCursorY d) (m_bCursorOn d)
             (m_nParam1 d) (m_nParam2 d) (m_bAutoPage d)) ;;
  (if nColumns <=? HD44780_MAX_COLUMNS then ret tt else abort) ;;
  (if nRows <=? HD44780_MAX_ROWS then ret tt else abort).

(** [delete m_pRW]: nothing for the null pointer, the destructor of
    [CGPIOPin] (of other source files) for the object; deleting a pointer
    that was never initialised is undefined and counts as a failure. *)
Definition delete_pRW : M unit :=
  d <- get_this ;;
  match m_pRW d with
  | PinNull => ret tt
  | PinObject _ => ret tt
  | PinUninitialised => abort
  end.

Definition Destructor : M unit :=
  (* return to 8-bit mode *)
  WriteByte 0x30 HD44780_CMD ;;
  delete_pRW ;;
  modify_this (set_pRW PinNull).

Definition GetColumns (d : CHD44780Device) : Z := m_nColumns d.
Definition GetRows (d : CHD44780Device) : Z := m_nRows d.

(** ** Definitions used to state the properties *)

(** The machine [m] after the calls [evs] were logged. *)
Definition logged (m : Machine) (evs : list Event) : Machine :=
  mkMachine (this m) (m_Buffer m) (trace m ++ evs).

(** The display has between 1 and 40 columns and between 1 and 4 rows,
    and the cursor is on it. *)
Definition cursor_on_display (d : CHD44780Device) : Prop :=
  1 <= m_nColumns d <= HD44780_MAX_COLUMNS /\
  1 <= m_nRows d <= HD44780_MAX_ROWS /\
  0 <= m_nCursorX d < m_nColumns d /\
  0 <= m_nCursorY d < m_nRows d.

(** The members the constructors set for good. *)
Definition setup (d : CHD44780Device)
    : Z * Z * TPinPointer * option nat * Z * bool :=
  (m_nColumns d, m_nRows d, m_pRW d, m_pI2CMaster d, m_nAddress d,
   m_bBlockCursor d).

(** Where a row starts in the display data RAM. *)
Definition row_offset (nColumns nPosY : Z) : Z :=
  if nPosY =? 0 then 0
  else if nPosY =? 1 then 0x40
  else if nPosY =? 2 then nColumns
  else 0x40 + nColumns.

(** The code the display is sent for a character: the eight definable
    characters 0x80..0x87 are the codes 0..7. *)
Definition display_code (chChar : Z) : Z :=
  if (0x80 <=? chChar) && (chChar <=? 0x87) then chChar - 0x80 else chChar.

(** A number below 1000 in decimal digits, without leading zeros. *)
Definition decimal (n : Z) : list Z :=
  if n <? 10 then [48 + n]
  else if n <? 100 then [48 + n / 10; 48 + n mod 10]
  else [48 + n / 100; 48 + n / 10 mod 10; 48 + n mod 10].

(** The buffer after a loop whose body takes the buffer from [b] to
    [F i b]. *)
Fixpoint loop_buffer (F : Z -> (Z -> Z -> Z) -> Z -> Z -> Z) (n : nat)
    (i : Z) (buf : Z -> Z -> Z) : Z -> Z -> Z :=
  match n with
  | O => buf
  | S n' => loop_buffer F n' (i + 1) (F i buf)
  end.

(** From [m] to [m'] the scalar members stay, calls are logged, and the
    buffer becomes [newbuf]. *)
Definition buffer_step (m m' : Machine) (newbuf : Z -> Z -> Z) : Prop :=
  this m' = this m /\
  (forall y x, m_Buffer m' y x = newbuf y x) /\
  exists evs, trace m' = trace m ++ evs.

(** The entry [m_Buffer[y][x]] belongs to the display. *)
Definition on_display (d : CHD44780Device) (y x : Z) : bool :=
  (0 <=? y) && (y <? m_nRows d) && (0 <=? x) && (x <? m_nColumns d).

(** The program returns on every machine whose cursor is on the
    display, leaves the cursor on the display and the setup alone, and
    stores to no buffer entry outside the display. *)
Definition keeps {A} (c : M A) : Prop :=
  forall m,
    cursor_on_display (this m) ->
    exists a m',
      c m = Some (a, m') /\
      cursor_on_display (this m') /\ setup (this m') = setup (this m) /\
      forall y x, on_display (this m) y x = false ->
                  m_Buffer m' y x = m_Buffer m y x.

(** Several calls of [Write], with their results. *)
Fixpoint Write_calls (bufs : list (list Z)) : M (list Z) :=
  match bufs with
  | [] => ret []
  | pBuffer :: rest =>
      n <- Write pBuffer ;;
      ns <- Write_calls rest ;;
      ret (n :: ns)
  end.

(** The life of a display object: construction, [Initialize], calls of
    [Write], destruction. *)
Definition lifetime (construct : M unit) (bufs : list (list Z))
    : M (bool * list Z) :=
  construct ;;
  bOK <- Initialize ;;
  ns <- Write_calls bufs ;;
  Destructor ;;
  ret (bOK, ns).

(** Memory before a constructor has run: nothing initialised. *)
Definition machine_raw : Machine :=
  mkMachine
    (mkDevice 7 9 PinUninitialised (Some 3%nat) 5 true ScreenStateNumber2
              77 13 false 1 2 true)
    (fun y x => y + x) [].

(** A 16x2 display on the I2C bus with the cursor at the end of the
    last row, and a 20x4 display on GPIO pins with the cursor at home. *)
Definition machine_16x2 : Machine :=
  mkMachine
    (mkDevice 16 2 PinNull (Some 1%nat) 0x27 false ScreenStateStart
              15 1 true 0 0 false)
    (fun _ _ => 32) [].

Definition machine_20x4 : Machine :=
  mkMachine
    (mkDevice 20 4 PinNull None 0 true ScreenStateStart 0 0 true 0 0 false)
    (fun y x => 65 + y) [].

(** The largest display the constructors accept. *)
Definition machine_40x4 : Machine :=
  mkMachine
    (mkDevice 40 4 PinNull None 0 false ScreenStateStart 0 0 true 0 0 false)
    (fun _ _ => 32) [].

End HD44780.

(** * Properties *)

(** ** Arithmetic of the clock divider *)

Lemma u32_small (x : Z) : 0 <= x < 2 ^ 32 -> u32 x = x.
Proof. intros H. unfold u32. now apply Z.mod_small. Qed.

(** [round_div] is the nearest integer: the quotient lies within one
    half of [n / d], and a half is rounded upwards. *)
Lemma round_div_nearest (n d : Z) :
  0 < d -> 2 * n - d < 2 * d * round_div n d <= 2 * n + d.
Proof.
  intros Hd. unfold round_div.
  pose proof (Z.div_mod (2 * n + d) (2 * d) ltac:(lia)) as E.
  pose proof (Z.mod_pos_bound (2 * n + d) (2 * d) ltac:(lia)) as B.
  lia.
Qed.

(** Adding [d / 2] before the truncating division rounds to nearest,
    also for an odd [d]. *)
Lemma add_half_div_round (n d : Z) :
  0 < d -> (n + d / 2) / d = round_div n d.
Proof.
  intros Hd. unfold round_div.
  pose proof (Z.div_mod d 2 ltac:(lia)) as Ed.
  pose proof (Z.mod_pos_bound d 2 ltac:(lia)) as Bd.
  pose proof (Z.div_mod (n + d / 2) d ltac:(lia)) as E.
  pose proof (Z.mod_pos_bound (n + d / 2) d ltac:(lia)) as B.
  apply Z.div_unique_pos with (r := 2 * ((n + d / 2) mod d) + d mod 2); lia.
Qed.

Section ClockDividerFacts.

Variables F S : Z.
Hypothesis F_range : 0 < F < 2 ^ 32.
Hypothesis S_range : 8000 <= S <= 192000.

Lemma nTemp_range : 0 <= ClockDivider_nTemp F S < S.
Proof. unfold ClockDivider_nTemp. apply Z.mod_pos_bound. lia. Qed.

Lemma nDivF_no_wrap :
  ClockDivider_nDivF F S = (ClockDivider_nTemp F S * 4096 + S / 2) / S.
Proof.
  unfold ClockDivider_nDivF.
  pose proof nTemp_range as T.
  assert (0 <= S / 2 <= 96000) as Hh.
  { split; [apply Z.div_pos; lia | apply Z.div_le_upper_bound; lia]. }
  rewrite (u32_small (_ * 4096)) by lia.
  rewrite u32_small by lia.
  reflexivity.
Qed.

Lemma nDivF_round :
  ClockDivider_nDivF F S = round_div (F / 64 mod S * 4096) S.
Proof.
  rewrite nDivF_no_wrap. rewrite add_half_div_round by lia. reflexivity.
Qed.

Lemma nDivF_range : 0 <= ClockDivider_nDivF F S <= 4096.
Proof.
  rewrite nDivF_no_wrap.
  pose proof nTemp_range as T.
  assert (0 <= S / 2 /\ 2 * (S / 2) <= S) as Hh.
  { pose proof (Z.div_mod S 2 ltac:(lia)).
    pose proof (Z.mod_pos_bound S 2 ltac:(lia)). lia. }
  split.
  - apply Z.div_pos; lia.
  - apply Z.lt_succ_r. apply Z.div_lt_upper_bound; nia.
Qed.

Lemma nDivI_range : 0 <= ClockDivider_nDivI F S < 2 ^ 26.
Proof.
  unfold ClockDivider_nDivI, CHANLEN, CHANS. change (32 * 2) with 64.
  assert (0 <= F / 64 < 2 ^ 26) as HB.
  { split; [apply Z.div_pos; lia | apply Z.div_lt_upper_bound; lia]. }
  split.
  - apply Z.div_pos; lia.
  - apply Z.div_lt_upper_bound; nia.
Qed.

(** The code computes the divider of the specification. *)
Lemma ClockDivider_spec :
  F mod 64 = 0 -> ClockDivider F S = Some (spec_divider F S).
Proof.
  intros Hm. unfold ClockDivider, spec_divider.
  replace (0 <? F) with true by (symmetry; apply Z.ltb_lt; lia).
  replace (8000 <=? S) with true by (symmetry; apply Z.leb_le; lia).
  replace (S <=? 192000) with true by (symmetry; apply Z.leb_le; lia).
  change (CHANLEN * CHANS) with 64. rewrite Hm. cbn [negb andb Z.eqb].
  pose proof nDivF_range as RF. pose proof nDivI_range as RI.
  replace (ClockDivider_nDivF F S <=? 4096) with true
    by (symmetry; apply Z.leb_le; lia).
  cbn [negb]. rewrite <- nDivF_round.
  destruct (4095 <? ClockDivider_nDivF F S).
  - rewrite u32_small by lia. reflexivity.
  - reflexivity.
Qed.

(** The divider times the sample rate misses [F / 64] by at most half a
    4096th of the sample rate. *)
Lemma spec_divider_error :
  2 * Z.abs ((4096 * fst (spec_divider F S) + snd (spec_divider F S)) * S
             - 4096 * (F / 64)) <= S.
Proof.
  unfold spec_divider.
  pose proof (round_div_nearest (F / 64 mod S * 4096) S ltac:(lia)) as N.
  pose proof (Z.div_mod (F / 64) S ltac:(lia)) as E.
  pose proof (Z.mod_pos_bound (F / 64) S ltac:(lia)) as B.
  pose proof nDivF_range as RF. rewrite nDivF_round in RF.
  destruct (4095 <? round_div (F / 64 mod S * 4096) S) eqn:C; cbn [fst snd].
  - apply Z.ltb_lt in C.
    assert (round_div (F / 64 mod S * 4096) S = 4096) as E4 by lia.
    rewrite E4 in N. cbn beta. lia.
  - lia.
Qed.

Lemma spec_divider_DivF_range : 0 <= snd (spec_divider F S) <= 4095.
Proof.
  unfold spec_divider.
  pose proof nDivF_range as RF. rewrite nDivF_round in RF.
  destruct (4095 <? round_div (F / 64 mod S * 4096) S) eqn:C; cbn [snd].
  - lia.
  - apply Z.ltb_ge in C. lia.
Qed.

Lemma spec_divider_DivI_positive : S <= F / 64 -> 1 <= fst (spec_divider F S).
Proof.
  intros H. unfold spec_divider.
  assert (1 <= F / 64 / S) by (apply Z.div_le_lower_bound; lia).
  destruct (4095 <? _); cbn [fst]; lia.
Qed.

End ClockDividerFacts.

(** ** Running the monadic programs *)

(** Symbolic execution on a machine given by its three components. *)
Ltac run_monad :=
  cbv [bind ret assert abort get_this get_trace modify_this emit read32
       write32 PeripheralEntry PeripheralExit usDelay logged
       DMA_Start DMA_IsActive
       this regs trace m_nChunkSize m_bSlave m_pI2CMaster m_ucI2CAddress
       m_DeviceMode m_bI2CInited m_bError set_bError set_bI2CInited
       negb andb orb TDeviceMode_eqb Reg_eqb isSome fst snd].

Ltac flatten_trace :=
  repeat rewrite <- app_assoc; cbn [app].

(** The constructor of a master device starts the clock generator first,
    with the pair of [ClockDivider], and never again. *)
Lemma Constructor_master (env : Env) (S nChunkSize : Z) (pI2C : option nat)
    (addr : Z) (mode : TDeviceMode) (m : Machine) (nDivI nDivF : Z) :
  32 <= nChunkSize -> Z.land nChunkSize 1 = 0 ->
  ClockDivider (GetGPIOClockSourceRate env) S = Some (nDivI, nDivF) ->
  exists m' rest,
    Constructor env S nChunkSize false pI2C addr mode m = Some (tt, m') /\
    trace m' = trace m ++
      EvClockStart nDivI nDivF (if 0 <? nDivF then 1 else 0) :: rest /\
    forallb (fun e => negb (is_ClockStart e)) rest = true.
Proof.
  intros Hc He Hd. destruct m as [d rg tr].
  unfold Constructor, RunI2S. rewrite Hd.
  apply Z.leb_le in Hc. apply Z.eqb_eq in He.
  run_monad. rewrite Hc, He.
  destruct (GetMachineModel env), mode;
    flatten_trace; (do 2 eexists); (split; [reflexivity|]);
    (split; [reflexivity|]); reflexivity.
Qed.

(** The constructor of a slave device does not start the clock
    generator, whatever the sample rate. *)
Lemma Constructor_slave (env : Env) (S nChunkSize : Z) (pI2C : option nat)
    (addr : Z) (mode : TDeviceMode) (m : Machine) :
  32 <= nChunkSize -> Z.land nChunkSize 1 = 0 ->
  exists m' evs,
    Constructor env S nChunkSize true pI2C addr mode m = Some (tt, m') /\
    trace m' = trace m ++ evs /\
    forallb (fun e => negb (is_ClockStart e)) evs = true.
Proof.
  intros Hc He. destruct m as [d rg tr].
  unfold Constructor, RunI2S.
  apply Z.leb_le in Hc. apply Z.eqb_eq in He.
  run_monad. rewrite Hc, He.
  destruct (GetMachineModel env), mode;
    flatten_trace; (do 2 eexists); (split; [reflexivity|]);
    (split; [reflexivity|]); reflexivity.
Qed.

(** ** The clock divider of the constructor *)

(** C1: in master role the constructor starts the clock generator with
    the divider of the specification ([B = F / 64], [DivI = B / S],
    [R = B mod S], [DivF] the rounded [R * 4096 / S], carried into [DivI]
    above 4095), and in slave role it computes no divider and does not
    start the clock generator. *)
Theorem C1_clock_divider_by_role (env : Env) (S nChunkSize : Z)
    (pI2C : option nat) (addr : Z) (mode : TDeviceMode) (m : Machine) :
  32 <= nChunkSize -> Z.land nChunkSize 1 = 0 ->
  (0 < GetGPIOClockSourceRate env < 2 ^ 32 ->
   GetGPIOClockSourceRate env mod 64 = 0 ->
   8000 <= S <= 192000 ->
   let DivI := fst (spec_divider (GetGPIOClockSourceRate env) S) in
   let DivF := snd (spec_divider (GetGPIOClockSourceRate env) S) in
   ClockDivider (GetGPIOClockSourceRate env) S = Some (DivI, DivF) /\
   exists m' rest,
     Constructor env S nChunkSize false pI2C addr mode m = Some (tt, m') /\
     trace m' = trace m ++
       EvClockStart DivI DivF (if 0 <? DivF then 1 else 0) :: rest /\
     forallb (fun e => negb (is_ClockStart e)) rest = true)
  /\
  (exists m' evs,
     Constructor env S nChunkSize true pI2C addr mode m = Some (tt, m') /\
     trace m' = trace m ++ evs /\
     forallb (fun e => negb (is_ClockStart e)) evs = true).
Proof.
  intros Hc He. split.
  - intros HF Hm HS DivI DivF.
    assert (ClockDivider (GetGPIOClockSourceRate env) S = Some (DivI, DivF))
      as E.
    { rewrite (ClockDivider_spec _ _ HF HS Hm). subst DivI DivF.
      now destruct (spec_divider _ _). }
    split; [exact E|].
    now apply Constructor_master.
  - now apply Constructor_slave.
Qed.

Lemma C1_clock_divider_by_role_witness :
  (32 <= 256 /\ Z.land 256 1 = 0) /\
  exists m' rest,
    Constructor env_no_codec 48000 256 false None 0 DeviceModeTXRX
                machine_reset = Some (tt, m') /\
    trace m' = EvClockStart 162 3115 1 :: rest.
Proof.
  split; [split; [lia | reflexivity]|].
  destruct (C1_clock_divider_by_role env_no_codec 48000 256 None 0
              DeviceModeTXRX machine_reset ltac:(lia) eq_refl) as [Hm _].
  destruct Hm as [_ (m' & rest & E & T & _)];
    [cbn; lia | reflexivity | lia |].
  exists m', rest. split; [exact E | exact T].
Defined.

(** C2, as claimed, fails for a reference clock slower than 64 times the
    sample rate: for [F = 64] and [S = 8000] the integer divider is 0. *)
Lemma C2_counterexample :
  64 mod 64 = 0 /\ 8000 <= 8000 <= 192000 /\ ~ divider_ok 64 8000.
Proof.
  split; [reflexivity|]. split; [lia|].
  intros (DivI & DivF & E & HI & _).
  vm_compute in E. injection E as <- <-. lia.
Qed.

(** C2, amended: for a reference clock [F] divisible by 64 with
    [F / 64] at least the sample rate [S], and [S] in [8000, 192000], the
    divider pair has [DivI >= 1], [0 <= DivF <= 4095], and
    [(DivI + DivF/4096) * S] is within one part in 4096 of [F / 64]. *)
Theorem C2_divider_bounds (F S : Z) :
  0 <= F < 2 ^ 32 -> F mod 64 = 0 -> 8000 <= S <= 192000 -> S <= F / 64 ->
  divider_ok F S.
Proof.
  intros HF Hm HS HB.
  assert (0 < F) as Hpos.
  { destruct (Z.eq_dec F 0) as [->|]; [cbn in HB; lia | lia]. }
  assert (0 < F < 2 ^ 32) as HF' by lia.
  exists (fst (spec_divider F S)), (snd (spec_divider F S)).
  split.
  { rewrite (ClockDivider_spec _ _ HF' HS Hm). now destruct (spec_divider F S). }
  split; [now apply spec_divider_DivI_positive|].
  split; [now apply spec_divider_DivF_range|].
  unfold within_one_part_in_4096.
  pose proof (spec_divider_error F S HS). lia.
Qed.

Lemma C2_divider_bounds_witness :
  (0 <= 500000000 < 2 ^ 32 /\ 500000000 mod 64 = 0 /\
   8000 <= 44100 <= 192000 /\ 44100 <= 500000000 / 64) /\
  divider_ok 500000000 44100.
Proof.
  split.
  - repeat split; try lia; try reflexivity; vm_compute; discriminate.
  - apply C2_divider_bounds; try lia; try reflexivity.
    vm_compute; discriminate.
Defined.

(** C3, as claimed, fails: the remainder of 300000 by 44100 is not 24600
    and the fractional divider is not 2285. *)
Lemma C3_counterexample :
  ~ (19200000 / (CHANLEN * CHANS) = 300000 /\
     ClockDivider_nDivI 19200000 44100 = 6 /\
     ClockDivider_nTemp 19200000 44100 = 24600 /\
     ClockDivider_nDivF 19200000 44100 = 2285).
Proof.
  intros (_ & _ & R & _). vm_compute in R. discriminate.
Qed.

(** C3, amended: for [F = 19200000] and [S = 44100] the calculator
    yields [B = 300000], [DivI = 6], remainder [R = 35400] and
    [DivF = 3288]. *)
Theorem C3_example_divider :
  19200000 / (CHANLEN * CHANS) = 300000 /\
  ClockDivider_nDivI 19200000 44100 = 6 /\
  ClockDivider_nTemp 19200000 44100 = 35400 /\
  ClockDivider_nDivF 19200000 44100 = 3288 /\
  ClockDivider 19200000 44100 = Some (6, 3288).
Proof. repeat split. Qed.

(** ** The sample range *)

(** C10: [GetRangeMin] is [-(2^23)+1 = -8388607] and [GetRangeMax] is
    [(2^23)-1 = 8388607] for every device, a symmetric 24-bit range. *)
Theorem C10_sample_range (d : CI2SSoundBaseDevice) :
  GetRangeMin d = - (2 ^ 23) + 1 /\ GetRangeMin d = -8388607 /\
  GetRangeMax d = 2 ^ 23 - 1 /\ GetRangeMax d = 8388607 /\
  GetRangeMin d = - GetRangeMax d.
Proof. repeat split. Qed.

(** ** The codec initialisation sequences *)

Lemma logged_logged (m : Machine) (evs1 evs2 : list Event) :
  logged (logged m evs1) evs2 = logged m (evs1 ++ evs2).
Proof. unfold logged; cbn. now rewrite app_assoc. Qed.

Lemma logged_nil (m : Machine) : logged m [] = m.
Proof. destruct m. unfold logged; cbn. now rewrite app_nil_r. Qed.

(** The loop writes the commands in order, stops at the first answer
    that is not 2, and changes nothing but the log. *)
Lemma send_commands_spec (env : Env) (addr : Z) (cmds : list (Z * Z)) :
  forall (m : Machine) (bus : nat),
    m_pI2CMaster (this m) = Some bus ->
    exists ok results,
      send_commands env addr cmds m
        = Some (ok, logged m (i2c_events bus addr cmds results)) /\
      transfer_outcome cmds results ok.
Proof.
  induction cmds as [|c rest IH]; intros m bus Hbus.
  - exists true, []. cbn. rewrite logged_nil. repeat split. constructor.
  - cbn [send_commands]. unfold I2C_Write.
    unfold bind at 1. unfold bind at 1. unfold get_this at 1.
    rewrite Hbus. unfold bind at 1. unfold get_trace at 1.
    unfold bind at 1. unfold emit at 1. unfold ret at 1.
    set (n := I2CMaster_Write env (trace m) bus addr [fst c; snd c]).
    fold (logged m [EvI2CWrite bus addr [fst c; snd c] n]).
    unfold sizeof_command.
    destruct (n =? 2) eqn:En; cbn [negb].
    + apply Z.eqb_eq in En.
      destruct (IH (logged m [EvI2CWrite bus addr [fst c; snd c] n]) bus Hbus)
        as (ok & results & E & O).
      exists ok, (n :: results). rewrite E, logged_logged. split.
      * reflexivity.
      * destruct ok; cbn [transfer_outcome] in *.
        -- destruct O as [L A]. split; [cbn; lia | now constructor].
        -- destruct O as (pre & k & -> & A & K & L).
           exists (n :: pre), k. repeat split; auto.
           cbn in *. lia.
    + apply Z.eqb_neq in En.
      exists false, [n]. split; [now destruct rest|].
      exists [], n. repeat split; auto. cbn. lia.
Qed.

(** For a 7-bit register and a 9-bit value the macro [SHIFT_BIT] yields
    the packed bytes, and storing them in a [u8] loses nothing. *)
Lemma SHIFT_BIT_packed (r v : Z) :
  0 <= r < 128 -> 0 <= v < 512 -> SHIFT_BIT r v = packed_bytes r v.
Proof.
  intros Hr Hv. unfold SHIFT_BIT, packed_bytes. f_equal.
  - rewrite Z.shiftr_land. change (Z.shiftr 256 8) with (Z.ones 1).
    change 1 with (Z.ones 1) at 3.
    rewrite Z.land_ones by lia. rewrite Z.shiftl_mul_pow2 by lia.
    pose proof (Z.mod_pos_bound (Z.shiftr v 8) (2 ^ 1) ltac:(lia)) as B.
    change (2 ^ 1) with 2 in *.
    assert (Z.lor (Z.shiftr v 8 mod 2) (r * 2) = Z.shiftr v 8 mod 2 + r * 2)
      as E.
    { assert (Z.shiftr v 8 mod 2 = 0 \/ Z.shiftr v 8 mod 2 = 1) as [->| ->]
        by lia.
      - now rewrite Z.lor_0_l.
      - destruct r as [|p|p]; [reflexivity | | lia].
        rewrite Z.mul_comm. reflexivity. }
    rewrite E. unfold u8. apply Z.mod_small. lia.
  - change 255 with (Z.ones 8). rewrite Z.land_ones by lia.
    unfold u8. apply Z.mod_mod. lia.
Qed.

Lemma WM8960_settings_range :
  Forall (fun rv => 0 <= fst rv < 128 /\ 0 <= snd rv < 512) WM8960_settings.
Proof. unfold WM8960_settings. repeat constructor; cbn; lia. Qed.

Lemma initBytes_WM8960_packed :
  initBytes_WM8960
  = map (fun rv => packed_bytes (fst rv) (snd rv)) WM8960_settings.
Proof.
  unfold initBytes_WM8960. apply map_ext_in. intros [r v] Hin.
  pose proof WM8960_settings_range as R. rewrite Forall_forall in R.
  destruct (R _ Hin) as [Hr Hv]. now apply SHIFT_BIT_packed.
Qed.

(** C9: [InitWM8960] sends, for the table entries (register, value) in
    order, the two bytes
    [((value>>8)&1) | (register<<1)] and [value & 0xFF]; every register
    of the table has 7 bits and every value 9 bits; the sequence stops
    with failure at the first transaction that does not transfer exactly
    2 bytes, and succeeds when all transfer 2. *)
Theorem C9_WM8960_transactions (env : Env) (addr : Z) (m : Machine)
    (bus : nat) :
  m_pI2CMaster (this m) = Some bus ->
  Forall (fun rv => 0 <= fst rv < 128 /\ 0 <= snd rv < 512) WM8960_settings /\
  exists ok results,
    InitWM8960 env addr m
      = Some (ok, logged m
           (i2c_events bus addr
              (map (fun rv => packed_bytes (fst rv) (snd rv)) WM8960_settings)
              results)) /\
    transfer_outcome WM8960_settings results ok.
Proof.
  intros Hbus. split; [exact WM8960_settings_range|].
  unfold InitWM8960.
  destruct (send_commands_spec env addr initBytes_WM8960 m bus Hbus)
    as (ok & results & E & O).
  exists ok, results. rewrite <- initBytes_WM8960_packed. split; [exact E|].
  unfold initBytes_WM8960 in O.
  destruct ok; cbn [transfer_outcome] in *.
  - now rewrite length_map in O.
  - destruct O as (pre & n & ? & ? & ? & L). rewrite length_map in L.
    now exists pre, n.
Qed.

(** ** The codec step of [Start] *)

Lemma i2c_events_all_i2c (bus : nat) (addr : Z) (cmds : list (Z * Z))
    (results : list Z) :
  forallb is_I2CWrite (i2c_events bus addr cmds results) = true.
Proof.
  unfold i2c_events. induction (combine cmds results) as [|x l IH];
    [reflexivity | exact IH].
Qed.

Lemma InitPCM51xx_spec (env : Env) (addr : Z) (m : Machine) (bus : nat) :
  m_pI2CMaster (this m) = Some bus ->
  exists ok evs,
    InitPCM51xx env addr m = Some (ok, logged m evs) /\
    forallb is_I2CWrite evs = true.
Proof.
  intros Hbus. unfold InitPCM51xx.
  destruct (send_commands_spec env addr initBytes_PCM51xx m bus Hbus)
    as (ok & results & E & _).
  exists ok, (i2c_events bus addr initBytes_PCM51xx results).
  split; [exact E | apply i2c_events_all_i2c].
Qed.

Lemma InitWM8960_spec (env : Env) (addr : Z) (m : Machine) (bus : nat) :
  m_pI2CMaster (this m) = Some bus ->
  exists ok evs,
    InitWM8960 env addr m = Some (ok, logged m evs) /\
    forallb is_I2CWrite evs = true.
Proof.
  intros Hbus. unfold InitWM8960.
  destruct (send_commands_spec env addr initBytes_WM8960 m bus Hbus)
    as (ok & results & E & _).
  exists ok, (i2c_events bus addr initBytes_WM8960 results).
  split; [exact E | apply i2c_events_all_i2c].
Qed.

(** Replace a call of an init function by its outcome and go on. *)
Ltac step_init :=
  match goal with
  | |- context [InitPCM51xx ?e ?a ?m] =>
      let ok := fresh "ok" in
      let evs := fresh "evs" in
      let E := fresh "E" in
      let A := fresh "A" in
      destruct (InitPCM51xx_spec e a m _ eq_refl) as (ok & evs & E & A);
      rewrite E; clear E; destruct ok; run_monad
  | |- context [InitWM8960 ?e ?a ?m] =>
      let ok := fresh "ok" in
      let evs := fresh "evs" in
      let E := fresh "E" in
      let A := fresh "A" in
      destruct (InitWM8960_spec e a m _ eq_refl) as (ok & evs & E & A);
      rewrite E; clear E; destruct ok; run_monad
  end.

Lemma forallb_app_true {A} (p : A -> bool) (l1 l2 : list A) :
  forallb p l1 = true -> forallb p l2 = true -> forallb p (l1 ++ l2) = true.
Proof. intros H1 H2. rewrite forallb_app, H1, H2. reflexivity. Qed.

(** The codec step changes nothing but the log and the two flags; it
    logs I2C transactions only; when it is due it either raises the
    error flag and returns [FALSE], which happens for a fixed address
    only, or raises [m_bI2CInited] and falls through. *)
Lemma Start_codec_spec (env : Env) (m : Machine) :
  exists fl d' evs,
    Start_codec env m = Some (fl, mkMachine d' (regs m) (trace m ++ evs)) /\
    forallb is_I2CWrite evs = true /\
    ((codec_step_due (this m) = false /\
      fl = Next /\ d' = this m /\ evs = []) \/
     (codec_step_due (this m) = true /\
      fl = Next /\ d' = set_bI2CInited true (this m)) \/
     (codec_step_due (this m) = true /\ m_ucI2CAddress (this m) <> 0 /\
      fl = Return false /\ d' = set_bError true (this m))).
Proof.
  destruct m as [[chunk slave pI2C addr mode inited err] rg tr].
  unfold Start_codec, codec_step_due. run_monad.
  destruct mode, pI2C as [bus|], inited; cbn [negb andb];
    try (exists Next; eexists; exists []; rewrite app_nil_r;
         split; [reflexivity|]; split; [reflexivity|]; left; now repeat split).
  all: destruct (addr =? 0) eqn:Ea; cbn [negb];
    [| apply Z.eqb_neq in Ea; destruct (addr =? 26); cbn [negb]];
    repeat step_init; flatten_trace;
    (do 3 eexists); (split; [reflexivity|]);
    (split; [repeat apply forallb_app_true; assumption|]);
    right; first [ left; now repeat split | right; now repeat split ].
Qed.

(** ** The streaming part of [Start] *)

Lemma enable_bits_DMAEN (x : Z) :
  enable_bits (u32 (Z.lor x CS_A_DMAEN)) = enable_bits x.
Proof.
  unfold enable_bits, u32.
  rewrite <- Z.land_ones by lia.
  rewrite <- Z.land_assoc.
  change (Z.land (Z.ones 32) (Z.lor CS_A_TXON CS_A_RXON))
    with (Z.lor CS_A_TXON CS_A_RXON).
  rewrite Z.land_lor_distr_l.
  change (Z.land CS_A_DMAEN (Z.lor CS_A_TXON CS_A_RXON)) with 0.
  apply Z.lor_0_r.
Qed.

Ltac eval_preds :=
  cbn [forallb existsb is_I2CWrite is_DMACancel uses_rx on_pin Pin_eqb
       is_failed_DMAStart is_TXStarted is_RXStarted dma_ready
       keeps_enable_bits no_rx_side no_codec_no_dout TDeviceMode_eqb
       length firstn skipn Nat.sub negb andb orb app].

(** The streaming part, case by case: the mode gates the calls; a failed
    DMA start is the last call, raises the error flag and leaves the
    enable bits of CS_A as they were; otherwise the last three calls
    write CS_A under the peripheral guard, after every required DMA
    start has succeeded, and no earlier write changes the enable bits. *)
Lemma Start_stream_spec (env : Env) (m : Machine) :
  32 <= m_nChunkSize (this m) ->
  exists r d' rg' evs,
    Start_stream env m = Some (r, mkMachine d' rg' (trace m ++ evs)) /\
    forallb (fun e => negb (is_I2CWrite e) && negb (is_DMACancel e)) evs
      = true /\
    (m_DeviceMode (this m) = DeviceModeTXOnly ->
     forallb no_rx_side evs = true) /\
    (m_DeviceMode (this m) = DeviceModeRXOnly ->
     forallb no_codec_no_dout evs = true) /\
    (existsb is_failed_DMAStart evs = true -> r = false) /\
    (if r
     then
       d' = this m /\
       forallb (keeps_enable_bits (enable_bits (regs m ARM_PCM_CS_A)))
               (firstn (length evs - 3) evs) = true /\
       dma_ready (m_DeviceMode (this m)) (firstn (length evs - 3) evs)
         = true /\
       exists v,
         skipn (length evs - 3) evs
         = [EvPeripheralEntry; EvWrite32 ARM_PCM_CS_A v; EvPeripheralExit]
     else
       d' = set_bError true (this m) /\
       forallb (keeps_enable_bits (enable_bits (regs m ARM_PCM_CS_A))) evs
         = true /\
       enable_bits (rg' ARM_PCM_CS_A) = enable_bits (regs m ARM_PCM_CS_A) /\
       existsb is_failed_DMAStart (firstn (length evs - 1) evs) = false /\
       exists buf h,
         skipn (length evs - 1) evs = [EvDMAStart buf h false]).
Proof.
  destruct m as [[chunk slave pI2C addr mode inited err] rg tr].
  cbn [this m_nChunkSize regs trace m_DeviceMode]. intros Hc.
  apply Z.leb_le in Hc.
  unfold Start_stream. run_monad.
  destruct (chunk <? 64); rewrite ?Hc.
  all: destruct mode.
  all: repeat match goal with
    | |- context [DMABuffers_Start ?e ?t ?b] =>
      destruct (DMABuffers_Start e t b) eqn:?
    end.
  all: flatten_trace.
  all: (do 4 eexists); (split; [reflexivity|]).
  all: eval_preds; rewrite ?enable_bits_DMAEN, ?Z.eqb_refl; eval_preds.
  all: repeat split; try reflexivity; try discriminate;
    try (now eexists); try (now do 2 eexists).
Qed.

(** ** [Start] as a whole *)

Lemma Start_unfold (env : Env) (m : Machine) :
  Start env m =
  if m_bError (this m) then Some (false, m)
  else match Start_codec env m with
       | Some (Return b, m') => Some (b, m')
       | Some (Next, m') => Start_stream env m'
       | None => None
       end.
Proof.
  unfold Start, bind, get_this, ret.
  destruct (m_bError (this m)); [reflexivity|].
  destruct (Start_codec env m) as [[[|b] m']|]; reflexivity.
Qed.

(** A faulted device: [Start] returns [FALSE] and the machine is as
    before. *)
Lemma Start_faulted (env : Env) (m : Machine) :
  m_bError (this m) = true -> Start env m = Some (false, m).
Proof. intros H. rewrite Start_unfold, H. reflexivity. Qed.

Lemma forallb_weaken {A} (p q : A -> bool) (l : list A) :
  (forall x, p x = true -> q x = true) ->
  forallb p l = true -> forallb q l = true.
Proof.
  intros H. rewrite !forallb_forall. auto.
Qed.

Lemma i2c_no_rx_side (e : Event) : is_I2CWrite e = true -> no_rx_side e = true.
Proof. now destruct e. Qed.

Lemma step_summary_refl (d : CI2SSoundBaseDevice) : step_summary d d [].
Proof. unfold step_summary, same_config. now repeat split. Qed.

Lemma codec_step_due_true (d : CI2SSoundBaseDevice) :
  codec_step_due d = true ->
  m_DeviceMode d <> DeviceModeRXOnly /\ m_bI2CInited d = false.
Proof.
  unfold codec_step_due. destruct d as [? ? ? ? mode inited ?]; cbn.
  destruct mode, inited; cbn; try discriminate;
    rewrite ?andb_false_r; try discriminate; now split.
Qed.

Lemma step_summary_intro (d d' : CI2SSoundBaseDevice) (evs : list Event) :
  d' = d \/ d' = set_bError true d \/ d' = set_bI2CInited true d \/
    d' = set_bError true (set_bI2CInited true d) ->
  (m_bI2CInited d || m_bError d = true ->
   forallb (fun e => negb (is_I2CWrite e)) evs = true) ->
  (m_DeviceMode d = DeviceModeTXOnly -> forallb no_rx_side evs = true) ->
  (m_DeviceMode d = DeviceModeRXOnly ->
   forallb no_codec_no_dout evs = true) ->
  step_summary d d' evs.
Proof.
  intros Hd H1 H2 H3. unfold step_summary, same_config.
  destruct d as [chunk slave pI2C addr mode inited err].
  destruct Hd as [-> | [-> | [-> | ->]]]; cbn in *; now repeat split.
Qed.

Lemma not_i2c_of_stream (evs : list Event) :
  forallb (fun e => negb (is_I2CWrite e) && negb (is_DMACancel e)) evs = true ->
  forallb (fun e => negb (is_I2CWrite e)) evs = true.
Proof.
  apply forallb_weaken. intros e H. now apply andb_true_iff in H.
Qed.

Lemma Start_summary (env : Env) (m : Machine) :
  32 <= m_nChunkSize (this m) ->
  exists r d' rg' evs,
    Start env m = Some (r, mkMachine d' rg' (trace m ++ evs)) /\
    step_summary (this m) d' evs /\
    (codec_step_due (this m) = true ->
     m_bI2CInited d' || m_bError d' = true).
Proof.
  intros Hc. rewrite Start_unfold.
  destruct (m_bError (this m)) eqn:Herr.
  - exists false, (this m), (regs m), []. rewrite app_nil_r.
    split; [now destruct m|]. split; [apply step_summary_refl|].
    intros _. rewrite Herr. apply orb_true_r.
  - destruct (Start_codec_spec env m) as (fl & d1 & evs1 & E & A & Cases).
    rewrite E. clear E.
    destruct Cases as [(G & -> & -> & ->) | [(G & -> & ->) | (G & Ha & -> & ->)]].
    + destruct (Start_stream_spec env
                  (mkMachine (this m) (regs m) (trace m ++ [])) Hc)
        as (r & d' & rg' & evs & E2 & NI & Htx & Hrx & _ & Hr).
      rewrite E2. cbn [trace this regs] in *. rewrite app_nil_r.
      exists r, d', rg', evs. split; [reflexivity|].
      split; [| rewrite G; discriminate].
      apply step_summary_intro; auto using not_i2c_of_stream.
      destruct r; [left | right; left]; apply Hr.
    + destruct (codec_step_due_true _ G) as [Hmode Hinit].
      destruct (Start_stream_spec env
                  (mkMachine (set_bI2CInited true (this m)) (regs m)
                             (trace m ++ evs1)))
        as (r & d' & rg' & evs & E2 & NI & Htx & Hrx & _ & Hr);
        [now destruct m as [[]] |].
      rewrite E2. cbn [trace this regs] in *. rewrite <- app_assoc.
      exists r, d', rg', (evs1 ++ evs). split; [reflexivity|].
      assert (d' = set_bI2CInited true (this m) \/
              d' = set_bError true (set_bI2CInited true (this m))) as Hd
        by (destruct r; [left | right]; apply Hr).
      split.
      * apply step_summary_intro.
        -- tauto.
        -- rewrite Hinit, Herr. discriminate.
        -- intros Hm. apply forallb_app_true.
           ++ revert A. apply forallb_weaken, i2c_no_rx_side.
           ++ apply Htx. now destruct m as [[]].
        -- intros Hm. contradiction.
      * intros _. destruct Hd as [-> | ->]; now destruct m as [[]].
    + destruct (codec_step_due_true _ G) as [Hmode Hinit].
      exists false, (set_bError true (this m)), (regs m), evs1.
      split; [reflexivity|]. split.
      * apply step_summary_intro.
        -- tauto.
        -- rewrite Hinit, Herr. discriminate.
        -- intros Hm. revert A. apply forallb_weaken, i2c_no_rx_side.
        -- intros Hm. contradiction.
      * intros _. destruct m as [[]]. cbn. apply orb_true_r.
Qed.

(** ** The other member functions and sequences of calls *)

Lemma step_summary_trans (d d1 d2 : CI2SSoundBaseDevice)
    (evs1 evs2 : list Event) :
  step_summary d d1 evs1 -> step_summary d1 d2 evs2 ->
  step_summary d d2 (evs1 ++ evs2).
Proof.
  unfold step_summary, same_config.
  intros ((C1 & C2 & C3 & C4 & C5) & E1 & I1 & N1 & T1 & R1)
         ((D1 & D2 & D3 & D4 & D5) & E2 & I2 & N2 & T2 & R2).
  repeat split; try congruence; auto.
  - intros H. apply forallb_app_true; [auto|]. apply N2.
    apply orb_true_iff in H. apply orb_true_iff. destruct H; auto.
  - intros H. apply forallb_app_true; [auto|]. apply T2. congruence.
  - intros H. apply forallb_app_true; [auto|]. apply R2. congruence.
Qed.

Lemma run_call_summary (env : Env) (c : Call) (m : Machine) :
  32 <= m_nChunkSize (this m) ->
  exists d' rg' evs,
    run_call env c m = Some (tt, mkMachine d' rg' (trace m ++ evs)) /\
    step_summary (this m) d' evs.
Proof.
  intros Hc. destruct c as [| | |bStatus n|bStatus n].
  - destruct (Start_summary env m Hc) as (r & d' & rg' & evs & E & S & _).
    exists d', rg', evs. cbn [run_call]. unfold bind. rewrite E.
    split; [reflexivity | exact S].
  - destruct m as [[chunk slave pI2C addr mode inited err] rg tr].
    cbn [run_call]. unfold Cancel. run_monad.
    destruct mode; flatten_trace; (do 3 eexists);
      (split; [reflexivity|]);
      (apply step_summary_intro; [now left | | |]); intros; try reflexivity;
      discriminate.
  - destruct m as [[chunk slave pI2C addr mode inited err] rg tr].
    cbn [run_call]. unfold IsActive. run_monad.
    destruct mode;
      repeat match goal with
        | |- context [DMABuffers_IsActive ?e ?t ?b] =>
          destruct (DMABuffers_IsActive e t b) eqn:?
        end;
      flatten_trace; (do 3 eexists);
      (split; [reflexivity|]);
      (apply step_summary_intro; [now left | | |]); intros; try reflexivity;
      discriminate.
  - destruct m as [[chunk slave pI2C addr mode inited err] rg tr].
    cbn [run_call]. unfold TXCompletedHandler. run_monad.
    destruct bStatus; run_monad.
    + (do 3 eexists); (split; [reflexivity|]).
      apply step_summary_intro; [now left | | |]; intros; try reflexivity;
        now destruct mode.
    + exists (mkDevice chunk slave pI2C addr mode inited true), rg, [].
      rewrite app_nil_r. (split; [reflexivity|]).
      apply step_summary_intro; [right; now left | | |]; intros; reflexivity.
  - destruct m as [[chunk slave pI2C addr mode inited err] rg tr].
    cbn [run_call]. unfold RXCompletedHandler. run_monad.
    destruct bStatus; run_monad.
    + (do 3 eexists); (split; [reflexivity|]).
      apply step_summary_intro; [now left | | |]; intros; try reflexivity;
        now destruct mode.
    + exists (mkDevice chunk slave pI2C addr mode inited true), rg, [].
      rewrite app_nil_r. (split; [reflexivity|]).
      apply step_summary_intro; [right; now left | | |]; intros; reflexivity.
Qed.

Lemma run_calls_summary (env : Env) (cs : list Call) :
  forall m,
    32 <= m_nChunkSize (this m) ->
    exists d' rg' evs,
      run_calls env cs m = Some (tt, mkMachine d' rg' (trace m ++ evs)) /\
      step_summary (this m) d' evs.
Proof.
  induction cs as [|c cs IH]; intros m Hc.
  - exists (this m), (regs m), []. rewrite app_nil_r.
    split; [now destruct m | apply step_summary_refl].
  - destruct (run_call_summary env c m Hc) as (d1 & rg1 & evs1 & E1 & S1).
    destruct (IH (mkMachine d1 rg1 (trace m ++ evs1))) as (d2 & rg2 & evs2 & E2 & S2).
    { cbn. destruct S1 as ((-> & _) & _). exact Hc. }
    cbn [this trace] in *.
    exists d2, rg2, (evs1 ++ evs2). cbn [run_calls]. unfold bind.
    rewrite E1, E2, app_assoc. split; [reflexivity|].
    eapply step_summary_trans; eassumption.
Qed.

(** A faulted device stays faulted, and no call on it fails an
    assertion. *)
Lemma run_call_faulted (env : Env) (c : Call) (m : Machine) :
  m_bError (this m) = true ->
  exists m', run_call env c m = Some (tt, m') /\ m_bError (this m') = true.
Proof.
  intros Herr. destruct c as [| | |bStatus n|bStatus n].
  - exists m. cbn [run_call]. unfold bind. rewrite (Start_faulted _ _ Herr).
    now split.
  - destruct m as [[chunk slave pI2C addr mode inited err] rg tr].
    cbn in Herr. subst err.
    cbn [run_call]. unfold Cancel. run_monad.
    destruct mode; eexists; (split; [reflexivity|]); reflexivity.
  - destruct m as [[chunk slave pI2C addr mode inited err] rg tr].
    cbn in Herr. subst err.
    cbn [run_call]. unfold IsActive. run_monad.
    destruct mode;
      repeat match goal with
        | |- context [DMABuffers_IsActive ?e ?t ?b] =>
          destruct (DMABuffers_IsActive e t b) eqn:?
        end;
      eexists; (split; [reflexivity|]); reflexivity.
  - destruct m as [[chunk slave pI2C addr mode inited err] rg tr].
    cbn in Herr. subst err.
    cbn [run_call]. unfold TXCompletedHandler. run_monad.
    destruct bStatus; run_monad; eexists; (split; [reflexivity|]);
      reflexivity.
  - destruct m as [[chunk slave pI2C addr mode inited err] rg tr].
    cbn in Herr. subst err.
    cbn [run_call]. unfold RXCompletedHandler. run_monad.
    destruct bStatus; run_monad; eexists; (split; [reflexivity|]);
      reflexivity.
Qed.

Lemma run_calls_faulted (env : Env) (cs : list Call) :
  forall m,
    m_bError (this m) = true ->
    exists m', run_calls env cs m = Some (tt, m') /\ m_bError (this m') = true.
Proof.
  induction cs as [|c cs IH]; intros m Herr.
  - exists m. now split.
  - destruct (run_call_faulted env c m Herr) as (m1 & E1 & H1).
    destruct (IH m1 H1) as (m2 & E2 & H2).
    exists m2. cbn [run_calls]. unfold bind. rewrite E1. now split.
Qed.

(** ** The sticky fault flag *)

(** C4: a completion handler invoked with [bStatus = FALSE] raises the
    fault flag and returns 0; whatever is called afterwards, [Start]
    then returns [FALSE] and leaves the device, the registers and the
    log of calls exactly as they were: no codec transaction, no register
    write, no DMA start. *)
Theorem C4_fault_is_sticky (env : Env) (m : Machine) (nChunkSize : Z)
    (calls : list Call) :
  (exists m1,
     TXCompletedHandler env false nChunkSize m = Some (0, m1) /\
     m_bError (this m1) = true /\
     exists m2,
       run_calls env calls m1 = Some (tt, m2) /\
       Start env m2 = Some (false, m2)) /\
  (exists m1,
     RXCompletedHandler false nChunkSize m = Some (0, m1) /\
     m_bError (this m1) = true /\
     exists m2,
       run_calls env calls m1 = Some (tt, m2) /\
       Start env m2 = Some (false, m2)).
Proof.
  split.
  - exists (mark_error m). split; [reflexivity|]. split; [reflexivity|].
    destruct (run_calls_faulted env calls (mark_error m) eq_refl)
      as (m2 & E & H).
    exists m2. split; [exact E | now apply Start_faulted].
  - exists (mark_error m). split; [reflexivity|]. split; [reflexivity|].
    destruct (run_calls_faulted env calls (mark_error m) eq_refl)
      as (m2 & E & H).
    exists m2. split; [exact E | now apply Start_faulted].
Qed.

(** ** Codec initialisation happens once *)

(** C6: after a first [Start] that reached the codec step, no later
    call, in particular no later [Start], issues an I2C transaction,
    however many calls follow. *)
Theorem C6_codec_init_once (env : Env) (m : Machine) (calls : list Call) :
  32 <= m_nChunkSize (this m) ->
  m_bError (this m) = false ->
  codec_step_due (this m) = true ->
  exists r m1 m2 evs,
    Start env m = Some (r, m1) /\
    run_calls env calls m1 = Some (tt, m2) /\
    trace m2 = trace m1 ++ evs /\
    forallb (fun e => negb (is_I2CWrite e)) evs = true.
Proof.
  intros Hc _ Hdue.
  destruct (Start_summary env m Hc) as (r & d1 & rg1 & evs1 & E1 & S1 & F1).
  specialize (F1 Hdue).
  destruct (run_calls_summary env calls (mkMachine d1 rg1 (trace m ++ evs1)))
    as (d2 & rg2 & evs2 & E2 & S2).
  { cbn. destruct S1 as ((-> & _) & _). exact Hc. }
  exists r, (mkMachine d1 rg1 (trace m ++ evs1)),
         (mkMachine d2 rg2 ((trace m ++ evs1) ++ evs2)), evs2.
  split; [exact E1|]. split; [exact E2|]. split; [reflexivity|].
  destruct S2 as (_ & _ & _ & N & _). apply N. exact F1.
Qed.

(** ** The enable bits follow the DMA starts *)

Lemma i2c_keeps_enable_bits (bits : Z) (l : list Event) :
  forallb is_I2CWrite l = true -> forallb (keeps_enable_bits bits) l = true.
Proof. apply forallb_weaken. intros e H. now destruct e. Qed.

Lemma i2c_not_cancel (l : list Event) :
  forallb is_I2CWrite l = true ->
  forallb (fun e => negb (is_DMACancel e)) l = true.
Proof. apply forallb_weaken. intros e H. now destruct e. Qed.

Lemma i2c_existsb_false (p : Event -> bool) (l : list Event) :
  (forall e, is_I2CWrite e = true -> p e = false) ->
  forallb is_I2CWrite l = true -> existsb p l = false.
Proof.
  intros Hp. induction l as [|e l IH]; [reflexivity|].
  cbn. intros H. apply andb_true_iff in H as [He Hl].
  rewrite (Hp e He), (IH Hl). reflexivity.
Qed.

Lemma i2c_no_failed_start (l : list Event) :
  forallb is_I2CWrite l = true -> existsb is_failed_DMAStart l = false.
Proof. apply i2c_existsb_false. intros e H. now destruct e. Qed.

Lemma dma_ready_after_i2c (mode : TDeviceMode) (l l' : list Event) :
  forallb is_I2CWrite l = true ->
  dma_ready mode (l ++ l') = dma_ready mode l'.
Proof.
  intros H. unfold dma_ready. rewrite !existsb_app.
  rewrite (i2c_no_failed_start l H).
  rewrite (i2c_existsb_false is_TXStarted l) by (try assumption; now intros []).
  rewrite (i2c_existsb_false is_RXStarted l) by (try assumption; now intros []).
  reflexivity.
Qed.

Lemma not_cancel_of_stream (evs : list Event) :
  forallb (fun e => negb (is_I2CWrite e) && negb (is_DMACancel e)) evs = true ->
  forallb (fun e => negb (is_DMACancel e)) evs = true.
Proof.
  apply forallb_weaken. intros e H. now apply andb_true_iff in H.
Qed.

(** C7: the calls of [Start] split into [pre] and [post].  No write of
    [pre] changes the TX/RX enable bits of CS_A.  When [Start] returns
    [TRUE], every DMA sub-pipeline the mode requires was started
    successfully during [pre], and [post] is the write to CS_A under the
    peripheral guard; otherwise [post] is empty.  When a DMA start
    fails, it is the last call of [Start]: the fault flag is up, the
    result is [FALSE], the enable bits of CS_A are as before, and no DMA
    buffer was cancelled. *)
Theorem C7_enable_after_dma_start (env : Env) (m : Machine) :
  32 <= m_nChunkSize (this m) ->
  exists r m' pre post,
    Start env m = Some (r, m') /\
    trace m' = trace m ++ pre ++ post /\
    forallb (keeps_enable_bits (enable_bits (regs m ARM_PCM_CS_A))) pre
      = true /\
    forallb (fun e => negb (is_DMACancel e)) (pre ++ post) = true /\
    (if r
     then dma_ready (m_DeviceMode (this m)) pre = true /\
          exists v,
            post = [EvPeripheralEntry; EvWrite32 ARM_PCM_CS_A v;
                    EvPeripheralExit]
     else post = []) /\
    (existsb is_failed_DMAStart (pre ++ post) = true ->
     r = false /\ m_bError (this m') = true /\ post = [] /\
     enable_bits (regs m' ARM_PCM_CS_A) = enable_bits (regs m ARM_PCM_CS_A) /\
     exists pre0 buf h,
       pre = pre0 ++ [EvDMAStart buf h false] /\
       existsb is_failed_DMAStart pre0 = false).
Proof.
  intros Hc. rewrite Start_unfold.
  destruct (m_bError (this m)) eqn:Herr.
  { exists false, m, [], []. cbn [app]. rewrite app_nil_r.
    repeat split; try reflexivity; discriminate. }
  destruct (Start_codec_spec env m) as (fl & d1 & evs1 & E & A & Cases).
  rewrite E. clear E.
  assert (fl = Return false \/
          fl = Next /\ m_nChunkSize d1 = m_nChunkSize (this m) /\
          m_DeviceMode d1 = m_DeviceMode (this m)) as [-> | (-> & Hc1 & Hm1)].
  { destruct Cases as [(_ & -> & -> & _) | [(_ & -> & ->) | (_ & _ & -> & _)]];
      [right | right | left]; try reflexivity; now destruct m as [[]]. }
  { exists false, (mkMachine d1 (regs m) (trace m ++ evs1)), evs1, [].
    rewrite !app_nil_r. split; [reflexivity|]. split; [reflexivity|].
    split; [now apply i2c_keeps_enable_bits|].
    split; [now apply i2c_not_cancel|]. split; [reflexivity|].
    rewrite (i2c_no_failed_start _ A). discriminate. }
  destruct (Start_stream_spec env (mkMachine d1 (regs m) (trace m ++ evs1)))
    as (r & d' & rg' & evs & E2 & NI & _ & _ & Hf & Hr);
    [cbn; lia|].
  rewrite E2. cbn [this regs trace] in *. clear E2.
  pose proof (firstn_skipn (length evs - 3) evs) as Split3.
  pose proof (firstn_skipn (length evs - 1) evs) as Split1.
  destruct r.
  - destruct Hr as (-> & K & R & v & P). rewrite P in Split3.
    exists true, (mkMachine d1 rg' ((trace m ++ evs1) ++ evs)),
           (evs1 ++ firstn (length evs - 3) evs),
           [EvPeripheralEntry; EvWrite32 ARM_PCM_CS_A v; EvPeripheralExit].
    split; [reflexivity|]. cbn [trace].
    split; [now rewrite <- !app_assoc, Split3|].
    split; [apply forallb_app_true; [now apply i2c_keeps_enable_bits | exact K]|].
    split.
    { rewrite <- app_assoc, Split3.
      apply forallb_app_true; [now apply i2c_not_cancel|].
      now apply not_cancel_of_stream. }
    split.
    { split; [| now exists v]. rewrite dma_ready_after_i2c by exact A.
      rewrite <- Hm1. exact R. }
    rewrite <- app_assoc, Split3, existsb_app, (i2c_no_failed_start _ A).
    cbn [orb]. intros H. specialize (Hf H). discriminate.
  - destruct Hr as (-> & K & B & F0 & buf & h & P). rewrite P in Split1.
    exists false,
           (mkMachine (set_bError true d1) rg' ((trace m ++ evs1) ++ evs)),
           (evs1 ++ evs), [].
    split; [reflexivity|]. cbn [trace this regs].
    split; [now rewrite !app_nil_r, app_assoc|].
    split; [apply forallb_app_true; [now apply i2c_keeps_enable_bits | exact K]|].
    split.
    { rewrite app_nil_r.
      apply forallb_app_true; [now apply i2c_not_cancel|].
      now apply not_cancel_of_stream. }
    split; [reflexivity|].
    intros _. split; [reflexivity|]. split; [now destruct d1|].
    split; [reflexivity|]. split; [exact B|].
    exists (evs1 ++ firstn (length evs - 1) evs), buf, h.
    split; [now rewrite <- app_assoc, Split1|].
    now rewrite existsb_app, (i2c_no_failed_start _ A), F0.
Qed.

(** ** Selection of the codec variant *)

(** When every DMA start succeeds, the streaming part returns [TRUE] and
    leaves the device object as it is. *)
Lemma Start_stream_dma_ok (env : Env) (m : Machine) :
  32 <= m_nChunkSize (this m) ->
  (forall tr buf, DMABuffers_Start env tr buf = true) ->
  exists m', Start_stream env m = Some (true, m') /\ this m' = this m.
Proof.
  destruct m as [[chunk slave pI2C addr mode inited err] rg tr].
  cbn [this m_nChunkSize]. intros Hc Hdma.
  apply Z.leb_le in Hc.
  unfold Start_stream. run_monad.
  destruct (chunk <? 64); rewrite ?Hc; destruct mode; rewrite ?Hdma;
    eexists; (split; [reflexivity|]); reflexivity.
Qed.

(** The outcome of an init function that the goal runs on the machine
    [M]: name it, give it as the witness, and go on with it. *)
Ltac init_outcome spec a bus ok E :=
  match goal with
  | |- context [InitPCM51xx ?e a ?M] =>
      destruct (spec e a M bus eq_refl) as (ok & ? & E & _)
  | |- context [InitWM8960 ?e a ?M] =>
      destruct (spec e a M bus eq_refl) as (ok & ? & E & _)
  end;
  exists ok; eexists; (split; [exact E|]); rewrite E.

(** C5: a fixed address 0x1A runs [InitWM8960] (Variant B), any other
    fixed address runs [InitPCM51xx] (Variant A), and a failure there
    raises the fault flag and makes [Start] return [FALSE]; address 0
    probes [InitPCM51xx] at 0x4C, then at 0x4D, then [InitWM8960] at
    0x1A, and however the probes end [Start] goes on with the streaming
    part: it returns [TRUE] when the DMA buffers start. *)
Theorem C5_codec_variant_and_fatality (env : Env) (m : Machine) (bus : nat) :
  m_bError (this m) = false ->
  m_DeviceMode (this m) <> DeviceModeRXOnly ->
  m_pI2CMaster (this m) = Some bus ->
  m_bI2CInited (this m) = false ->
  (m_ucI2CAddress (this m) <> 0 -> m_ucI2CAddress (this m) = 0x1A ->
   exists ok m1,
     InitWM8960 env 0x1A m = Some (ok, m1) /\
     Start env m = if ok then Start_stream env (mark_inited m1)
                   else Some (false, mark_error m1)) /\
  (m_ucI2CAddress (this m) <> 0 -> m_ucI2CAddress (this m) <> 0x1A ->
   exists ok m1,
     InitPCM51xx env (m_ucI2CAddress (this m)) m = Some (ok, m1) /\
     Start env m = if ok then Start_stream env (mark_inited m1)
                   else Some (false, mark_error m1)) /\
  (m_ucI2CAddress (this m) = 0 ->
   exists ok1 m1,
     InitPCM51xx env 0x4C m = Some (ok1, m1) /\
     if ok1 then Start env m = Start_stream env (mark_inited m1)
     else
       exists ok2 m2,
         InitPCM51xx env 0x4D m1 = Some (ok2, m2) /\
         if ok2 then Start env m = Start_stream env (mark_inited m2)
         else
           exists ok3 m3,
             InitWM8960 env 0x1A m2 = Some (ok3, m3) /\
             Start env m = Start_stream env (mark_inited m3)) /\
  (m_ucI2CAddress (this m) = 0 ->
   32 <= m_nChunkSize (this m) ->
   (forall tr buf, DMABuffers_Start env tr buf = true) ->
   exists m',
     Start env m = Some (true, m') /\
     m_bError (this m') = false /\ m_bI2CInited (this m') = true).
Proof.
  destruct m as [[chunk slave pI2C addr mode inited err] rg tr].
  cbn [this m_bError m_DeviceMode m_pI2CMaster m_bI2CInited m_ucI2CAddress
       m_nChunkSize].
  intros -> Hmode -> ->.
  assert (forall addr', addr = addr' ->
            Start env (mkMachine (mkDevice chunk slave (Some bus) addr mode
                                           false false) rg tr)
            = match Start_codec env
                      (mkMachine (mkDevice chunk slave (Some bus) addr' mode
                                           false false) rg tr) with
              | Some (Return b, m') => Some (b, m')
              | Some (Next, m') => Start_stream env m'
              | None => None
              end) as HS
    by (intros ? <-; now rewrite Start_unfold).
  assert (codec_step_due (mkDevice chunk slave (Some bus) addr mode false
                                   false) = true) as Hdue
    by now destruct mode.
  split; [| split; [| split]].
  - intros _ Ha. rewrite (HS _ Ha). clear HS Hdue. subst addr.
    unfold Start_codec.
    destruct mode; [| contradiction |]; run_monad; cbn [Z.eqb Pos.eqb];
      init_outcome InitWM8960_spec 26 bus ok E; destruct ok; reflexivity.
  - intros Ha0 Ha. rewrite (HS _ eq_refl). clear HS Hdue.
    unfold Start_codec. apply Z.eqb_neq in Ha0, Ha.
    destruct mode; [| contradiction |]; run_monad; rewrite Ha0, Ha;
      init_outcome InitPCM51xx_spec addr bus ok E; destruct ok; reflexivity.
  - intros Ha. rewrite (HS _ Ha). clear HS Hdue. subst addr.
    unfold Start_codec.
    destruct mode; [| contradiction |]; run_monad; cbn [Z.eqb];
      init_outcome InitPCM51xx_spec 76 bus ok1 E1;
      (destruct ok1; [reflexivity|]); run_monad;
      init_outcome InitPCM51xx_spec 77 bus ok2 E2;
      (destruct ok2; [reflexivity|]); run_monad;
      init_outcome InitWM8960_spec 26 bus ok3 E3;
      destruct ok3; reflexivity.
  - intros Ha Hc Hdma. rewrite Start_unfold. cbn [this m_bError].
    destruct (Start_codec_spec env
                (mkMachine (mkDevice chunk slave (Some bus) addr mode false
                                     false) rg tr))
      as (fl & d1 & evs & E & _ & Cases).
    rewrite E. cbn [this regs trace] in Cases.
    destruct Cases as [(G & _) | [(_ & -> & ->) | (_ & Hn & _)]].
    + rewrite Hdue in G. discriminate.
    + match goal with |- context [Start_stream env ?M] =>
        destruct (Start_stream_dma_ok env M Hc Hdma) as (m' & E' & T')
      end.
      exists m'. split; [exact E'|]. rewrite T'. now split.
    + cbn in Hn. contradiction.
Qed.

(** ** Gating by the device mode *)

(** A constructor that returns has checked the chunk size, has set the
    members from its arguments, and has kept to the pins of the mode. *)
Lemma Constructor_spec (env : Env) (S nChunkSize : Z) (bSlave : bool)
    (pI2C : option nat) (addr : Z) (mode : TDeviceMode) (m m1 : Machine) :
  Constructor env S nChunkSize bSlave pI2C addr mode m = Some (tt, m1) ->
  32 <= nChunkSize /\
  this m1 = mkDevice nChunkSize bSlave pI2C addr mode false false /\
  exists evs,
    trace m1 = trace m ++ evs /\
    (mode = DeviceModeTXOnly -> forallb no_rx_side evs = true) /\
    (mode = DeviceModeRXOnly -> forallb no_codec_no_dout evs = true).
Proof.
  destruct m as [d rg tr]. unfold Constructor, RunI2S.
  destruct (32 <=? nChunkSize) eqn:Hc; [| run_monad; discriminate].
  destruct (Z.land nChunkSize 1 =? 0) eqn:He; [| run_monad; discriminate].
  pose proof (proj1 (Z.leb_le _ _) Hc) as Hc'.
  destruct bSlave;
    [| destruct (ClockDivider (GetGPIOClockSourceRate env) S) as [[i f]|]];
    run_monad; try discriminate.
  all: destruct (GetMachineModel env), mode; flatten_trace;
    intros [= <-]; (split; [exact Hc'|]); (split; [reflexivity|]);
    eexists; (split; [reflexivity|]);
    split; intros; try discriminate; reflexivity.
Qed.

(** The destructor always returns and keeps to the pins of the mode. *)
Lemma Destructor_spec (m : Machine) :
  exists rg' evs,
    Destructor m = Some (tt, mkMachine (this m) rg' (trace m ++ evs)) /\
    (m_DeviceMode (this m) = DeviceModeTXOnly ->
     forallb no_rx_side evs = true) /\
    (m_DeviceMode (this m) = DeviceModeRXOnly ->
     forallb no_codec_no_dout evs = true).
Proof.
  destruct m as [[chunk slave pI2C addr mode inited err] rg tr].
  unfold Destructor, StopI2S. run_monad.
  destruct slave, mode; flatten_trace; (do 2 eexists);
    (split; [reflexivity|]); split; intros; try discriminate; reflexivity.
Qed.

(** In receive-only mode the codec step of [Start] does nothing. *)
Lemma Start_codec_RXOnly (env : Env) (m : Machine) :
  m_DeviceMode (this m) = DeviceModeRXOnly ->
  Start_codec env m = Some (Next, m).
Proof.
  destruct m as [[chunk slave pI2C addr mode inited err] rg tr].
  cbn [this m_DeviceMode]. intros ->. reflexivity.
Qed.

(** C8: over the whole life of a transmit-only device, from the
    constructor through any calls to the destructor, the data-in pin is
    neither assigned nor configured and no call goes to the receive DMA
    buffers or registers the receive completion handler; over the whole
    life of a receive-only device no I2C transaction is issued, the
    data-out pin is neither assigned nor configured, and the codec step
    of [Start] does nothing at all. *)
Theorem C8_mode_gating (env : Env) (S nChunkSize : Z) (bSlave : bool)
    (pI2C : option nat) (addr : Z) (m m1 : Machine) (calls : list Call) :
  (Constructor env S nChunkSize bSlave pI2C addr DeviceModeTXOnly m
   = Some (tt, m1) ->
   exists m2 m3 evs,
     run_calls env calls m1 = Some (tt, m2) /\
     Destructor m2 = Some (tt, m3) /\
     trace m3 = trace m ++ evs /\
     forallb no_rx_side evs = true) /\
  (Constructor env S nChunkSize bSlave pI2C addr DeviceModeRXOnly m
   = Some (tt, m1) ->
   exists m2 m3 evs,
     run_calls env calls m1 = Some (tt, m2) /\
     Destructor m2 = Some (tt, m3) /\
     trace m3 = trace m ++ evs /\
     forallb no_codec_no_dout evs = true /\
     forall m', m_DeviceMode (this m') = DeviceModeRXOnly ->
                Start_codec env m' = Some (Next, m')).
Proof.
  split; intros HC.
  - destruct (Constructor_spec _ _ _ _ _ _ _ _ _ HC)
      as (Hc & Hd & evs0 & T0 & G0 & _).
    destruct (run_calls_summary env calls m1) as (d2 & rg2 & evs1 & E1 & S1);
      [now rewrite Hd|].
    destruct (Destructor_spec (mkMachine d2 rg2 (trace m1 ++ evs1)))
      as (rg3 & evs2 & E2 & G2 & _).
    cbn [this trace] in *.
    destruct S1 as ((_ & _ & _ & _ & M1) & _ & _ & _ & G1 & _).
    rewrite Hd in M1, G1. cbn in M1, G1.
    do 2 eexists. exists (evs0 ++ evs1 ++ evs2).
    split; [exact E1|]. split; [exact E2|]. cbn [trace].
    split; [now rewrite T0, <- !app_assoc|].
    repeat apply forallb_app_true; auto.
  - destruct (Constructor_spec _ _ _ _ _ _ _ _ _ HC)
      as (Hc & Hd & evs0 & T0 & _ & G0).
    destruct (run_calls_summary env calls m1) as (d2 & rg2 & evs1 & E1 & S1);
      [now rewrite Hd|].
    destruct (Destructor_spec (mkMachine d2 rg2 (trace m1 ++ evs1)))
      as (rg3 & evs2 & E2 & _ & G2).
    cbn [this trace] in *.
    destruct S1 as ((_ & _ & _ & _ & M1) & _ & _ & _ & _ & G1).
    rewrite Hd in M1, G1. cbn in M1, G1.
    do 2 eexists. exists (evs0 ++ evs1 ++ evs2).
    split; [exact E1|]. split; [exact E2|]. cbn [trace].
    split; [now rewrite T0, <- !app_assoc|].
    split; [repeat apply forallb_app_true; auto|].
    intros m'. apply Start_codec_RXOnly.
Qed.

(** ** The theorems at concrete devices *)

Lemma C5_codec_variant_and_fatality_witness :
  (m_bError (this machine_probe) = false /\
   m_DeviceMode (this machine_probe) <> DeviceModeRXOnly /\
   m_pI2CMaster (this machine_probe) = Some 1%nat /\
   m_bI2CInited (this machine_probe) = false) /\
  exists m',
    Start env_no_codec machine_probe = Some (true, m') /\
    m_bError (this m') = false /\ m_bI2CInited (this m') = true.
Proof.
  split; [repeat split; discriminate|].
  apply (C5_codec_variant_and_fatality env_no_codec machine_probe 1%nat).
  - reflexivity.
  - cbn. discriminate.
  - reflexivity.
  - reflexivity.
  - reflexivity.
  - cbn. lia.
  - intros tr buf. reflexivity.
Defined.

Lemma C6_codec_init_once_witness :
  (32 <= m_nChunkSize (this machine_probe) /\
   m_bError (this machine_probe) = false /\
   codec_step_due (this machine_probe) = true) /\
  exists r m1 m2 evs,
    Start env_codec machine_probe = Some (r, m1) /\
    run_calls env_codec [CallStart; CallCancel; CallStart] m1
      = Some (tt, m2) /\
    trace m2 = trace m1 ++ evs /\
    forallb (fun e => negb (is_I2CWrite e)) evs = true.
Proof.
  split; [repeat split; cbn; lia|].
  apply C6_codec_init_once; [cbn; lia | reflexivity | reflexivity].
Defined.

Lemma C7_enable_after_dma_start_witness :
  32 <= m_nChunkSize (this machine_probe) /\
  exists r m' pre post,
    Start env_rx_fails machine_probe = Some (r, m') /\
    trace m' = trace machine_probe ++ pre ++ post /\
    forallb (keeps_enable_bits
               (enable_bits (regs machine_probe ARM_PCM_CS_A))) pre = true /\
    (if r
     then dma_ready (m_DeviceMode (this machine_probe)) pre = true /\
          exists v,
            post = [EvPeripheralEntry; EvWrite32 ARM_PCM_CS_A v;
                    EvPeripheralExit]
     else post = []).
Proof.
  split; [cbn; lia|].
  destruct (C7_enable_after_dma_start env_rx_fails machine_probe)
    as (r & m' & pre & post & E & T & K & _ & P & _); [cbn; lia|].
  exists r, m', pre, post. repeat split; assumption.
Defined.

Lemma C8_mode_gating_witness :
  exists m1,
    Constructor env_codec 48000 256 false (Some 1%nat) 0 DeviceModeTXOnly
                machine_reset = Some (tt, m1) /\
    exists m2 m3 evs,
      run_calls env_codec [CallStart; CallIsActive; CallCancel] m1
        = Some (tt, m2) /\
      Destructor m2 = Some (tt, m3) /\
      trace m3 = trace machine_reset ++ evs /\
      forallb no_rx_side evs = true.
Proof.
  eexists. split; [vm_compute; reflexivity|].
  apply (proj1 (C8_mode_gating env_codec 48000 256 false (Some 1%nat) 0
                  machine_reset _ [CallStart; CallIsActive; CallCancel])).
  vm_compute; reflexivity.
Defined.

Lemma C9_WM8960_transactions_witness :
  m_pI2CMaster (this machine_probe) = Some 1%nat /\
  exists ok results,
    InitWM8960 env_no_codec 0x1A machine_probe
      = Some (ok, logged machine_probe
           (i2c_events 1 0x1A
              (map (fun rv => packed_bytes (fst rv) (snd rv)) WM8960_settings)
              results)) /\
    transfer_outcome WM8960_settings results ok.
Proof.
  split; [reflexivity|].
  apply (C9_WM8960_transactions env_no_codec 0x1A machine_probe 1%nat).
  reflexivity.
Defined.

(** * Further properties of the I2S device *)

(** ** Which constructions violate the contract *)

Lemma ClockDivider_defined (F S : Z) :
  ClockDivider F S <> None <->
  0 < F /\ 8000 <= S <= 192000 /\ F mod 64 = 0.
Proof.
  unfold ClockDivider. change (CHANLEN * CHANS) with 64.
  destruct (0 <? F) eqn:HF; cbn [negb].
  2: { apply Z.ltb_ge in HF. split; [congruence | lia]. }
  apply Z.ltb_lt in HF.
  destruct (8000 <=? S) eqn:H1; cbn [negb andb].
  2: { apply Z.leb_gt in H1. split; [congruence | lia]. }
  apply Z.leb_le in H1.
  destruct (S <=? 192000) eqn:H2; cbn [negb andb].
  2: { apply Z.leb_gt in H2. split; [congruence | lia]. }
  apply Z.leb_le in H2.
  destruct (F mod 64 =? 0) eqn:H3; cbn [negb].
  2: { apply Z.eqb_neq in H3. split; [congruence | lia]. }
  apply Z.eqb_eq in H3.
  pose proof (nDivF_range F S ltac:(lia)) as R.
  replace (ClockDivider_nDivF F S <=? 4096) with true
    by (symmetry; apply Z.leb_le; lia).
  cbn [negb]. split; [lia|]. intros _.
  destruct (4095 <? ClockDivider_nDivF F S); discriminate.
Qed.

(** The constructor returns exactly when the chunk size is even and at
    least 32 and, for a master, the reference clock is positive and a
    multiple of 64 and the sample rate lies in [8000, 192000]: the
    assertion on [nDivF] never fails once the others hold, and a slave
    accepts every sample rate. *)
Theorem Constructor_returns_iff (env : Env) (S nChunkSize : Z)
    (bSlave : bool) (pI2C : option nat) (addr : Z) (mode : TDeviceMode)
    (m : Machine) :
  Constructor env S nChunkSize bSlave pI2C addr mode m <> None <->
  32 <= nChunkSize /\ Z.land nChunkSize 1 = 0 /\
  (bSlave = false ->
   0 < GetGPIOClockSourceRate env /\ 8000 <= S <= 192000 /\
   GetGPIOClockSourceRate env mod 64 = 0).
Proof.
  destruct m as [d rg tr]. unfold Constructor, RunI2S.
  pose proof (ClockDivider_defined (GetGPIOClockSourceRate env) S) as HD.
  destruct (32 <=? nChunkSize) eqn:Hc.
  2: { apply Z.leb_gt in Hc. run_monad. split; [congruence | lia]. }
  apply Z.leb_le in Hc.
  destruct (Z.land nChunkSize 1 =? 0) eqn:He.
  2: { apply Z.eqb_neq in He. run_monad. split; [congruence | tauto]. }
  apply Z.eqb_eq in He.
  destruct bSlave.
  - run_monad. split; [intros _; repeat split; auto; discriminate|].
    intros _. destruct (GetMachineModel env), mode; discriminate.
  - destruct (ClockDivider (GetGPIOClockSourceRate env) S) as [[i f]|].
    + run_monad. split.
      * intros _. repeat split; auto; apply HD; discriminate.
      * intros _. destruct (GetMachineModel env), mode; discriminate.
    + run_monad. split; [congruence|].
      intros (_ & _ & H). exfalso. apply HD; auto.
Qed.

(** ** Registers and guard during [Start] *)

Lemma u32_land_ones (x : Z) : u32 x = Z.land x (Z.ones 32).
Proof. unfold u32. now rewrite Z.land_ones by lia. Qed.

Lemma u32_lor (a b : Z) : u32 (Z.lor a b) = Z.lor (u32 a) (u32 b).
Proof. rewrite !u32_land_ones. apply Z.land_lor_distr_l. Qed.

Lemma u32_idem (a : Z) : u32 (u32 a) = u32 a.
Proof. unfold u32. apply Z.mod_mod. lia. Qed.

Lemma u32_land_l (a k : Z) : u32 (Z.land a k) = Z.land (u32 a) k.
Proof.
  rewrite !u32_land_ones, <- !Z.land_assoc. f_equal. apply Z.land_comm.
Qed.

(** The value [Start] leaves in CS_A. *)
Lemma CS_A_enabled (v T : Z) :
  u32 T = T ->
  u32 (Z.lor (u32 (Z.lor v CS_A_DMAEN)) T)
  = Z.lor (Z.lor (u32 v) CS_A_DMAEN) T.
Proof.
  intros HT. rewrite !u32_lor, u32_idem, HT. reflexivity.
Qed.

(** Setting a field of DREQ_A to 0x18 and reading it back. *)
Lemma DREQ_field_set (v mask val : Z) :
  Z.land val mask = val ->
  Z.land (u32 (Z.lor (Z.land v (Z.lnot mask)) val)) mask = u32 val.
Proof.
  intros Hval.
  rewrite u32_land_ones, <- Z.land_assoc, (Z.land_comm (Z.ones 32)),
    Z.land_assoc, Z.land_lor_distr_l, Hval, <- Z.land_assoc.
  rewrite (Z.land_comm (Z.lnot mask)), Z.land_lnot_diag, Z.land_0_r,
    Z.lor_0_l.
  symmetry. apply u32_land_ones.
Qed.

(** Setting one field of DREQ_A keeps what lies under a disjoint mask. *)
Lemma DREQ_field_kept (v mask val keep : Z) :
  Z.land (Z.lnot mask) keep = keep -> Z.land val keep = 0 ->
  Z.land (u32 (Z.lor (Z.land v (Z.lnot mask)) val)) keep
  = Z.land (u32 v) keep.
Proof.
  intros Hk Hv.
  rewrite !u32_land_ones, <- !Z.land_assoc, !(Z.land_comm (Z.ones 32)),
    !Z.land_assoc, Z.land_lor_distr_l, Hv, Z.lor_0_r, <- (Z.land_assoc v),
    Hk.
  reflexivity.
Qed.

Lemma Start_stream_effects (env : Env) (m : Machine) :
  32 <= m_nChunkSize (this m) ->
  exists r d' rg' evs,
    Start_stream env m = Some (r, mkMachine d' rg' (trace m ++ evs)) /\
    guard_discipline false evs = Some false /\
    forallb no_framing_write evs = true /\
    (forall reg, is_framing_reg reg = true -> rg' reg = regs m reg) /\
    (64 <= m_nChunkSize (this m) ->
     rg' ARM_PCM_DREQ_A = regs m ARM_PCM_DREQ_A) /\
    (m_nChunkSize (this m) < 64 ->
     Z.land (rg' ARM_PCM_DREQ_A) DREQ_A_TX__MASK
     = (if mode_uses (m_DeviceMode (this m)) m_TXBuffers
        then Z.shiftl 0x18 DREQ_A_TX__SHIFT
        else Z.land (u32 (regs m ARM_PCM_DREQ_A)) DREQ_A_TX__MASK) /\
     Z.land (rg' ARM_PCM_DREQ_A) DREQ_A_RX__MASK
     = (if mode_uses (m_DeviceMode (this m)) m_RXBuffers
        then Z.shiftl 0x18 DREQ_A_RX__SHIFT
        else Z.land (u32 (regs m ARM_PCM_DREQ_A)) DREQ_A_RX__MASK) /\
     Z.land (rg' ARM_PCM_DREQ_A)
            (Z.lnot (Z.lor DREQ_A_TX__MASK DREQ_A_RX__MASK))
     = Z.land (u32 (regs m ARM_PCM_DREQ_A))
              (Z.lnot (Z.lor DREQ_A_TX__MASK DREQ_A_RX__MASK))) /\
    rg' ARM_PCM_CS_A
    = (if r
       then Z.lor (Z.lor (u32 (regs m ARM_PCM_CS_A)) CS_A_DMAEN)
                  (nTXRXOn_of (m_DeviceMode (this m)))
       else u32 (Z.lor (regs m ARM_PCM_CS_A) CS_A_DMAEN)).
Proof.
  destruct m as [[chunk slave pI2C addr mode inited err] rg tr].
  cbn [this m_nChunkSize regs trace m_DeviceMode]. intros Hc.
  pose proof (proj2 (Z.leb_le _ _) Hc) as Hcb.
  unfold Start_stream. run_monad.
  destruct (chunk <? 64) eqn:H64; rewrite ?Hcb;
    [apply Z.ltb_lt in H64 | apply Z.ltb_ge in H64].
  all: destruct mode.
  all: repeat match goal with
    | |- context [DMABuffers_Start ?e ?t ?b] =>
      destruct (DMABuffers_Start e t b) eqn:?
    end.
  all: flatten_trace.
  all: (do 4 eexists); (split; [reflexivity|]).
  all: (split; [reflexivity|]); (split; [reflexivity|]).
  all: (split; [now intros []|]).
  all: (split; [intros H; first [reflexivity | lia]|]).
  all: cbv beta iota; cbn [mode_uses TDeviceMode_eqb negb nTXRXOn_of].
  all: split; [| first [reflexivity | apply CS_A_enabled; reflexivity]].
  all: intros H; first [exfalso; lia | idtac].
  all: repeat split;
    repeat first [ rewrite DREQ_field_set by reflexivity
                 | rewrite DREQ_field_kept by reflexivity
                 | rewrite u32_idem ];
    reflexivity.
Qed.

Lemma guard_discipline_app (b b' : bool) (l1 l2 : list Event) :
  guard_discipline b l1 = Some b' ->
  guard_discipline b (l1 ++ l2) = guard_discipline b' l2.
Proof.
  revert b. induction l1 as [|e l1 IH]; intros b H.
  - cbn in H. injection H as ->. reflexivity.
  - cbn [app guard_discipline] in *.
    destruct e, b; try discriminate; now apply IH.
Qed.

Lemma guard_discipline_i2c (l : list Event) :
  forallb is_I2CWrite l = true -> guard_discipline false l = Some false.
Proof.
  induction l as [|e l IH]; [reflexivity|].
  cbn [forallb]. intros H. apply andb_true_iff in H as [He Hl].
  destruct e; try discriminate. cbn. now apply IH.
Qed.

Lemma i2c_no_framing_write (l : list Event) :
  forallb is_I2CWrite l = true -> forallb no_framing_write l = true.
Proof. apply forallb_weaken. intros e H. now destruct e. Qed.

(** [Start] as a whole: its result is the negation of the fault flag it
    leaves; it keeps the guard discipline and the framing registers; when
    it returns [TRUE] the streaming part has run on the registers as they
    were on entry. *)
Lemma Start_effects (env : Env) (m : Machine) :
  32 <= m_nChunkSize (this m) ->
  exists r d' rg' evs,
    Start env m = Some (r, mkMachine d' rg' (trace m ++ evs)) /\
    r = negb (m_bError d') /\
    guard_discipline false evs = Some false /\
    forallb no_framing_write evs = true /\
    (forall reg, is_framing_reg reg = true -> rg' reg = regs m reg) /\
    (r = true ->
     rg' ARM_PCM_CS_A
     = Z.lor (Z.lor (u32 (regs m ARM_PCM_CS_A)) CS_A_DMAEN)
             (nTXRXOn_of (m_DeviceMode (this m))) /\
     (64 <= m_nChunkSize (this m) ->
      rg' ARM_PCM_DREQ_A = regs m ARM_PCM_DREQ_A) /\
     (m_nChunkSize (this m) < 64 ->
      Z.land (rg' ARM_PCM_DREQ_A) DREQ_A_TX__MASK
      = (if mode_uses (m_DeviceMode (this m)) m_TXBuffers
         then Z.shiftl 0x18 DREQ_A_TX__SHIFT
         else Z.land (u32 (regs m ARM_PCM_DREQ_A)) DREQ_A_TX__MASK) /\
      Z.land (rg' ARM_PCM_DREQ_A) DREQ_A_RX__MASK
      = (if mode_uses (m_DeviceMode (this m)) m_RXBuffers
         then Z.shiftl 0x18 DREQ_A_RX__SHIFT
         else Z.land (u32 (regs m ARM_PCM_DREQ_A)) DREQ_A_RX__MASK) /\
      Z.land (rg' ARM_PCM_DREQ_A)
             (Z.lnot (Z.lor DREQ_A_TX__MASK DREQ_A_RX__MASK))
      = Z.land (u32 (regs m ARM_PCM_DREQ_A))
               (Z.lnot (Z.lor DREQ_A_TX__MASK DREQ_A_RX__MASK)))).
Proof.
  intros Hc. rewrite Start_unfold.
  destruct (m_bError (this m)) eqn:Herr.
  { exists false, (this m), (regs m), []. rewrite app_nil_r.
    split; [now destruct m|]. rewrite Herr.
    repeat split; try reflexivity; discriminate. }
  destruct (Start_codec_spec env m) as (fl & d1 & evs1 & E & A & Cases).
  rewrite E. clear E.
  assert (fl = Return false /\ m_bError d1 = true \/
          fl = Next /\ m_nChunkSize d1 = m_nChunkSize (this m) /\
          m_DeviceMode d1 = m_DeviceMode (this m) /\
          m_bError d1 = false) as [(-> & He1) | (-> & Hc1 & Hm1 & He1)].
  { destruct Cases as [(_ & -> & -> & _) | [(_ & -> & ->) | (_ & _ & -> & ->)]];
      [right | right | left]; destruct m as [[]]; cbn in *; now repeat split. }
  { exists false, d1, (regs m), evs1. split; [reflexivity|].
    rewrite He1. split; [reflexivity|].
    split; [now apply guard_discipline_i2c|].
    split; [now apply i2c_no_framing_write|].
    split; [reflexivity | discriminate]. }
  destruct (Start_stream_spec env (mkMachine d1 (regs m) (trace m ++ evs1)))
    as (r & d' & rg' & evs & E2 & _ & _ & _ & _ & Hr); [cbn; lia|].
  destruct (Start_stream_effects env
              (mkMachine d1 (regs m) (trace m ++ evs1)))
    as (r2 & d2 & rg2 & evs2 & E3 & G & NF & FR & D64 & D32 & CS);
    [cbn; lia|].
  rewrite E3 in E2. injection E2 as Er Ed Erg E2.
  apply app_inv_head in E2. subst r2 d2 rg2 evs2.
  rewrite E3. cbn [this regs trace] in *. rewrite <- app_assoc.
  exists r, d', rg', (evs1 ++ evs). split; [reflexivity|].
  split.
  { destruct r; [destruct Hr as [-> _] | destruct Hr as [-> _]].
    - now rewrite He1.
    - now destruct d1. }
  split.
  { rewrite (guard_discipline_app false false) by now apply guard_discipline_i2c.
    exact G. }
  split; [apply forallb_app_true; [now apply i2c_no_framing_write | exact NF]|].
  split; [exact FR|].
  intros ->. rewrite Hc1, Hm1 in *. repeat split; auto; now apply D32.
Qed.

(** ** Register effects of the constructor, the calls and the
       destructor *)

Lemma Constructor_effects (env : Env) (S nChunkSize : Z) (bSlave : bool)
    (pI2C : option nat) (addr : Z) (mode : TDeviceMode) (m m1 : Machine) :
  Constructor env S nChunkSize bSlave pI2C addr mode m = Some (tt, m1) ->
  exists evs,
    trace m1 = trace m ++ evs /\
    guard_discipline false evs = Some false /\
    existsb is_ClockStart evs = negb bSlave /\
    (forall p, existsb (assigns_pin p) evs = pin_used mode p) /\
    regs m1 ARM_PCM_CS_A
    = Z.lor (Z.lor (Z.lor CS_A_TXCLR CS_A_RXCLR) CS_A_STBY) CS_A_EN /\
    MODE_A_FLEN (regs m1 ARM_PCM_MODE_A) = CHANS * CHANLEN - 1 /\
    MODE_A_FSLEN (regs m1 ARM_PCM_MODE_A) = CHANLEN /\
    Z.testbit (regs m1 ARM_PCM_MODE_A) 23 = bSlave /\
    Z.testbit (regs m1 ARM_PCM_MODE_A) 21 = bSlave /\
    Z.testbit (regs m1 ARM_PCM_MODE_A) 22 = true /\
    Z.testbit (regs m1 ARM_PCM_MODE_A) 20 = true /\
    CH1_fields (regs m1 ARM_PCM_TXC_A) = (true, true, 1, 0) /\
    CH2_fields (regs m1 ARM_PCM_TXC_A) = (true, true, CHANLEN + 1, 0) /\
    regs m1 ARM_PCM_RXC_A = regs m1 ARM_PCM_TXC_A.
Proof.
  destruct m as [d rg tr]. unfold Constructor, RunI2S.
  destruct (32 <=? nChunkSize) eqn:Hc; [| run_monad; discriminate].
  destruct (Z.land nChunkSize 1 =? 0) eqn:He; [| run_monad; discriminate].
  destruct bSlave;
    [| destruct (ClockDivider (GetGPIOClockSourceRate env) S) as [[i f]|]];
    run_monad; try discriminate.
  all: destruct (GetMachineModel env), mode; flatten_trace;
    intros [= <-]; eexists; (split; [reflexivity|]);
    (split; [reflexivity|]); (split; [reflexivity|]);
    (split; [now intros []|]);
    cbv beta iota; repeat split.
Qed.

Lemma Destructor_effects (m : Machine) :
  exists rg' evs,
    Destructor m = Some (tt, mkMachine (this m) rg' (trace m ++ evs)) /\
    guard_discipline false evs = Some false /\
    existsb is_ClockStop evs = negb (m_bSlave (this m)) /\
    (forall p, existsb (reverts_pin p) evs
               = pin_used (m_DeviceMode (this m)) p) /\
    forallb (fun e => negb (is_I2CWrite e) && negb (is_DMAStart e)) evs
      = true /\
    rg' ARM_PCM_CS_A = 0.
Proof.
  destruct m as [[chunk slave pI2C addr mode inited err] rg tr].
  unfold Destructor, StopI2S. run_monad.
  destruct slave, mode; flatten_trace; (do 2 eexists);
    (split; [reflexivity|]); (split; [reflexivity|]);
    (split; [reflexivity|]); (split; [now intros []|]);
    split; reflexivity.
Qed.

(** What every call keeps: the configuration, the guard discipline and
    the framing registers. *)
Lemma run_call_effects (env : Env) (c : Call) (m : Machine) :
  32 <= m_nChunkSize (this m) ->
  exists d' rg' evs,
    run_call env c m = Some (tt, mkMachine d' rg' (trace m ++ evs)) /\
    same_config (this m) d' /\
    guard_discipline false evs = Some false /\
    forallb no_framing_write evs = true /\
    (forall reg, is_framing_reg reg = true -> rg' reg = regs m reg).
Proof.
  intros Hc. destruct c as [| | |bStatus n|bStatus n].
  - destruct (Start_summary env m Hc) as (r & d' & rg' & evs & E & (C & _) & _).
    destruct (Start_effects env m Hc)
      as (r2 & d2 & rg2 & evs2 & E2 & _ & G & NF & FR & _).
    rewrite E in E2. injection E2 as Er Ed Erg E2.
    apply app_inv_head in E2. subst r2 d2 rg2 evs2.
    exists d', rg', evs. cbn [run_call]. unfold bind. rewrite E.
    split; [reflexivity|]. split; [exact C|]. now repeat split.
  - destruct m as [[chunk slave pI2C addr mode inited err] rg tr].
    cbn [run_call]. unfold Cancel. run_monad.
    destruct mode; flatten_trace; (do 3 eexists);
      (split; [reflexivity|]); now repeat split.
  - destruct m as [[chunk slave pI2C addr mode inited err] rg tr].
    cbn [run_call]. unfold IsActive. run_monad.
    destruct mode;
      repeat match goal with
        | |- context [DMABuffers_IsActive ?e ?t ?b] =>
          destruct (DMABuffers_IsActive e t b) eqn:?
        end;
      flatten_trace; (do 3 eexists);
      (split; [reflexivity|]); now repeat split.
  - destruct m as [[chunk slave pI2C addr mode inited err] rg tr].
    cbn [run_call]. unfold TXCompletedHandler. run_monad.
    destruct bStatus; run_monad.
    + (do 3 eexists); (split; [reflexivity|]); now repeat split.
    + exists (mkDevice chunk slave pI2C addr mode inited true), rg, [].
      rewrite app_nil_r. (split; [reflexivity|]); now repeat split.
  - destruct m as [[chunk slave pI2C addr mode inited err] rg tr].
    cbn [run_call]. unfold RXCompletedHandler. run_monad.
    destruct bStatus; run_monad.
    + (do 3 eexists); (split; [reflexivity|]); now repeat split.
    + exists (mkDevice chunk slave pI2C addr mode inited true), rg, [].
      rewrite app_nil_r. (split; [reflexivity|]); now repeat split.
Qed.

Lemma same_config_trans (d d1 d2 : CI2SSoundBaseDevice) :
  same_config d d1 -> same_config d1 d2 -> same_config d d2.
Proof.
  unfold same_config. intros (A1 & A2 & A3 & A4 & A5) (B1 & B2 & B3 & B4 & B5).
  repeat split; congruence.
Qed.

Lemma run_calls_effects (env : Env) (cs : list Call) :
  forall m,
    32 <= m_nChunkSize (this m) ->
    exists d' rg' evs,
      run_calls env cs m = Some (tt, mkMachine d' rg' (trace m ++ evs)) /\
      same_config (this m) d' /\
      guard_discipline false evs = Some false /\
      forallb no_framing_write evs = true /\
      (forall reg, is_framing_reg reg = true -> rg' reg = regs m reg).
Proof.
  induction cs as [|c cs IH]; intros m Hc.
  - exists (this m), (regs m), []. rewrite app_nil_r.
    split; [now destruct m|]. unfold same_config. now repeat split.
  - destruct (run_call_effects env c m Hc)
      as (d1 & rg1 & evs1 & E1 & C1 & G1 & N1 & F1).
    destruct (IH (mkMachine d1 rg1 (trace m ++ evs1)))
      as (d2 & rg2 & evs2 & E2 & C2 & G2 & N2 & F2).
    { cbn. destruct C1 as (-> & _). exact Hc. }
    cbn [this trace regs] in *.
    exists d2, rg2, (evs1 ++ evs2). cbn [run_calls]. unfold bind.
    rewrite E1, E2, app_assoc. split; [reflexivity|].
    split; [eapply same_config_trans; eassumption|].
    split; [now rewrite (guard_discipline_app false false)|].
    split; [now apply forallb_app_true|].
    intros reg Hr. now rewrite F2, F1.
Qed.

(** ** [Start]: result and registers *)

(** [Start] returns [TRUE] exactly when it leaves the fault flag down:
    every [FALSE] comes with [m_bError] set, and [TRUE] is returned only
    by a device that is not faulted. *)
Theorem Start_result_is_fault_flag (env : Env) (m : Machine) :
  32 <= m_nChunkSize (this m) ->
  exists r m',
    Start env m = Some (r, m') /\ r = negb (m_bError (this m')).
Proof.
  intros Hc.
  destruct (Start_effects env m Hc) as (r & d' & rg' & evs & E & R & _).
  exists r. eexists. split; [exact E | exact R].
Qed.

Lemma lor_land_absorb (a c : Z) : Z.lor (Z.land a c) c = c.
Proof.
  apply Z.bits_inj'. intros n _.
  rewrite Z.lor_spec, Z.land_spec.
  destruct (Z.testbit a n), (Z.testbit c n); reflexivity.
Qed.

Lemma land_lor_covers (a b c : Z) :
  Z.land b c = c -> Z.land (Z.lor a b) c = c.
Proof.
  intros H. rewrite Z.land_lor_distr_l, H. apply lor_land_absorb.
Qed.

(** A [Start] that returns [TRUE] has ORed the DMA enable bit and the
    enable bits of the mode into CS_A: TXON unless receive-only, RXON and
    RXSEX unless transmit-only. *)
Theorem Start_success_enables_mode (env : Env) (m m' : Machine) :
  32 <= m_nChunkSize (this m) ->
  Start env m = Some (true, m') ->
  regs m' ARM_PCM_CS_A
  = Z.lor (Z.lor (u32 (regs m ARM_PCM_CS_A)) CS_A_DMAEN)
          (nTXRXOn_of (m_DeviceMode (this m))) /\
  Z.land (regs m' ARM_PCM_CS_A) CS_A_DMAEN = CS_A_DMAEN /\
  (mode_uses (m_DeviceMode (this m)) m_TXBuffers = true ->
   Z.land (regs m' ARM_PCM_CS_A) CS_A_TXON = CS_A_TXON) /\
  (mode_uses (m_DeviceMode (this m)) m_RXBuffers = true ->
   Z.land (regs m' ARM_PCM_CS_A) (Z.lor CS_A_RXON CS_A_RXSEX)
   = Z.lor CS_A_RXON CS_A_RXSEX).
Proof.
  intros Hc HS.
  destruct (Start_effects env m Hc) as (r & d' & rg' & evs & E & _ & _ & _ & _ & T).
  rewrite HS in E. injection E as <- ->. cbn [regs].
  destruct (T eq_refl) as (V & _). rewrite V. split; [reflexivity|].
  split.
  { rewrite Z.land_lor_distr_l, (land_lor_covers _ CS_A_DMAEN CS_A_DMAEN)
      by reflexivity.
    now destruct (m_DeviceMode (this m)). }
  split.
  - intros U. apply land_lor_covers.
    destruct (m_DeviceMode (this m)); try discriminate; reflexivity.
  - intros U. apply land_lor_covers.
    destruct (m_DeviceMode (this m)); try discriminate; reflexivity.
Qed.

(** A [Start] that returns [TRUE] has left DREQ_A alone for a chunk size
    of 64 or more; for a smaller chunk size it has set the DMA request
    threshold of every direction the mode uses to 0x18 and kept all other
    bits. *)
Theorem Start_success_DREQ_thresholds (env : Env) (m m' : Machine) :
  32 <= m_nChunkSize (this m) ->
  Start env m = Some (true, m') ->
  (64 <= m_nChunkSize (this m) ->
   regs m' ARM_PCM_DREQ_A = regs m ARM_PCM_DREQ_A) /\
  (m_nChunkSize (this m) < 64 ->
   Z.land (regs m' ARM_PCM_DREQ_A) DREQ_A_TX__MASK
   = (if mode_uses (m_DeviceMode (this m)) m_TXBuffers
      then Z.shiftl 0x18 DREQ_A_TX__SHIFT
      else Z.land (u32 (regs m ARM_PCM_DREQ_A)) DREQ_A_TX__MASK) /\
   Z.land (regs m' ARM_PCM_DREQ_A) DREQ_A_RX__MASK
   = (if mode_uses (m_DeviceMode (this m)) m_RXBuffers
      then Z.shiftl 0x18 DREQ_A_RX__SHIFT
      else Z.land (u32 (regs m ARM_PCM_DREQ_A)) DREQ_A_RX__MASK) /\
   Z.land (regs m' ARM_PCM_DREQ_A)
          (Z.lnot (Z.lor DREQ_A_TX__MASK DREQ_A_RX__MASK))
   = Z.land (u32 (regs m ARM_PCM_DREQ_A))
            (Z.lnot (Z.lor DREQ_A_TX__MASK DREQ_A_RX__MASK))).
Proof.
  intros Hc HS.
  destruct (Start_effects env m Hc) as (r & d' & rg' & evs & E & _ & _ & _ & _ & T).
  rewrite HS in E. injection E as <- ->. cbn [regs].
  destruct (T eq_refl) as (_ & D64 & D32). now split.
Qed.

(** ** The life of a device: guard, framing, teardown *)

(** Over the whole life of a device, from the constructor through any
    calls to the destructor, every register write lies between a
    [PeripheralEntry] and the next [PeripheralExit]; the guard is never
    entered twice, never left when not held, held at no call to the I2C
    master, the DMA buffers or the sample source and sink, and released
    at the end. *)
Theorem lifetime_guard_discipline (env : Env) (S nChunkSize : Z)
    (bSlave : bool) (pI2C : option nat) (addr : Z) (mode : TDeviceMode)
    (m m1 : Machine) (calls : list Call) :
  Constructor env S nChunkSize bSlave pI2C addr mode m = Some (tt, m1) ->
  exists m2 m3 evs,
    run_calls env calls m1 = Some (tt, m2) /\
    Destructor m2 = Some (tt, m3) /\
    trace m3 = trace m ++ evs /\
    guard_discipline false evs = Some false.
Proof.
  intros HC.
  destruct (Constructor_spec _ _ _ _ _ _ _ _ _ HC) as (Hc & Hd & _).
  destruct (Constructor_effects _ _ _ _ _ _ _ _ _ HC) as (evs0 & T0 & G0 & _).
  destruct (run_calls_effects env calls m1)
    as (d2 & rg2 & evs1 & E1 & _ & G1 & _); [now rewrite Hd|].
  destruct (Destructor_effects (mkMachine d2 rg2 (trace m1 ++ evs1)))
    as (rg3 & evs2 & E2 & G2 & _).
  do 2 eexists. exists (evs0 ++ evs1 ++ evs2).
  split; [exact E1|]. split; [exact E2|]. cbn [trace].
  split; [now rewrite T0, <- !app_assoc|].
  rewrite (guard_discipline_app false false _ _ G0).
  now rewrite (guard_discipline_app false false _ _ G1).
Qed.

(** The framing programmed by the constructor stays for the life of the
    device: no later call writes MODE_A, TXC_A or RXC_A, and they hold a
    frame of [CHANS * CHANLEN] bits with a frame sync of [CHANLEN] bits,
    clock and frame sync inverted, both taken as inputs exactly for a
    slave, and two enabled channels at bit positions 1 and
    [CHANLEN + 1] with the width extension bit set, for transmit and
    receive alike. *)
Theorem framing_fixed_at_construction (env : Env) (S nChunkSize : Z)
    (bSlave : bool) (pI2C : option nat) (addr : Z) (mode : TDeviceMode)
    (m m1 : Machine) (calls : list Call) :
  Constructor env S nChunkSize bSlave pI2C addr mode m = Some (tt, m1) ->
  exists m2 evs,
    run_calls env calls m1 = Some (tt, m2) /\
    trace m2 = trace m1 ++ evs /\
    forallb no_framing_write evs = true /\
    MODE_A_FLEN (regs m2 ARM_PCM_MODE_A) = CHANS * CHANLEN - 1 /\
    MODE_A_FSLEN (regs m2 ARM_PCM_MODE_A) = CHANLEN /\
    Z.testbit (regs m2 ARM_PCM_MODE_A) 23 = bSlave /\
    Z.testbit (regs m2 ARM_PCM_MODE_A) 21 = bSlave /\
    Z.testbit (regs m2 ARM_PCM_MODE_A) 22 = true /\
    Z.testbit (regs m2 ARM_PCM_MODE_A) 20 = true /\
    CH1_fields (regs m2 ARM_PCM_TXC_A) = (true, true, 1, 0) /\
    CH2_fields (regs m2 ARM_PCM_TXC_A) = (true, true, CHANLEN + 1, 0) /\
    regs m2 ARM_PCM_RXC_A = regs m2 ARM_PCM_TXC_A.
Proof.
  intros HC.
  destruct (Constructor_spec _ _ _ _ _ _ _ _ _ HC) as (Hc & Hd & _).
  destruct (Constructor_effects _ _ _ _ _ _ _ _ _ HC)
    as (evs0 & _ & _ & _ & _ & _ & V).
  destruct (run_calls_effects env calls m1)
    as (d2 & rg2 & evs1 & E1 & _ & _ & N1 & F1); [now rewrite Hd|].
  do 2 eexists. split; [exact E1|]. cbn [trace regs].
  split; [reflexivity|]. split; [exact N1|].
  rewrite !F1 by reflexivity. exact V.
Qed.

(** The destructor undoes the constructor, whatever was called in
    between: CS_A is cleared, so the engine, the DMA requests and both
    directions are off; the clock generator is stopped exactly if the
    constructor started it; and exactly the pins the constructor assigned
    are reverted to input mode.  The constructor itself leaves the
    engine enabled with both directions and the DMA requests off. *)
Theorem teardown_mirrors_construction (env : Env) (S nChunkSize : Z)
    (bSlave : bool) (pI2C : option nat) (addr : Z) (mode : TDeviceMode)
    (m m1 : Machine) (calls : list Call) :
  Constructor env S nChunkSize bSlave pI2C addr mode m = Some (tt, m1) ->
  exists evs0 m2 m3 evs2,
    trace m1 = trace m ++ evs0 /\
    Z.land (regs m1 ARM_PCM_CS_A) CS_A_EN = CS_A_EN /\
    Z.land (regs m1 ARM_PCM_CS_A)
           (Z.lor CS_A_DMAEN (Z.lor CS_A_TXON CS_A_RXON)) = 0 /\
    run_calls env calls m1 = Some (tt, m2) /\
    Destructor m2 = Some (tt, m3) /\
    trace m3 = trace m2 ++ evs2 /\
    regs m3 ARM_PCM_CS_A = 0 /\
    existsb is_ClockStop evs2 = existsb is_ClockStart evs0 /\
    (forall p, existsb (reverts_pin p) evs2 = existsb (assigns_pin p) evs0) /\
    forallb (fun e => negb (is_I2CWrite e) && negb (is_DMAStart e)) evs2
      = true.
Proof.
  intros HC.
  destruct (Constructor_spec _ _ _ _ _ _ _ _ _ HC) as (Hc & Hd & _).
  destruct (Constructor_effects _ _ _ _ _ _ _ _ _ HC)
    as (evs0 & T0 & _ & CS0 & P0 & V0 & _).
  destruct (run_calls_effects env calls m1)
    as (d2 & rg2 & evs1 & E1 & C1 & _); [now rewrite Hd|].
  destruct (Destructor_effects (mkMachine d2 rg2 (trace m1 ++ evs1)))
    as (rg3 & evs2 & E2 & _ & CS2 & P2 & Q2 & V2).
  cbn [this] in *. destruct C1 as (_ & C2 & _ & _ & C5).
  rewrite Hd in C2, C5. cbn in C2, C5. rewrite C2 in CS2. rewrite C5 in P2.
  exists evs0. do 2 eexists. exists evs2.
  split; [exact T0|]. rewrite V0.
  split; [reflexivity|]. split; [reflexivity|].
  split; [exact E1|]. split; [exact E2|]. cbn [trace regs].
  split; [reflexivity|]. split; [exact V2|].
  split; [now rewrite CS0, CS2|].
  split; [intros p; now rewrite P0, P2 | exact Q2].
Qed.

(** ** Calls that leave the device alone *)

Lemma run_call_quiet (env : Env) (c : Call) (m : Machine) :
  quiet_call c = true ->
  exists evs,
    run_call env c m = Some (tt, logged m evs) /\
    forallb (fun e => negb (is_Write32 e) && negb (is_I2CWrite e)
                      && negb (is_DMAStart e)) evs = true.
Proof.
  destruct m as [[chunk slave pI2C addr mode inited err] rg tr].
  destruct c as [| | |bStatus n|bStatus n]; cbn [quiet_call];
    try discriminate; intros Hq; try subst bStatus.
  - cbn [run_call]. unfold Cancel. run_monad.
    destruct mode; flatten_trace; eexists; (split; [reflexivity|]);
      reflexivity.
  - cbn [run_call]. unfold IsActive. run_monad.
    destruct mode;
      repeat match goal with
        | |- context [DMABuffers_IsActive ?e ?t ?b] =>
          destruct (DMABuffers_IsActive e t b) eqn:?
        end;
      flatten_trace; eexists; (split; [reflexivity|]); reflexivity.
  - cbn [run_call]. unfold TXCompletedHandler. run_monad.
    eexists; (split; [reflexivity|]); reflexivity.
  - cbn [run_call]. unfold RXCompletedHandler. run_monad.
    eexists; (split; [reflexivity|]); reflexivity.
Qed.

(** [Cancel], [IsActive] and the completion handlers called with
    [bStatus = TRUE], in any number and order, change neither the device
    object nor a register, and issue no register write, no I2C
    transaction and no DMA start: only [Start] and a failed completion
    change the state of the device. *)
Theorem quiet_calls_change_nothing (env : Env) (calls : list Call)
    (m : Machine) :
  forallb quiet_call calls = true ->
  exists evs,
    run_calls env calls m = Some (tt, logged m evs) /\
    forallb (fun e => negb (is_Write32 e) && negb (is_I2CWrite e)
                      && negb (is_DMAStart e)) evs = true.
Proof.
  revert m. induction calls as [|c cs IH]; intros m Hq.
  - exists []. rewrite logged_nil. now split.
  - cbn [forallb] in Hq. apply andb_true_iff in Hq as [Hc Hcs].
    destruct (run_call_quiet env c m Hc) as (evs1 & E1 & Q1).
    destruct (IH (logged m evs1) Hcs) as (evs2 & E2 & Q2).
    exists (evs1 ++ evs2). cbn [run_calls]. unfold bind.
    rewrite E1, E2, logged_logged. split; [reflexivity|].
    now apply forallb_app_true.
Qed.


(** ** The PCM51xx sequence *)


(** ** The further properties at concrete devices *)

Lemma Start_result_is_fault_flag_witness :
  32 <= m_nChunkSize (this machine_probe) /\
  exists r m',
    Start env_rx_fails machine_probe = Some (r, m') /\
    r = negb (m_bError (this m')).
Proof.
  split; [cbn; lia|].
  apply (Start_result_is_fault_flag env_rx_fails machine_probe).
  cbn. lia.
Defined.

Lemma Start_success_enables_mode_witness :
  exists m',
    (32 <= m_nChunkSize (this machine_probe) /\
     Start env_codec machine_probe = Some (true, m')) /\
    Z.land (regs m' ARM_PCM_CS_A) CS_A_TXON = CS_A_TXON.
Proof.
  eexists. split; [split; [cbn; lia | vm_compute; reflexivity]|].
  apply (Start_success_enables_mode env_codec machine_probe).
  - cbn. lia.
  - vm_compute. reflexivity.
  - reflexivity.
Defined.

Lemma Start_success_DREQ_thresholds_witness :
  exists m',
    (32 <= m_nChunkSize (this machine_probe) /\
     Start env_codec machine_probe = Some (true, m')) /\
    Z.land (regs m' ARM_PCM_DREQ_A) DREQ_A_TX__MASK
    = Z.shiftl 0x18 DREQ_A_TX__SHIFT.
Proof.
  eexists. split; [split; [cbn; lia | vm_compute; reflexivity]|].
  apply (Start_success_DREQ_thresholds env_codec machine_probe).
  - cbn. lia.
  - vm_compute. reflexivity.
  - cbn. lia.
Defined.

Lemma lifetime_guard_discipline_witness :
  exists m1,
    Constructor env_codec 48000 32 false (Some 1%nat) 0 DeviceModeTXRX
                machine_reset = Some (tt, m1) /\
    exists m2 m3 evs,
      run_calls env_codec [CallStart; CallTXCompleted true 32; CallCancel] m1
        = Some (tt, m2) /\
      Destructor m2 = Some (tt, m3) /\
      trace m3 = trace machine_reset ++ evs /\
      guard_discipline false evs = Some false.
Proof.
  eexists. split; [vm_compute; reflexivity|].
  apply (lifetime_guard_discipline env_codec 48000 32 false (Some 1%nat) 0
           DeviceModeTXRX machine_reset).
  vm_compute. reflexivity.
Defined.

Lemma framing_fixed_at_construction_witness :
  exists m1,
    Constructor env_codec 44100 256 true None 0 DeviceModeRXOnly
                machine_reset = Some (tt, m1) /\
    exists m2 evs,
      run_calls env_codec [CallStart; CallStart] m1 = Some (tt, m2) /\
      trace m2 = trace m1 ++ evs /\
      forallb no_framing_write evs = true /\
      MODE_A_FLEN (regs m2 ARM_PCM_MODE_A) = 63 /\
      Z.testbit (regs m2 ARM_PCM_MODE_A) 23 = true.
Proof.
  eexists. split; [vm_compute; reflexivity|].
  match goal with
  | |- exists m2 evs, run_calls _ _ ?M = _ /\ _ =>
      destruct (framing_fixed_at_construction env_codec 44100 256 true None 0
                  DeviceModeRXOnly machine_reset M [CallStart; CallStart])
        as (m2 & evs & E & T & N & F1 & _ & F3 & _);
        [vm_compute; reflexivity|]
  end.
  exists m2, evs. repeat split; assumption.
Defined.

Lemma teardown_mirrors_construction_witness :
  exists m1,
    Constructor env_codec 48000 32 false (Some 1%nat) 0 DeviceModeTXOnly
                machine_reset = Some (tt, m1) /\
    exists m2 m3,
      run_calls env_codec [CallStart] m1 = Some (tt, m2) /\
      Destructor m2 = Some (tt, m3) /\
      regs m3 ARM_PCM_CS_A = 0.
Proof.
  eexists. split; [vm_compute; reflexivity|].
  match goal with
  | |- exists m2 m3, run_calls _ _ ?M = _ /\ _ =>
      destruct (teardown_mirrors_construction env_codec 48000 32 false
                  (Some 1%nat) 0 DeviceModeTXOnly machine_reset M [CallStart])
        as (evs0 & m2 & m3 & evs2 & _ & _ & _ & E1 & E2 & _ & V & _);
        [vm_compute; reflexivity|]
  end.
  exists m2, m3. repeat split; assumption.
Defined.

Lemma quiet_calls_change_nothing_witness :
  forallb quiet_call [CallCancel; CallIsActive; CallTXCompleted true 32;
                      CallRXCompleted true 32] = true /\
  exists evs,
    run_calls env_codec [CallCancel; CallIsActive; CallTXCompleted true 32;
                         CallRXCompleted true 32] machine_probe
    = Some (tt, logged machine_probe evs).
Proof.
  split; [reflexivity|].
  destruct (quiet_calls_change_nothing env_codec
              [CallCancel; CallIsActive; CallTXCompleted true 32;
               CallRXCompleted true 32] machine_probe eq_refl)
    as (evs & E & _).
  exists evs. exact E.
Defined.


(** * Properties of the HD44780 display device *)
Module HD44780Facts.
Import HD44780.
#[local] Open Scope hd_scope.

(** Symbolic execution on a machine given by its components. *)
Ltac hd_run :=
  cbv [bind ret abort get_this modify_this emit logged
       this m_Buffer trace
       m_nColumns m_nRows m_pRW m_pI2CMaster m_nAddress m_bBlockCursor
       m_nState m_nCursorX m_nCursorY m_bCursorOn m_nParam1 m_nParam2
       m_bAutoPage
       set_pRW set_nState set_nCursorX set_nCursorY set_bCursorOn
       set_nParam1 set_nParam2 set_bAutoPage goto_Start
       CarriageReturn CursorHome SetAutoPageMode].

Ltac hd_flatten := repeat rewrite <- app_assoc; cbn [app].

(** Turn boolean comparisons in the hypotheses into propositions. *)
Ltac zbool :=
  repeat match goal with
  | H : (_ <=? _) = true |- _ => apply Z.leb_le in H
  | H : (_ <=? _) = false |- _ => apply Z.leb_gt in H
  | H : (_ <? _) = true |- _ => apply Z.ltb_lt in H
  | H : (_ <? _) = false |- _ => apply Z.ltb_ge in H
  | H : (_ =? _) = true |- _ => apply Z.eqb_eq in H
  | H : (_ =? _) = false |- _ => apply Z.eqb_neq in H
  end.

Lemma hd_logged_logged (m : Machine) (evs1 evs2 : list Event) :
  logged (logged m evs1) evs2 = logged m (evs1 ++ evs2).
Proof. unfold logged; cbn. now rewrite app_assoc. Qed.

Lemma hd_logged_nil (m : Machine) : logged m [] = m.
Proof. destruct m. unfold logged; cbn. now rewrite app_nil_r. Qed.

(** ** The byte protocol only logs *)

Lemma WriteHalfByte_run (nData mode : Z) (m : Machine) :
  exists evs, WriteHalfByte nData mode m = Some (tt, logged m evs).
Proof.
  destruct m as [[cols rows prw pi2c addr blk st X Y con p1 p2 ap] buf tr].
  unfold WriteHalfByte. hd_run.
  destruct pi2c, (mode =? HD44780_DATA); hd_flatten; eexists; reflexivity.
Qed.

Lemma WriteByte_run (nData mode : Z) (m : Machine) :
  exists evs, WriteByte nData mode m = Some (tt, logged m evs).
Proof.
  unfold WriteByte, bind.
  destruct (WriteHalfByte_run (Z.shiftr (u8 nData) 4) mode m) as (e1 & ->).
  destruct (WriteHalfByte_run (Z.land (u8 nData) 15) mode (logged m e1))
    as (e2 & ->).
  rewrite hd_logged_logged. eexists; reflexivity.
Qed.

(** ** DDRAM addresses, [SetChar] and the loops *)

Lemma u8_small (x : Z) : 0 <= x < 256 -> u8 x = x.
Proof. intros H. unfold u8. now apply Z.mod_small. Qed.

Lemma u32_id (x : Z) : 0 <= x < 2 ^ 32 -> u32 x = x.
Proof. intros H. unfold u32. now apply Z.mod_small. Qed.

Lemma GetDDRAMAddress_run (nPosX nPosY : Z) (m : Machine) :
  0 <= m_nColumns (this m) <= HD44780_MAX_COLUMNS ->
  0 <= nPosX < HD44780_MAX_COLUMNS ->
  0 <= nPosY < HD44780_MAX_ROWS ->
  GetDDRAMAddress nPosX nPosY m
  = Some (nPosX + row_offset (m_nColumns (this m)) nPosY, m).
Proof.
  unfold HD44780_MAX_COLUMNS, HD44780_MAX_ROWS. intros Hc Hx Hy.
  unfold GetDDRAMAddress, row_offset, bind, get_this, ret.
  rewrite (u8_small nPosX) by lia.
  assert (nPosY = 0 \/ nPosY = 1 \/ nPosY = 2 \/ nPosY = 3)
    as [-> | [-> | [-> | ->]]] by lia; cbn [Z.eqb Pos.eqb].
  - now rewrite Z.add_0_r.
  - now rewrite u8_small by lia.
  - now rewrite u8_small by lia.
  - rewrite (u32_id (64 + _)) by lia. now rewrite u8_small by lia.
Qed.

(** Beyond the fourth row the assertion of [GetDDRAMAddress] fails. *)
Lemma GetDDRAMAddress_beyond (nPosX nPosY : Z) (m : Machine) :
  nPosY < 0 \/ 3 < nPosY -> GetDDRAMAddress nPosX nPosY m = None.
Proof.
  intros H. unfold GetDDRAMAddress, bind, get_this, abort.
  repeat match goal with
  | |- context [nPosY =? ?k] =>
      replace (nPosY =? k) with false by (symmetry; apply Z.eqb_neq; lia)
  end.
  reflexivity.
Qed.

Lemma in_buffer_true (nPosY nPosX : Z) :
  0 <= nPosY < HD44780_MAX_ROWS -> 0 <= nPosX < HD44780_MAX_COLUMNS ->
  in_buffer nPosY nPosX = true.
Proof.
  intros Hy Hx. unfold in_buffer.
  repeat (apply andb_true_iff; split);
    first [apply Z.leb_le | apply Z.ltb_lt]; lia.
Qed.

Lemma SetChar_run (nPosX nPosY chChar : Z) (m : Machine) :
  0 <= m_nColumns (this m) <= HD44780_MAX_COLUMNS ->
  0 <= nPosX < HD44780_MAX_COLUMNS ->
  0 <= nPosY < HD44780_MAX_ROWS ->
  exists evs,
    SetChar nPosX nPosY chChar m
    = Some (tt, mkMachine (this m)
                  (buffer_with (m_Buffer m) nPosY nPosX (u8 chChar))
                  (trace m ++ evs)).
Proof.
  intros Hc Hx Hy. unfold SetChar. unfold bind at 1.
  rewrite (GetDDRAMAddress_run _ _ _ Hc Hx Hy). unfold bind at 1.
  destruct (WriteByte_run
              (Z.lor 128 (nPosX + row_offset (m_nColumns (this m)) nPosY))
              HD44780_CMD m) as (e1 & ->).
  unfold bind.
  destruct (WriteByte_run (u8 chChar) HD44780_DATA (logged m e1)) as (e2 & ->).
  unfold buffer_store. rewrite (in_buffer_true _ _ Hy Hx).
  cbn. rewrite <- app_assoc. eexists; reflexivity.
Qed.

(** A loop whose body only logs and takes the buffer from [b] to
    [F i b]. *)
Lemma for_loop_buffer (body : Z -> M unit)
    (F : Z -> (Z -> Z -> Z) -> Z -> Z -> Z) (n : nat) :
  forall (i0 : Z) (m : Machine),
    (forall i m', i0 <= i < i0 + Z.of_nat n -> this m' = this m ->
       exists evs,
         body i m' = Some (tt, mkMachine (this m') (F i (m_Buffer m'))
                                 (trace m' ++ evs))) ->
    exists evs,
      for_loop n i0 body m
      = Some (tt, mkMachine (this m) (loop_buffer F n i0 (m_Buffer m))
                    (trace m ++ evs)).
Proof.
  induction n as [|n IH]; intros i0 m Hbody.
  - exists []. cbn. rewrite app_nil_r. now destruct m.
  - cbn [for_loop loop_buffer]. unfold bind.
    destruct (Hbody i0 m ltac:(lia) eq_refl) as (e1 & ->).
    destruct (IH (i0 + 1)
                 (mkMachine (this m) (F i0 (m_Buffer m)) (trace m ++ e1)))
      as (e2 & ->).
    { intros i m' Hi Hm'. apply Hbody; [lia | exact Hm']. }
    cbn. rewrite <- app_assoc. eexists; reflexivity.
Qed.

Lemma for_range_buffer (body : Z -> M unit)
    (F : Z -> (Z -> Z -> Z) -> Z -> Z -> Z) (first bound : Z) (m : Machine) :
  (forall i m', first <= i < bound -> this m' = this m ->
     exists evs,
       body i m' = Some (tt, mkMachine (this m') (F i (m_Buffer m'))
                               (trace m' ++ evs))) ->
  exists evs,
    for_range first bound body m
    = Some (tt, mkMachine (this m)
                  (loop_buffer F (Z.to_nat (bound - first)) first (m_Buffer m))
                  (trace m ++ evs)).
Proof.
  intros Hbody. unfold for_range. apply for_loop_buffer.
  intros i m' Hi Hm'. apply Hbody; [lia | exact Hm'].
Qed.

(** What the loops leave in the buffer. *)
Lemma fill_row_spec (c nPosY : Z) (n : nat) :
  forall (x0 : Z) (buf : Z -> Z -> Z) (y x : Z),
    loop_buffer (fun i b => buffer_with b nPosY i c) n x0 buf y x
    = if (y =? nPosY) && (x0 <=? x) && (x <? x0 + Z.of_nat n)
      then c else buf y x.
Proof.
  induction n as [|n IH]; intros x0 buf y x.
  - cbn [loop_buffer].
    destruct (y =? nPosY), (x0 <=? x) eqn:E1, (x <? x0 + Z.of_nat 0) eqn:E2;
      cbn [andb]; try reflexivity.
    apply Z.leb_le in E1. apply Z.ltb_lt in E2. cbn in E2. lia.
  - cbn [loop_buffer]. rewrite IH. unfold buffer_with.
    destruct (y =? nPosY) eqn:Ey; cbn [andb]; [|reflexivity].
    destruct (x0 + 1 <=? x) eqn:E1, (x <? x0 + 1 + Z.of_nat n) eqn:E2,
             (x0 <=? x) eqn:E3, (x <? x0 + Z.of_nat (S n)) eqn:E4,
             (x =? x0) eqn:E5; cbn [andb]; try reflexivity; exfalso;
      zbool; lia.
Qed.

Lemma fill_rows_spec (c : Z) (ncols : nat) (nrows : nat) :
  forall (y0 : Z) (buf : Z -> Z -> Z) (y x : Z),
    loop_buffer (fun j b =>
      loop_buffer (fun i b' => buffer_with b' j i c) ncols 0 b)
      nrows y0 buf y x
    = if (y0 <=? y) && (y <? y0 + Z.of_nat nrows)
         && (0 <=? x) && (x <? Z.of_nat ncols)
      then c else buf y x.
Proof.
  induction nrows as [|n IH]; intros y0 buf y x.
  - cbn [loop_buffer].
    destruct (y0 <=? y) eqn:E1, (y <? y0 + Z.of_nat 0) eqn:E2;
      cbn [andb]; try reflexivity.
    zbool. cbn in E2. lia.
  - cbn [loop_buffer]. rewrite IH, fill_row_spec, ?Z.add_0_l.
    destruct (y0 + 1 <=? y) eqn:E1, (y <? y0 + 1 + Z.of_nat n) eqn:E2,
             (y0 <=? y) eqn:E3, (y <? y0 + Z.of_nat (S n)) eqn:E4,
             (y =? y0) eqn:E5, (0 <=? x) eqn:E6, (x <? Z.of_nat ncols) eqn:E7;
      cbn [andb]; try reflexivity; exfalso; zbool; lia.
Qed.

Lemma copy_row_spec (nPosY : Z) (n : nat) :
  forall (x0 : Z) (buf : Z -> Z -> Z) (y x : Z),
    loop_buffer (fun i b => buffer_with b (nPosY - 1) i (u8 (b nPosY i)))
                n x0 buf y x
    = if (y =? nPosY - 1) && (x0 <=? x) && (x <? x0 + Z.of_nat n)
      then u8 (buf nPosY x) else buf y x.
Proof.
  induction n as [|n IH]; intros x0 buf y x.
  - cbn [loop_buffer].
    destruct (y =? nPosY - 1), (x0 <=? x) eqn:E1,
             (x <? x0 + Z.of_nat 0) eqn:E2; cbn [andb]; try reflexivity.
    zbool. cbn in E2. lia.
  - cbn [loop_buffer]. rewrite IH. unfold buffer_with.
    replace (nPosY =? nPosY - 1) with false
      by (symmetry; apply Z.eqb_neq; lia).
    cbn [andb].
    destruct (y =? nPosY - 1) eqn:Ey; cbn [andb]; [|reflexivity].
    destruct (x0 + 1 <=? x) eqn:E1, (x <? x0 + 1 + Z.of_nat n) eqn:E2,
             (x0 <=? x) eqn:E3, (x <? x0 + Z.of_nat (S n)) eqn:E4,
             (x =? x0) eqn:E5; cbn [andb]; try reflexivity;
      try (exfalso; zbool; lia).
    zbool. now subst x.
Qed.

Lemma scroll_rows_spec (ncols : nat) (nrows : nat) :
  forall (y0 : Z) (buf : Z -> Z -> Z) (y x : Z),
    loop_buffer (fun j b =>
      loop_buffer (fun i b' => buffer_with b' (j - 1) i (u8 (b' j i)))
                  ncols 0 b)
      nrows y0 buf y x
    = if (y0 - 1 <=? y) && (y <? y0 - 1 + Z.of_nat nrows)
         && (0 <=? x) && (x <? Z.of_nat ncols)
      then u8 (buf (y + 1) x) else buf y x.
Proof.
  induction nrows as [|n IH]; intros y0 buf y x.
  - cbn [loop_buffer].
    destruct (y0 - 1 <=? y) eqn:E1, (y <? y0 - 1 + Z.of_nat 0) eqn:E2;
      cbn [andb]; try reflexivity.
    zbool. cbn in E2. lia.
  - cbn [loop_buffer]. rewrite IH, !copy_row_spec, ?Z.add_0_l.
    replace (y0 + 1 - 1) with y0 by lia.
    destruct (y0 <=? y) eqn:E1, (y <? y0 + Z.of_nat n) eqn:E2,
             (y0 - 1 <=? y) eqn:E3, (y <? y0 - 1 + Z.of_nat (S n)) eqn:E4,
             (y =? y0 - 1) eqn:E5, (0 <=? x) eqn:E6,
             (x <? Z.of_nat ncols) eqn:E7, (y + 1 =? y0 - 1) eqn:E8;
      cbn [andb]; try reflexivity; try (exfalso; zbool; lia).
    zbool. replace (y + 1) with y0 by lia. reflexivity.
Qed.

(** ** The erase functions and [Scroll] on the buffer *)

Lemma SetChar_body (c nPosY : Z) (m : Machine) :
  0 <= m_nColumns (this m) <= HD44780_MAX_COLUMNS ->
  0 <= nPosY < HD44780_MAX_ROWS ->
  forall i m', 0 <= i < m_nColumns (this m) -> this m' = this m ->
    exists evs,
      SetChar i nPosY c m'
      = Some (tt, mkMachine (this m')
                    (buffer_with (m_Buffer m') nPosY i (u8 c))
                    (trace m' ++ evs)).
Proof.
  intros Hc Hy i m' Hi Hm'. apply SetChar_run; rewrite ?Hm'; auto.
  unfold HD44780_MAX_COLUMNS in *. lia.
Qed.

Lemma ClearLineEnd_spec (m : Machine) :
  0 <= m_nColumns (this m) <= HD44780_MAX_COLUMNS ->
  0 <= m_nCursorX (this m) ->
  0 <= m_nCursorY (this m) < HD44780_MAX_ROWS ->
  exists m',
    ClearLineEnd m = Some (tt, m') /\
    buffer_step m m' (fun y x =>
      if (y =? m_nCursorY (this m)) && (m_nCursorX (this m) <=? x)
         && (x <? m_nColumns (this m))
      then 32 else m_Buffer m y x).
Proof.
  intros Hc HX HY. unfold ClearLineEnd, bind, get_this.
  destruct (for_range_buffer
              (fun nPosX => SetChar nPosX (m_nCursorY (this m)) 32)
              (fun i b => buffer_with b (m_nCursorY (this m)) i (u8 32))
              (m_nCursorX (this m)) (m_nColumns (this m)) m) as (evs & E).
  { intros i m' Hi Hm'. apply SetChar_body with (m := m); auto. lia. }
  eexists. split; [exact E|]. unfold buffer_step. cbn [this m_Buffer trace].
  split; [reflexivity|]. split; [| now exists evs].
  intros y x. rewrite fill_row_spec. change (u8 32) with 32.
  destruct (y =? m_nCursorY (this m)); cbn [andb]; [|reflexivity].
  destruct (m_nCursorX (this m) <=? x) eqn:E1,
           (x <? m_nColumns (this m)) eqn:E2,
           (x <? m_nCursorX (this m)
                 + Z.of_nat (Z.to_nat (m_nColumns (this m)
                                       - m_nCursorX (this m)))) eqn:E3;
    cbn [andb]; try reflexivity; exfalso; zbool; lia.
Qed.

(** [EraseChars] blanks [nCount] cells from the cursor on, but not
    beyond the end of the line; for a count of 0 it does nothing. *)
Lemma EraseChars_spec (nCount : Z) (m : Machine) :
  0 <= m_nColumns (this m) <= HD44780_MAX_COLUMNS ->
  0 <= m_nCursorX (this m) < 2 ^ 31 ->
  0 <= m_nCursorY (this m) < HD44780_MAX_ROWS ->
  0 <= nCount < 2 ^ 31 ->
  exists m',
    EraseChars nCount m = Some (tt, m') /\
    buffer_step m m' (fun y x =>
      if (y =? m_nCursorY (this m)) && (m_nCursorX (this m) <=? x)
         && (x <? m_nCursorX (this m) + nCount)
         && (x <? m_nColumns (this m))
      then 32 else m_Buffer m y x).
Proof.
  intros Hc HX HY Hn. unfold EraseChars.
  destruct (nCount =? 0) eqn:E0.
  { zbool. subst nCount. exists m. split; [reflexivity|].
    unfold buffer_step. split; [reflexivity|].
    split; [| exists []; now rewrite app_nil_r].
    intros y x.
    destruct (y =? m_nCursorY (this m)), (m_nCursorX (this m) <=? x) eqn:E1,
             (x <? m_nCursorX (this m) + 0) eqn:E2; cbn [andb];
      try reflexivity; exfalso; zbool; lia. }
  zbool. unfold bind, get_this.
  rewrite (u32_id (m_nCursorX (this m) + nCount)) by lia.
  set (nEndX := if m_nColumns (this m) <? m_nCursorX (this m) + nCount
                then m_nColumns (this m)
                else m_nCursorX (this m) + nCount).
  assert (nEndX <= m_nColumns (this m) /\
          nEndX <= m_nCursorX (this m) + nCount /\
          (nEndX = m_nColumns (this m) \/
           nEndX = m_nCursorX (this m) + nCount)) as HE.
  { subst nEndX.
    destruct (m_nColumns (this m) <? m_nCursorX (this m) + nCount) eqn:E;
      zbool; lia. }
  destruct (for_range_buffer
              (fun nPosX => SetChar nPosX (m_nCursorY (this m)) 32)
              (fun i b => buffer_with b (m_nCursorY (this m)) i (u8 32))
              (m_nCursorX (this m)) nEndX m) as (evs & E).
  { intros i m' Hi Hm'. apply SetChar_body with (m := m); auto. lia. }
  eexists. split; [exact E|]. unfold buffer_step. cbn [this m_Buffer trace].
  split; [reflexivity|]. split; [| now exists evs].
  intros y x. rewrite fill_row_spec. change (u8 32) with 32.
  destruct (y =? m_nCursorY (this m)); cbn [andb]; [|reflexivity].
  destruct (m_nCursorX (this m) <=? x) eqn:E1,
           (x <? m_nColumns (this m)) eqn:E2,
           (x <? m_nCursorX (this m) + nCount) eqn:E4,
           (x <? m_nCursorX (this m)
                 + Z.of_nat (Z.to_nat (nEndX - m_nCursorX (this m)))) eqn:E3;
    cbn [andb]; try reflexivity; exfalso; zbool; lia.
Qed.

Lemma fill_loop_SetChar (c : Z) (first : Z) (m : Machine) :
  0 <= m_nColumns (this m) <= HD44780_MAX_COLUMNS ->
  0 <= m_nRows (this m) <= HD44780_MAX_ROWS ->
  0 <= first ->
  exists evs,
    for_range first (m_nRows (this m)) (fun nPosY =>
      for_range 0 (m_nColumns (this m)) (fun nPosX =>
        SetChar nPosX nPosY c)) m
    = Some (tt, mkMachine (this m)
         (loop_buffer (fun j b =>
            loop_buffer (fun i b' => buffer_with b' j i (u8 c))
                        (Z.to_nat (m_nColumns (this m) - 0)) 0 b)
            (Z.to_nat (m_nRows (this m) - first)) first (m_Buffer m))
         (trace m ++ evs)).
Proof.
  intros Hc Hr Hf.
  apply for_range_buffer. intros j m1 Hj Hm1.
  apply for_range_buffer. intros i m2 Hi Hm2.
  apply SetChar_body with (m := m); auto; [lia | congruence].
Qed.

(** [ClearDisplayEnd] blanks the cells of the display from the cursor to
    the end, in reading order, and no other. *)
Lemma ClearDisplayEnd_spec (m : Machine) :
  cursor_on_display (this m) ->
  exists m',
    ClearDisplayEnd m = Some (tt, m') /\
    buffer_step m m' (fun y x =>
      if (0 <=? x) && (x <? m_nColumns (this m)) && (y <? m_nRows (this m))
         && ((m_nCursorY (this m) <? y)
             || ((y =? m_nCursorY (this m)) && (m_nCursorX (this m) <=? x)))
      then 32 else m_Buffer m y x).
Proof.
  unfold cursor_on_display, HD44780_MAX_COLUMNS, HD44780_MAX_ROWS.
  intros (Hc & Hr & HX & HY). unfold ClearDisplayEnd. unfold bind at 1.
  unfold get_this at 1.
  destruct ((m_nCursorX (this m) =? 0) && (m_nCursorY (this m) =? 0)) eqn:Eh.
  - apply andb_true_iff in Eh as [EX EY]. zbool.
    unfold bind at 1.
    destruct (WriteByte_run 1 HD44780_CMD m) as (e1 & ->).
    unfold bind at 1. unfold emit at 1.
    destruct (for_range_buffer
      (fun nPosY => for_range 0 (m_nColumns (this m))
                      (fun nPosX => buffer_store nPosY nPosX 32))
      (fun j b => loop_buffer (fun i b' => buffer_with b' j i 32)
                    (Z.to_nat (m_nColumns (this m) - 0)) 0 b)
      0 (m_nRows (this m))
      (mkMachine (this (logged m e1)) (m_Buffer (logged m e1))
                 (trace (logged m e1) ++ [EvSimpleMsDelay 2])))
      as (evs & E).
    { intros j m1 Hj Hm1. cbn [this logged] in Hm1.
      rewrite <- Hm1.
      apply for_range_buffer. intros i m2 Hi Hm2.
      exists []. unfold buffer_store.
      rewrite in_buffer_true
        by (unfold HD44780_MAX_COLUMNS, HD44780_MAX_ROWS;
            rewrite Hm1 in Hi; lia).
      now rewrite app_nil_r. }
    cbn [this logged] in E.
    eexists. split; [exact E|]. unfold buffer_step.
    cbn [this m_Buffer trace logged].
    split; [reflexivity|].
    split; [| rewrite <- !app_assoc; eexists; reflexivity].
    intros y x. rewrite fill_rows_spec, EX, EY.
    rewrite !Z.sub_0_r, !Z2Nat.id, !Z.add_0_l by lia.
    destruct (0 <=? y) eqn:E1, (y <? m_nRows (this m)) eqn:E2,
             (0 <=? x) eqn:E3, (x <? m_nColumns (this m)) eqn:E4,
             (0 <? y) eqn:E5, (y =? 0) eqn:E6;
      cbn [andb orb]; try reflexivity; exfalso; zbool; lia.
  - unfold bind at 1.
    destruct (ClearLineEnd_spec m) as (m1 & -> & S1 & B1 & evs1 & T1);
      [unfold HD44780_MAX_COLUMNS, HD44780_MAX_ROWS; lia ..|].
    rewrite <- S1.
    rewrite (u32_id (m_nCursorY (this m1) + 1)) by (rewrite S1; lia).
    destruct (fill_loop_SetChar 32 (m_nCursorY (this m1) + 1) m1)
      as (evs2 & ->);
      [unfold HD44780_MAX_COLUMNS, HD44780_MAX_ROWS; rewrite S1; lia ..|].
    eexists. split; [reflexivity|]. unfold buffer_step.
    cbn [this m_Buffer trace].
    split; [exact S1|].
    split; [| rewrite T1, <- app_assoc; eexists; reflexivity].
    intros y x. rewrite fill_rows_spec, B1. change (u8 32) with 32.
    rewrite S1, !Z.sub_0_r.
    assert (Hn : Z.of_nat (Z.to_nat (m_nRows (this m)
                                     - (m_nCursorY (this m) + 1)))
                 = m_nRows (this m) - (m_nCursorY (this m) + 1))
      by (apply Z2Nat.id; lia).
    rewrite Hn, Z2Nat.id by lia.
    destruct (m_nCursorY (this m) + 1 <=? y) eqn:E1,
             (y <? m_nCursorY (this m) + 1
                   + (m_nRows (this m) - (m_nCursorY (this m) + 1))) eqn:E2,
             (0 <=? x) eqn:E3, (x <? m_nColumns (this m)) eqn:E4,
             (y <? m_nRows (this m)) eqn:E5,
             (m_nCursorY (this m) <? y) eqn:E6,
             (y =? m_nCursorY (this m)) eqn:E7,
             (m_nCursorX (this m) <=? x) eqn:E8;
      cbn [andb orb]; try reflexivity; exfalso; zbool; lia.
Qed.

(** [Scroll] moves every row of the display one up and blanks the last
    row. *)
Lemma Scroll_spec (m : Machine) :
  0 <= m_nColumns (this m) <= HD44780_MAX_COLUMNS ->
  1 <= m_nRows (this m) <= HD44780_MAX_ROWS ->
  exists m',
    Scroll m = Some (tt, m') /\
    buffer_step m m' (fun y x =>
      if (0 <=? x) && (x <? m_nColumns (this m))
         && (0 <=? y) && (y <? m_nRows (this m))
      then (if y =? m_nRows (this m) - 1 then 32
            else u8 (m_Buffer m (y + 1) x))
      else m_Buffer m y x).
Proof.
  unfold HD44780_MAX_COLUMNS, HD44780_MAX_ROWS.
  intros Hc Hr. unfold Scroll. unfold bind at 1. unfold get_this at 1.
  unfold bind at 1.
  destruct (for_range_buffer
    (fun nPosY => for_range 0 (m_nColumns (this m))
       (fun nPosX => c <- buffer_load nPosY nPosX ;;
                     SetChar nPosX (nPosY - 1) c))
    (fun j b => loop_buffer
       (fun i b' => buffer_with b' (j - 1) i (u8 (b' j i)))
       (Z.to_nat (m_nColumns (this m) - 0)) 0 b)
    1 (m_nRows (this m)) m) as (evs1 & ->).
  { intros j m1 Hj Hm1. rewrite <- Hm1.
    apply for_range_buffer. intros i m2 Hi Hm2.
    unfold bind, buffer_load.
    rewrite Hm1 in Hi.
    rewrite in_buffer_true
      by (unfold HD44780_MAX_COLUMNS, HD44780_MAX_ROWS; lia).
    apply SetChar_run;
      unfold HD44780_MAX_COLUMNS, HD44780_MAX_ROWS;
      rewrite ?Hm2, ?Hm1; lia. }
  rewrite (u32_id (m_nRows (this m) - 1)) by lia.
  match goal with
  | |- context [for_range 0 _ _ ?M] =>
      destruct (for_range_buffer
        (fun nPosX => SetChar nPosX (m_nRows (this m) - 1) 32)
        (fun i b => buffer_with b (m_nRows (this m) - 1) i (u8 32))
        0 (m_nColumns (this m)) M) as (evs2 & ->)
  end.
  { intros i m' Hi Hm'. cbn [this] in Hm'.
    apply SetChar_run;
      unfold HD44780_MAX_COLUMNS, HD44780_MAX_ROWS; rewrite ?Hm'; lia. }
  eexists. split; [reflexivity|]. unfold buffer_step.
  cbn [this m_Buffer trace].
  split; [reflexivity|].
  split; [| rewrite <- app_assoc; eexists; reflexivity].
  intros y x. rewrite fill_row_spec, scroll_rows_spec.
  change (u8 32) with 32.
  rewrite !Z.sub_0_r, !Z.add_0_l.
  assert (Hn : Z.of_nat (Z.to_nat (m_nRows (this m) - 1))
               = m_nRows (this m) - 1) by (apply Z2Nat.id; lia).
  rewrite Hn, Z2Nat.id by lia.
  destruct (y =? m_nRows (this m) - 1) eqn:E1,
           (0 <=? x) eqn:E2, (x <? m_nColumns (this m)) eqn:E3,
           (0 <=? y) eqn:E4, (y <? m_nRows (this m)) eqn:E5,
           (1 - 1 <=? y) eqn:E6,
           (y <? m_nRows (this m) - 1) eqn:E7;
    cbn [andb]; try reflexivity; exfalso; zbool; lia.
Qed.

(** ** The cursor stays on the display *)

Ltac wf_solve :=
  unfold cursor_on_display, setup, logged,
    HD44780_MAX_COLUMNS, HD44780_MAX_ROWS in *;
  cbn [this m_Buffer trace m_nColumns m_nRows m_pRW m_pI2CMaster m_nAddress
       m_bBlockCursor
       m_nState m_nCursorX m_nCursorY m_bCursorOn m_nParam1 m_nParam2
       m_bAutoPage set_pRW set_nState set_nCursorX set_nCursorY
       set_bCursorOn set_nParam1 set_nParam2 set_bAutoPage] in *;
  repeat split; try reflexivity; try lia.

(** Closes [keeps] goals whose final machine has the buffer of the
    first. *)
Ltac keeps_same W :=
  split; [reflexivity || eassumption |];
  split; [exact W || wf_solve |];
  split; [reflexivity || wf_solve | intros; reflexivity].

Lemma on_display_setup (d d' : CHD44780Device) (y x : Z) :
  setup d' = setup d -> on_display d' y x = on_display d y x.
Proof.
  unfold setup, on_display. intros E. injection E as -> -> _ _ _ _.
  reflexivity.
Qed.

Lemma keeps_ret {A} (a : A) : keeps (ret a).
Proof. intros m W. exists a, m. keeps_same W. Qed.

Lemma keeps_bind {A B} (c : M A) (k : A -> M B) :
  keeps c -> (forall a, keeps (k a)) -> keeps (bind c k).
Proof.
  intros Hc Hk m W. destruct (Hc m W) as (a & m1 & E1 & W1 & S1 & F1).
  destruct (Hk a m1 W1) as (b & m2 & E2 & W2 & S2 & F2).
  exists b, m2. unfold bind. rewrite E1.
  split; [exact E2|]. split; [exact W2|]. split; [now rewrite S2|].
  intros y x D. rewrite F2, F1; trivial.
  now rewrite (on_display_setup _ _ _ _ S1).
Qed.

Lemma keeps_get {B} (k : CHD44780Device -> M B) :
  (forall d, keeps (k d)) -> keeps (bind get_this k).
Proof. intros Hk m W. unfold bind, get_this. now apply Hk. Qed.

Lemma keeps_if {A} (b : bool) (c1 c2 : M A) :
  keeps c1 -> keeps c2 -> keeps (if b then c1 else c2).
Proof. now destruct b. Qed.

Lemma keeps_set_nState (v : TDisplayState) : keeps (modify_this (set_nState v)).
Proof. intros m W. do 2 eexists. keeps_same W. Qed.

Lemma keeps_goto_Start : keeps goto_Start.
Proof. apply keeps_set_nState. Qed.

Lemma keeps_set_nParam1 (v : Z) : keeps (modify_this (set_nParam1 v)).
Proof. intros m W. do 2 eexists. keeps_same W. Qed.

Lemma keeps_set_nParam2 (v : Z) : keeps (modify_this (set_nParam2 v)).
Proof. intros m W. do 2 eexists. keeps_same W. Qed.

Lemma keeps_SetAutoPageMode (b : bool) : keeps (SetAutoPageMode b).
Proof. intros m W. do 2 eexists. keeps_same W. Qed.

Lemma keeps_CarriageReturn : keeps CarriageReturn.
Proof. intros m W. do 2 eexists. keeps_same W. Qed.

Lemma keeps_CursorHome : keeps CursorHome.
Proof. intros m W. do 2 eexists. keeps_same W. Qed.

Lemma keeps_WriteByte (nData mode : Z) : keeps (WriteByte nData mode).
Proof.
  intros m W. destruct (WriteByte_run nData mode m) as (evs & E).
  do 2 eexists. keeps_same W.
Qed.

Lemma keeps_WriteHalfByte (nData mode : Z) : keeps (WriteHalfByte nData mode).
Proof.
  intros m W. destruct (WriteHalfByte_run nData mode m) as (evs & E).
  do 2 eexists. keeps_same W.
Qed.

Lemma keeps_emit (e : Event) : keeps (emit e).
Proof. intros m W. do 2 eexists. keeps_same W. Qed.

Lemma keeps_SetCursorMode (b : bool) : keeps (SetCursorMode b).
Proof.
  intros m W. unfold SetCursorMode, bind, modify_this, get_this.
  match goal with
  | |- context [WriteByte ?n ?md ?M] =>
      destruct (WriteByte_run n md M) as (evs & ->)
  end.
  do 2 eexists. keeps_same W.
Qed.

Lemma keeps_CursorUp : keeps CursorUp.
Proof.
  intros m W. unfold CursorUp, bind, get_this, modify_this, ret.
  destruct (0 <? m_nCursorY (this m)) eqn:E; zbool; do 2 eexists.
  - rewrite u32_id by wf_solve. keeps_same W.
  - keeps_same W.
Qed.

Lemma keeps_CursorLeft : keeps CursorLeft.
Proof.
  intros m W. unfold CursorLeft, bind, get_this, modify_this, ret.
  destruct (0 <? m_nCursorX (this m)) eqn:E; zbool.
  - do 2 eexists. rewrite u32_id by wf_solve. keeps_same W.
  - destruct (0 <? m_nCursorY (this m)) eqn:E2; zbool; do 2 eexists.
    + cbn [this]. rewrite !u32_id by wf_solve. keeps_same W.
    + keeps_same W.
Qed.

Lemma keeps_CursorMove (nRow nColumn : Z) : keeps (CursorMove nRow nColumn).
Proof.
  intros m W. unfold CursorMove, bind, get_this, modify_this, ret.
  pose proof (Z.mod_pos_bound (nColumn - 1) (2 ^ 32) ltac:(lia)) as B1.
  pose proof (Z.mod_pos_bound (nRow - 1) (2 ^ 32) ltac:(lia)) as B2.
  fold (u32 (nColumn - 1)) in B1. fold (u32 (nRow - 1)) in B2.
  destruct (u32 (nColumn - 1) <? m_nColumns (this m)) eqn:E1; zbool.
  - destruct (u32 (nRow - 1) <? m_nRows (this m)) eqn:E2; zbool;
      do 2 eexists; keeps_same W.
  - do 2 eexists. keeps_same W.
Qed.

(** A step that replaces the buffer by [newbuf], equal to the old one
    outside the display, keeps the invariant. *)
Lemma keeps_buffer_step (m m' : Machine) (newbuf : Z -> Z -> Z) :
  cursor_on_display (this m) ->
  buffer_step m m' newbuf ->
  (forall y x, on_display (this m) y x = false -> newbuf y x = m_Buffer m y x) ->
  cursor_on_display (this m') /\ setup (this m') = setup (this m) /\
  forall y x, on_display (this m) y x = false ->
              m_Buffer m' y x = m_Buffer m y x.
Proof.
  intros W (S & B & _) Hf. rewrite S. split; [exact W|]. split; [reflexivity|].
  intros y x D. now rewrite B, Hf.
Qed.

Lemma on_display_false (d : CHD44780Device) (y x : Z) :
  on_display d y x = false ->
  ~ (0 <= y < m_nRows d /\ 0 <= x < m_nColumns d).
Proof.
  unfold on_display. intros D H.
  destruct (0 <=? y) eqn:?, (y <? m_nRows d) eqn:?, (0 <=? x) eqn:?,
           (x <? m_nColumns d) eqn:?; zbool; try discriminate; lia.
Qed.

Ltac off_display D :=
  apply on_display_false in D;
  repeat match goal with
  | |- context [?a <=? ?b] => destruct (a <=? b) eqn:?
  | |- context [?a <? ?b] => destruct (a <? b) eqn:?
  | |- context [?a =? ?b] => destruct (a =? b) eqn:?
  end;
  cbn [andb orb]; try reflexivity; exfalso; zbool; wf_solve.

Lemma keeps_Scroll : keeps Scroll.
Proof.
  intros m W. destruct (Scroll_spec m) as (m' & E & BS); [wf_solve ..|].
  do 2 eexists. split; [exact E|].
  apply (keeps_buffer_step _ _ _ W BS). intros y x D. off_display D.
Qed.

Lemma keeps_ClearLineEnd : keeps ClearLineEnd.
Proof.
  intros m W. destruct (ClearLineEnd_spec m) as (m' & E & BS); [wf_solve ..|].
  do 2 eexists. split; [exact E|].
  apply (keeps_buffer_step _ _ _ W BS). intros y x D. off_display D.
Qed.

Lemma keeps_ClearDisplayEnd : keeps ClearDisplayEnd.
Proof.
  intros m W. destruct (ClearDisplayEnd_spec m W) as (m' & E & BS).
  do 2 eexists. split; [exact E|].
  apply (keeps_buffer_step _ _ _ W BS). intros y x D. off_display D.
Qed.

Lemma keeps_CursorDown : keeps CursorDown.
Proof.
  intros m W. unfold CursorDown. unfold bind at 1. unfold get_this at 1.
  unfold bind at 1. unfold modify_this at 1.
  rewrite (u32_id (m_nCursorY (this m) + 1)) by wf_solve.
  destruct (m_nRows (this m) <=? m_nCursorY (this m) + 1) eqn:E; zbool.
  - destruct (m_bAutoPage (this m)); cbn [negb].
    + do 2 eexists. keeps_same W.
    + unfold bind.
      match goal with
      | |- context [Scroll ?M] =>
          destruct (Scroll_spec M) as (m' & -> & S & B & _); [wf_solve ..|]
      end.
      unfold modify_this. do 2 eexists. split; [reflexivity|].
      cbn [this m_Buffer]. rewrite S. cbn [this m_nCursorY set_nCursorY].
      rewrite u32_id by wf_solve.
      split; [wf_solve|]. split; [wf_solve|].
      intros y x D. rewrite B. cbn [this m_Buffer]. off_display D.
  - do 2 eexists. keeps_same W.
Qed.

Lemma keeps_NewLine : keeps NewLine.
Proof.
  unfold NewLine. apply keeps_bind; [apply keeps_CarriageReturn|].
  intros _. apply keeps_CursorDown.
Qed.

Lemma keeps_CursorRight : keeps CursorRight.
Proof.
  intros m W. unfold CursorRight. unfold bind at 1. unfold get_this at 1.
  unfold bind at 1. unfold modify_this at 1.
  rewrite (u32_id (m_nCursorX (this m) + 1)) by wf_solve.
  destruct (m_nColumns (this m) <=? m_nCursorX (this m) + 1) eqn:E; zbool.
  - unfold NewLine, CarriageReturn, bind, modify_this. cbn [this m_Buffer trace].
    match goal with
    | |- context [CursorDown ?M] =>
        destruct (keeps_CursorDown M) as (a & m' & -> & W' & S' & F');
          [wf_solve|]
    end.
    do 2 eexists. split; [reflexivity|]. split; [exact W'|].
    split; [rewrite S'; reflexivity | exact F'].
  - do 2 eexists. keeps_same W.
Qed.

Lemma keeps_Tabulator : keeps Tabulator.
Proof.
  intros m W. unfold Tabulator. unfold bind at 1. unfold get_this at 1.
  unfold bind at 1. unfold modify_this at 1.
  set (x := u32 (u32 (m_nCursorX (this m) + 8) / 8 * 8)).
  assert (0 <= x) as Hx by (apply Z.mod_pos_bound; lia).
  destruct (m_nColumns (this m) <=? x) eqn:E; zbool.
  - unfold NewLine, CarriageReturn, bind, modify_this. cbn [this m_Buffer trace].
    match goal with
    | |- context [CursorDown ?M] =>
        destruct (keeps_CursorDown M) as (a & m' & -> & W' & S' & F');
          [wf_solve|]
    end.
    do 2 eexists. split; [reflexivity|]. split; [exact W'|].
    split; [rewrite S'; reflexivity | exact F'].
  - do 2 eexists. keeps_same W.
Qed.

Lemma buffer_with_off_display (d : CHD44780Device) (buf : Z -> Z -> Z)
    (nPosY nPosX c y x : Z) :
  on_display d nPosY nPosX = true ->
  on_display d y x = false ->
  buffer_with buf nPosY nPosX c y x = buf y x.
Proof.
  intros D1 D2. unfold buffer_with.
  destruct (y =? nPosY) eqn:Ey, (x =? nPosX) eqn:Ex; cbn [andb]; trivial.
  zbool. subst. congruence.
Qed.

Lemma on_display_true (d : CHD44780Device) (y x : Z) :
  0 <= y < m_nRows d -> 0 <= x < m_nColumns d -> on_display d y x = true.
Proof.
  intros Hy Hx. unfold on_display.
  destruct (0 <=? y) eqn:?, (y <? m_nRows d) eqn:?, (0 <=? x) eqn:?,
           (x <? m_nColumns d) eqn:?; zbool; trivial; lia.
Qed.

Lemma keeps_DisplayChar (chChar : Z) : keeps (DisplayChar chChar).
Proof.
  intros m W. unfold DisplayChar.
  destruct (32 <=? u8 chChar); [| now apply keeps_ret].
  unfold bind at 1. unfold get_this at 1. unfold bind at 1.
  match goal with
  | |- context [SetChar ?x ?y ?c m] =>
      destruct (SetChar_run x y c m) as (evs & ->); [wf_solve ..|]
  end.
  match goal with
  | |- context [CursorRight ?M] =>
      destruct (keeps_CursorRight M W) as (a & m' & -> & W' & S' & F')
  end.
  do 2 eexists. split; [reflexivity|]. split; [exact W'|].
  split; [exact S'|].
  intros y x D. rewrite F' by exact D. cbn [m_Buffer].
  apply (buffer_with_off_display (this m)); [| exact D].
  apply on_display_true; wf_solve.
Qed.

Lemma loop_buffer_frame (F : Z -> (Z -> Z -> Z) -> Z -> Z -> Z)
    (y x : Z) (n : nat) :
  forall (i0 : Z) (buf : Z -> Z -> Z),
    (forall i b, i0 <= i < i0 + Z.of_nat n -> F i b y x = b y x) ->
    loop_buffer F n i0 buf y x = buf y x.
Proof.
  induction n as [|n IH]; intros i0 buf HF; cbn [loop_buffer]; trivial.
  rewrite IH by (intros i b Hi; apply HF; lia).
  apply HF. lia.
Qed.

Lemma keeps_EraseChars (nCount : Z) : keeps (EraseChars nCount).
Proof.
  intros m W. unfold EraseChars.
  destruct (nCount =? 0); [now apply keeps_ret|].
  unfold bind, get_this.
  set (nEndX := if m_nColumns (this m)
                   <? u32 (m_nCursorX (this m) + nCount)
                then m_nColumns (this m)
                else u32 (m_nCursorX (this m) + nCount)).
  assert (nEndX <= m_nColumns (this m)) as HE.
  { subst nEndX.
    destruct (m_nColumns (this m) <? u32 (m_nCursorX (this m) + nCount)) eqn:E;
      zbool; lia. }
  destruct (for_range_buffer
              (fun nPosX => SetChar nPosX (m_nCursorY (this m)) 32)
              (fun i b => buffer_with b (m_nCursorY (this m)) i (u8 32))
              (m_nCursorX (this m)) nEndX m) as (evs & E).
  { intros i m' Hi Hm'. apply SetChar_run; rewrite ?Hm'; wf_solve. }
  do 2 eexists. split; [exact E|]. split; [exact W|]. split; [reflexivity|].
  intros y x D. cbn [m_Buffer]. apply loop_buffer_frame.
  intros i b Hi. apply (buffer_with_off_display (this m)); [| exact D].
  apply on_display_true; wf_solve.
Qed.

Lemma keeps_SetCursor : keeps SetCursor.
Proof.
  intros m W. unfold SetCursor, bind, get_this.
  destruct (m_bCursorOn (this m)); [| now apply keeps_ret].
  rewrite GetDDRAMAddress_run by wf_solve.
  now apply keeps_WriteByte.
Qed.

Ltac keeps_step :=
  first
    [ apply keeps_ret
    | apply keeps_goto_Start
    | apply keeps_set_nState
    | apply keeps_set_nParam1
    | apply keeps_set_nParam2
    | apply keeps_SetAutoPageMode
    | apply keeps_SetCursorMode
    | apply keeps_CarriageReturn
    | apply keeps_CursorHome
    | apply keeps_CursorUp
    | apply keeps_CursorDown
    | apply keeps_CursorLeft
    | apply keeps_CursorRight
    | apply keeps_CursorMove
    | apply keeps_NewLine
    | apply keeps_Tabulator
    | apply keeps_DisplayChar
    | apply keeps_EraseChars
    | apply keeps_ClearLineEnd
    | apply keeps_ClearDisplayEnd
    | apply keeps_if
    | apply keeps_bind; [| intros _] ].

Lemma keeps_Write_char (chChar : Z) : keeps (Write_char chChar).
Proof.
  unfold Write_char. apply keeps_get. intros d.
  destruct (m_nState d); cbv zeta; repeat keeps_step.
Qed.

Lemma keeps_Write_chars (pChar : list Z) : keeps (Write_chars pChar).
Proof.
  induction pChar as [| c rest IH]; cbn [Write_chars].
  - apply keeps_ret.
  - apply keeps_bind; [apply keeps_Write_char | intros _; exact IH].
Qed.

Lemma Write_returns_count (pBuffer : list Z) (m : Machine) :
  cursor_on_display (this m) ->
  exists m',
    Write pBuffer m = Some (Z.of_nat (length pBuffer), m') /\
    cursor_on_display (this m') /\
    setup (this m') = setup (this m).
Proof.
  intros W. unfold Write. unfold bind at 1. unfold emit at 1.
  unfold bind at 1.
  match goal with
  | |- context [Write_chars pBuffer ?M] =>
      destruct (keeps_Write_chars pBuffer M W) as ([] & m1 & -> & W1 & S1 & F1)
  end.
  unfold bind at 1.
  destruct (keeps_SetCursor m1 W1) as ([] & m2 & -> & W2 & S2 & F2).
  unfold bind, emit, ret. eexists. split; [reflexivity|].
  cbn [this m_Buffer]. split; [exact W2|].
  rewrite S2; exact S1.
Qed.

(** ** Write, Initialize and the life of a display *)

(** X11.  On a display of 1..40 columns and 1..4 rows whose cursor is on
    the display, [Write] of any bytes returns, and returns their number;
    no assertion fails and no access leaves [m_Buffer].  The cursor is on
    the display afterwards, the members set by the constructor are
    unchanged, and no buffer entry outside the display is stored to. *)
Theorem Write_keeps_cursor_on_display (pBuffer : list Z) (m : Machine) :
  cursor_on_display (this m) ->
  exists m',
    Write pBuffer m = Some (Z.of_nat (length pBuffer), m') /\
    cursor_on_display (this m') /\
    setup (this m') = setup (this m) /\
    forall y x, on_display (this m) y x = false ->
                m_Buffer m' y x = m_Buffer m y x.
Proof.
  intros W. unfold Write. unfold bind at 1. unfold emit at 1.
  unfold bind at 1.
  match goal with
  | |- context [Write_chars pBuffer ?M] =>
      destruct (keeps_Write_chars pBuffer M W) as ([] & m1 & -> & W1 & S1 & F1)
  end.
  unfold bind at 1.
  destruct (keeps_SetCursor m1 W1) as ([] & m2 & -> & W2 & S2 & F2).
  unfold bind, emit, ret. eexists. split; [reflexivity|].
  cbn [this m_Buffer]. split; [exact W2|].
  split; [rewrite S2; exact S1|].
  intros y x D. rewrite F2, F1; trivial.
  rewrite (on_display_setup _ _ _ _ S1). exact D.
Qed.

Lemma Write_keeps_cursor_on_display_witness :
  exists m',
    Write [72; 105; 10; 27; 91; 50; 59; 53; 72; 33] machine_16x2
    = Some (10, m') /\
    cursor_on_display (this m') /\
    setup (this m') = setup (this machine_16x2) /\
    forall y x, on_display (this machine_16x2) y x = false ->
                m_Buffer m' y x = m_Buffer machine_16x2 y x.
Proof.
  apply (Write_keeps_cursor_on_display
           [72; 105; 10; 27; 91; 50; 59; 53; 72; 33] machine_16x2).
  unfold cursor_on_display, HD44780_MAX_COLUMNS, HD44780_MAX_ROWS; simpl; lia.
Defined.

(** X12.  Without that precondition [Write] can fail: the constructors
    leave the cursor uninitialised, and with [m_nCursorY] beyond the
    fourth row a printable character runs into the assertion of
    [GetDDRAMAddress]. *)
Theorem Write_asserts_beyond_fourth_row (chChar : Z) (rest : list Z)
    (m : Machine) :
  m_nState (this m) = ScreenStateStart ->
  32 <= chChar < 256 ->
  HD44780_MAX_ROWS <= m_nCursorY (this m) ->
  Write (chChar :: rest) m = None.
Proof.
  unfold HD44780_MAX_ROWS. intros St Hc HY.
  assert (forall m0, this m0 = this m -> Write_char chChar m0 = None) as HW.
  { intros m0 E0. unfold Write_char, bind, get_this. rewrite E0, St.
    destruct (chChar =? 8) eqn:E1; [zbool; lia|].
    destruct (chChar =? 9) eqn:E2; [zbool; lia|].
    destruct (chChar =? 10) eqn:E3; [zbool; lia|].
    destruct (chChar =? 13) eqn:E4; [zbool; lia|].
    destruct (chChar =? 27) eqn:E5; [zbool; lia|].
    unfold DisplayChar. rewrite (u8_small chChar) by lia.
    destruct (32 <=? chChar) eqn:E6; [| zbool; lia].
    unfold bind, get_this, SetChar, bind. rewrite E0.
    rewrite GetDDRAMAddress_beyond; [reflexivity | lia]. }
  unfold Write, bind, emit. cbn [Write_chars]. unfold bind.
  rewrite HW; reflexivity.
Qed.

Lemma Write_asserts_beyond_fourth_row_witness :
  Write [65]
    (mkMachine
       (mkDevice 16 2 PinNull None 0 false ScreenStateStart 0 7 false 0 0 false)
       (fun _ _ => 0) [])
  = None.
Proof.
  apply Write_asserts_beyond_fourth_row.
  - reflexivity.
  - lia.
  - unfold HD44780_MAX_ROWS; simpl; lia.
Defined.

(** X13.  [Initialize] needs no initialised cursor: on a display of
    1..40 columns and 1..4 rows it returns TRUE from any cursor, mode
    flags and buffer contents, puts the cursor at home, switches the cursor on and
    autopage off, blanks every buffer entry of the display and no other,
    and leaves the escape state and the setup alone.  Afterwards the
    cursor is on the display. *)
Theorem Initialize_homes_and_blanks (m : Machine) :
  1 <= m_nColumns (this m) <= HD44780_MAX_COLUMNS ->
  1 <= m_nRows (this m) <= HD44780_MAX_ROWS ->
  exists m',
    Initialize m = Some (true, m') /\
    m_nCursorX (this m') = 0 /\ m_nCursorY (this m') = 0 /\
    m_bCursorOn (this m') = true /\ m_bAutoPage (this m') = false /\
    m_nState (this m') = m_nState (this m) /\
    setup (this m') = setup (this m) /\
    cursor_on_display (this m') /\
    forall y x, m_Buffer m' y x
                = if on_display (this m) y x then 32 else m_Buffer m y x.
Proof.
  intros Hc Hr. unfold Initialize. unfold bind at 1.
  destruct (WriteHalfByte_run 2 HD44780_CMD m) as (e1 & ->).
  unfold bind at 1. unfold get_this at 1. unfold bind at 1.
  match goal with
  | |- context [WriteByte ?n ?md ?M] =>
      destruct (WriteByte_run n md M) as (e2 & ->)
  end.
  unfold bind at 1. unfold SetCursorMode, bind at 1, modify_this at 1.
  unfold bind at 1. unfold get_this at 1.
  match goal with
  | |- context [WriteByte ?n ?md ?M] =>
      destruct (WriteByte_run n md M) as (e3 & ->)
  end.
  unfold bind at 1. unfold SetAutoPageMode, modify_this at 1.
  unfold bind at 1. unfold CursorHome, bind at 1, modify_this.
  unfold bind at 1.
  match goal with
  | |- context [ClearDisplayEnd ?M] =>
      destruct (ClearDisplayEnd_spec M) as (m4 & -> & S4 & B4 & _);
        [wf_solve|]
  end.
  unfold bind.
  destruct (WriteByte_run 6 HD44780_CMD m4) as (e5 & ->).
  unfold ret. eexists. split; [reflexivity|].
  unfold logged in *. cbn [this m_Buffer] in *. rewrite S4.
  repeat (split; [wf_solve|]).
  intros y x. rewrite B4. unfold on_display.
  cbn [this m_nCursorX m_nCursorY m_nColumns m_nRows
       set_nCursorX set_nCursorY set_bAutoPage set_bCursorOn].
  destruct (0 <=? x) eqn:?, (x <? m_nColumns (this m)) eqn:?,
           (y <? m_nRows (this m)) eqn:?, (0 <? y) eqn:?,
           (y =? 0) eqn:?, (0 <=? y) eqn:?;
    cbn [andb orb]; try reflexivity; exfalso; zbool; lia.
Qed.

Lemma Initialize_homes_and_blanks_witness :
  exists m',
    Initialize machine_16x2 = Some (true, m') /\
    m_nCursorX (this m') = 0 /\ m_nCursorY (this m') = 0 /\
    m_bCursorOn (this m') = true /\ m_bAutoPage (this m') = false /\
    m_nState (this m') = m_nState (this machine_16x2) /\
    setup (this m') = setup (this machine_16x2) /\
    cursor_on_display (this m') /\
    forall y x, m_Buffer m' y x
                = if on_display (this machine_16x2) y x then 32
                  else m_Buffer machine_16x2 y x.
Proof.
  apply (Initialize_homes_and_blanks machine_16x2);
    unfold HD44780_MAX_COLUMNS, HD44780_MAX_ROWS; simpl; lia.
Defined.

Lemma keeps_Write_calls (bufs : list (list Z)) (m : Machine) :
  cursor_on_display (this m) ->
  exists m',
    Write_calls bufs m = Some (map (fun b => Z.of_nat (length b)) bufs, m') /\
    cursor_on_display (this m') /\ setup (this m') = setup (this m).
Proof.
  revert m. induction bufs as [| b rest IH]; intros m W.
  - exists m. split; [reflexivity|]. split; [exact W | reflexivity].
  - cbn [Write_calls map]. unfold bind at 1.
    destruct (Write_returns_count b m W) as (m1 & -> & W1 & S1).
    unfold bind at 1.
    destruct (IH m1 W1) as (m2 & -> & W2 & S2).
    exists m2. split; [reflexivity|]. split; [exact W2|].
    now rewrite S2.
Qed.

Lemma Initialize_run (m : Machine) :
  1 <= m_nColumns (this m) <= HD44780_MAX_COLUMNS ->
  1 <= m_nRows (this m) <= HD44780_MAX_ROWS ->
  exists m',
    Initialize m = Some (true, m') /\
    setup (this m') = setup (this m) /\
    cursor_on_display (this m').
Proof.
  intros Hc Hr. unfold Initialize. unfold bind at 1.
  destruct (WriteHalfByte_run 2 HD44780_CMD m) as (e1 & ->).
  unfold bind at 1. unfold get_this at 1. unfold bind at 1.
  match goal with
  | |- context [WriteByte ?n ?md ?M] =>
      destruct (WriteByte_run n md M) as (e2 & ->)
  end.
  unfold bind at 1. unfold SetCursorMode, bind at 1, modify_this at 1.
  unfold bind at 1. unfold get_this at 1.
  match goal with
  | |- context [WriteByte ?n ?md ?M] =>
      destruct (WriteByte_run n md M) as (e3 & ->)
  end.
  unfold bind at 1. unfold SetAutoPageMode, modify_this at 1.
  unfold bind at 1. unfold CursorHome, bind at 1, modify_this.
  unfold bind at 1.
  match goal with
  | |- context [ClearDisplayEnd ?M] =>
      destruct (ClearDisplayEnd_spec M) as (m4 & -> & S4 & B4 & _);
        [wf_solve|]
  end.
  unfold bind.
  destruct (WriteByte_run 6 HD44780_CMD m4) as (e5 & ->).
  unfold ret. eexists. split; [reflexivity|].
  unfold logged in *. cbn [this m_Buffer] in *. rewrite S4.
  split; wf_solve.
Qed.

Lemma before_Destructor_run (construct : M unit) (bufs : list (list Z))
    (m0 m1 : Machine) :
  construct m0 = Some (tt, m1) ->
  1 <= m_nColumns (this m1) <= HD44780_MAX_COLUMNS ->
  1 <= m_nRows (this m1) <= HD44780_MAX_ROWS ->
  exists m3,
    (construct ;; bOK <- Initialize ;; ns <- Write_calls bufs ;; ret (bOK, ns))
      m0
    = Some ((true, map (fun b => Z.of_nat (length b)) bufs), m3) /\
    setup (this m3) = setup (this m1) /\
    lifetime construct bufs m0
    = (Destructor ;;
       ret (true, map (fun b => Z.of_nat (length b)) bufs)) m3.
Proof.
  intros E1 Hc Hr. unfold lifetime.
  destruct (Initialize_run m1 Hc Hr) as (m2 & E2 & S2 & W2).
  destruct (keeps_Write_calls bufs m2 W2) as (m3 & E3 & W3 & S3).
  exists m3. unfold bind. rewrite E1, E2, E3.
  split; [reflexivity|]. split; [now rewrite S3|]. reflexivity.
Qed.

Lemma Destructor_run (m : Machine) :
  m_pRW (this m) <> PinUninitialised ->
  exists evs,
    Destructor m
    = Some (tt, mkMachine (set_pRW PinNull (this m)) (m_Buffer m)
                  (trace m ++ evs)).
Proof.
  intros Hp. unfold Destructor, bind at 1.
  destruct (WriteByte_run 48 HD44780_CMD m) as (e & ->).
  unfold delete_pRW, bind, get_this, modify_this, ret, logged. cbn [this].
  destruct (m_pRW (this m)); try contradiction; eexists; reflexivity.
Qed.

Lemma Destructor_fails (m : Machine) :
  m_pRW (this m) = PinUninitialised -> Destructor m = None.
Proof.
  intros Hp. unfold Destructor, bind at 1.
  destruct (WriteByte_run 48 HD44780_CMD m) as (e & ->).
  unfold delete_pRW, bind, get_this, logged. cbn [this]. now rewrite Hp.
Qed.

Lemma Constructor_GPIO_run (nColumns nRows nRWPin : Z)
    (bBlockCursor bNewOK : bool) (m0 : Machine) :
  nColumns <= HD44780_MAX_COLUMNS ->
  nRows <= HD44780_MAX_ROWS ->
  exists m1,
    Constructor_GPIO nColumns nRows nRWPin bBlockCursor bNewOK m0
    = Some (tt, m1) /\
    m_nColumns (this m1) = nColumns /\ m_nRows (this m1) = nRows /\
    m_pRW (this m1) <> PinUninitialised.
Proof.
  intros Hc Hr.
  assert ((nColumns <=? HD44780_MAX_COLUMNS) = true) as Ec
    by (apply Z.leb_le; lia).
  assert ((nRows <=? HD44780_MAX_ROWS) = true) as Er by (apply Z.leb_le; lia).
  unfold Constructor_GPIO, bind, modify_this, emit. rewrite Ec, Er.
  destruct (negb (nRWPin =? 0)), bNewOK; unfold bind, modify_this, emit, ret;
    eexists; (split; [reflexivity|]); cbn; repeat split; discriminate.
Qed.

Lemma Constructor_I2C_run (pI2CMaster : option nat)
    (nAddress nColumns nRows : Z) (bBlockCursor : bool) (m0 : Machine) :
  nColumns <= HD44780_MAX_COLUMNS ->
  nRows <= HD44780_MAX_ROWS ->
  exists m1,
    Constructor_I2C pI2CMaster nAddress nColumns nRows bBlockCursor m0
    = Some (tt, m1) /\
    m_nColumns (this m1) = nColumns /\ m_nRows (this m1) = nRows /\
    m_pRW (this m1) = m_pRW (this m0).
Proof.
  intros Hc Hr.
  assert ((nColumns <=? HD44780_MAX_COLUMNS) = true) as Ec
    by (apply Z.leb_le; lia).
  assert ((nRows <=? HD44780_MAX_ROWS) = true) as Er by (apply Z.leb_le; lia).
  unfold Constructor_I2C, bind, modify_this. rewrite Ec, Er.
  eexists. split; [reflexivity|]. now repeat split.
Qed.

Lemma setup_pRW (d d' : CHD44780Device) :
  setup d' = setup d -> m_pRW d' = m_pRW d.
Proof. unfold setup. intros E. now injection E. Qed.

(** X14.  A display object of 1..40 columns and 1..4 rows built by the
    GPIO constructor on memory of any contents, then initialised, then
    written to any number of times with any bytes, then destroyed: every
    call returns, [Initialize] returns TRUE, every [Write] returns the
    number of bytes it was given, and the destructor leaves [m_pRW]
    null. *)
Theorem lifetime_returns (m0 : Machine) (nColumns nRows nRWPin : Z)
    (bBlockCursor bNewOK : bool) (bufs : list (list Z)) :
  1 <= nColumns <= HD44780_MAX_COLUMNS ->
  1 <= nRows <= HD44780_MAX_ROWS ->
  exists m',
    lifetime (Constructor_GPIO nColumns nRows nRWPin bBlockCursor bNewOK)
      bufs m0
    = Some ((true, map (fun b => Z.of_nat (length b)) bufs), m') /\
    m_pRW (this m') = PinNull.
Proof.
  intros Hc Hr.
  destruct (Constructor_GPIO_run nColumns nRows nRWPin bBlockCursor bNewOK m0)
    as (m1 & E1 & C1 & R1 & P1); [lia | lia |].
  destruct (before_Destructor_run _ bufs m0 m1 E1) as (m3 & _ & S3 & ->);
    [rewrite C1; exact Hc | rewrite R1; exact Hr |].
  unfold bind.
  destruct (Destructor_run m3) as (evs & ->).
  { rewrite (setup_pRW _ _ S3). exact P1. }
  eexists. split; reflexivity.
Qed.

Lemma lifetime_returns_witness :
  exists m',
    lifetime (Constructor_GPIO 20 4 7 false true)
      [[72; 105]; [10; 27; 91; 74]] machine_raw
    = Some ((true, map (fun b => Z.of_nat (length b))
                     [[72; 105]; [10; 27; 91; 74]]), m') /\
    m_pRW (this m') = PinNull.
Proof.
  apply (lifetime_returns machine_raw 20 4 7 false true
           [[72; 105]; [10; 27; 91; 74]]);
    unfold HD44780_MAX_COLUMNS, HD44780_MAX_ROWS; lia.
Defined.

(** X23.  The I2C constructor does not initialise [m_pRW], and nothing
    before the destructor writes it.  A display of 1..40 columns and
    1..4 rows built by it is initialised and written to without
    failure and [m_pRW] keeps the value the memory held before; the
    destructor then deletes that value, so the life of the object
    ends without failure exactly when that memory did not hold an
    uninitialised pointer. *)
Theorem I2C_lifetime_deletes_pRW_as_found (m0 : Machine)
    (pI2CMaster : option nat) (nAddress nColumns nRows : Z)
    (bBlockCursor : bool) (bufs : list (list Z)) :
  1 <= nColumns <= HD44780_MAX_COLUMNS ->
  1 <= nRows <= HD44780_MAX_ROWS ->
  (exists m3,
     (Constructor_I2C pI2CMaster nAddress nColumns nRows bBlockCursor ;;
      bOK <- Initialize ;; ns <- Write_calls bufs ;; ret (bOK, ns)) m0
     = Some ((true, map (fun b => Z.of_nat (length b)) bufs), m3) /\
     m_pRW (this m3) = m_pRW (this m0)) /\
  (m_pRW (this m0) = PinUninitialised ->
   lifetime (Constructor_I2C pI2CMaster nAddress nColumns nRows bBlockCursor)
     bufs m0 = None) /\
  (m_pRW (this m0) <> PinUninitialised ->
   exists m',
     lifetime (Constructor_I2C pI2CMaster nAddress nColumns nRows bBlockCursor)
       bufs m0
     = Some ((true, map (fun b => Z.of_nat (length b)) bufs), m') /\
     m_pRW (this m') = PinNull).
Proof.
  intros Hc Hr.
  destruct (Constructor_I2C_run pI2CMaster nAddress nColumns nRows
              bBlockCursor m0) as (m1 & E1 & C1 & R1 & P1); [lia | lia |].
  destruct (before_Destructor_run _ bufs m0 m1 E1) as (m3 & E3 & S3 & ->);
    [rewrite C1; exact Hc | rewrite R1; exact Hr |].
  assert (m_pRW (this m3) = m_pRW (this m0)) as P3
    by (rewrite (setup_pRW _ _ S3); exact P1).
  split; [exists m3; now split|]. split.
  - intros Hp. unfold bind. rewrite Destructor_fails; [reflexivity|].
    now rewrite P3.
  - intros Hp. unfold bind.
    destruct (Destructor_run m3) as (evs & ->); [now rewrite P3|].
    eexists. split; reflexivity.
Qed.

Lemma I2C_lifetime_deletes_pRW_as_found_witness :
  (exists m3,
     (Constructor_I2C (Some 1%nat) 0x27 16 2 false ;;
      bOK <- Initialize ;; ns <- Write_calls [[72; 105]] ;; ret (bOK, ns))
       machine_raw
     = Some ((true, map (fun b => Z.of_nat (length b)) [[72; 105]]), m3) /\
     m_pRW (this m3) = m_pRW (this machine_raw)) /\
  lifetime (Constructor_I2C (Some 1%nat) 0x27 16 2 false)
    [[72; 105]] machine_raw = None.
Proof.
  destruct (I2C_lifetime_deletes_pRW_as_found machine_raw (Some 1%nat) 0x27
              16 2 false [[72; 105]]) as (A & B & _);
    [unfold HD44780_MAX_COLUMNS; lia | unfold HD44780_MAX_ROWS; lia |].
  split; [exact A | apply B; reflexivity].
Defined.

(** ** The display data RAM *)

(** X15.  On a display with at most two rows, or with at most 32
    columns, [GetDDRAMAddress] returns for every position of the display
    an address below 0x80, which the command byte [0x80 | address] of
    [SetChar] and [SetCursor] carries unchanged, and different positions
    get different addresses. *)
Theorem DDRAM_address_injective (m : Machine) (x1 y1 x2 y2 : Z) :
  1 <= m_nColumns (this m) <= HD44780_MAX_COLUMNS ->
  1 <= m_nRows (this m) <= HD44780_MAX_ROWS ->
  m_nRows (this m) <= 2 \/ m_nColumns (this m) <= 32 ->
  on_display (this m) y1 x1 = true ->
  on_display (this m) y2 x2 = true ->
  exists a1 a2,
    GetDDRAMAddress x1 y1 m = Some (a1, m) /\
    GetDDRAMAddress x2 y2 m = Some (a2, m) /\
    0 <= a1 < 0x80 /\
    Z.land (Z.lor 0x80 a1) 0x7F = a1 /\
    (a1 = a2 -> x1 = x2 /\ y1 = y2).
Proof.
  unfold HD44780_MAX_COLUMNS, HD44780_MAX_ROWS, on_display.
  intros Hc Hr Hs D1 D2.
  repeat match goal with
  | H : _ && _ = true |- _ => apply andb_true_iff in H as [? ?]
  end.
  zbool.
  rewrite !GetDDRAMAddress_run
    by (unfold HD44780_MAX_COLUMNS, HD44780_MAX_ROWS; lia).
  do 2 eexists. split; [reflexivity|]. split; [reflexivity|].
  assert (0 <= x1 + row_offset (m_nColumns (this m)) y1 < 128) as Ha.
  { unfold row_offset.
    destruct (y1 =? 0) eqn:?, (y1 =? 1) eqn:?, (y1 =? 2) eqn:?; zbool; lia. }
  split; [exact Ha|]. split.
  - rewrite Z.land_lor_distr_l.
    change 127 with (Z.ones 7). rewrite !Z.land_ones by lia.
    change (128 mod 2 ^ 7) with 0. rewrite Z.lor_0_l.
    apply Z.mod_small. change (2 ^ 7) with 128. lia.
  - unfold row_offset.
    destruct (y1 =? 0) eqn:?, (y1 =? 1) eqn:?, (y1 =? 2) eqn:?,
             (y2 =? 0) eqn:?, (y2 =? 1) eqn:?, (y2 =? 2) eqn:?;
      zbool; lia.
Qed.

Lemma DDRAM_address_injective_witness :
  exists a1 a2,
    GetDDRAMAddress 19 2 machine_20x4 = Some (a1, machine_20x4) /\
    GetDDRAMAddress 0 1 machine_20x4 = Some (a2, machine_20x4) /\
    0 <= a1 < 0x80 /\
    Z.land (Z.lor 0x80 a1) 0x7F = a1 /\
    (a1 = a2 -> 19 = 0 /\ 2 = 1).
Proof.
  apply (DDRAM_address_injective machine_20x4 19 2 0 1);
    unfold HD44780_MAX_COLUMNS, HD44780_MAX_ROWS; simpl;
    try reflexivity; lia.
Defined.

(** X16.  The constructors accept up to 40 columns and 4 rows, but with
    more than 32 columns and more than two rows the third row runs into
    the second: the last position of the third row and a position of
    the second row get the same address. *)
Theorem DDRAM_address_collision (m : Machine) :
  32 < m_nColumns (this m) <= HD44780_MAX_COLUMNS ->
  2 < m_nRows (this m) <= HD44780_MAX_ROWS ->
  on_display (this m) 2 (m_nColumns (this m) - 1) = true /\
  on_display (this m) 1 (2 * m_nColumns (this m) - 65) = true /\
  exists a,
    GetDDRAMAddress (m_nColumns (this m) - 1) 2 m = Some (a, m) /\
    GetDDRAMAddress (2 * m_nColumns (this m) - 65) 1 m = Some (a, m).
Proof.
  unfold HD44780_MAX_COLUMNS, HD44780_MAX_ROWS. intros Hc Hr.
  split; [apply on_display_true; lia|].
  split; [apply on_display_true; lia|].
  rewrite !GetDDRAMAddress_run
    by (unfold HD44780_MAX_COLUMNS, HD44780_MAX_ROWS; lia).
  eexists. split; [reflexivity|].
  unfold row_offset. cbn [Z.eqb Pos.eqb]. f_equal. f_equal. lia.
Qed.

Lemma DDRAM_address_collision_witness :
  on_display (this machine_40x4) 2 (m_nColumns (this machine_40x4) - 1)
  = true /\
  on_display (this machine_40x4) 1 (2 * m_nColumns (this machine_40x4) - 65)
  = true /\
  exists a,
    GetDDRAMAddress (m_nColumns (this machine_40x4) - 1) 2 machine_40x4
    = Some (a, machine_40x4) /\
    GetDDRAMAddress (2 * m_nColumns (this machine_40x4) - 65) 1 machine_40x4
    = Some (a, machine_40x4).
Proof.
  apply (DDRAM_address_collision machine_40x4);
    unfold HD44780_MAX_COLUMNS, HD44780_MAX_ROWS; simpl; lia.
Defined.

(** ** New line, clearing and erasing *)

(** X17.  [NewLine] puts the cursor in column 0.  Above the last row it
    moves one row down and does nothing else.  On the last row it
    depends on the autopage mode: with autopage the cursor goes to the
    first row and the display contents stay; without, the cursor stays
    on the last row and the contents move up by one row, the first row
    is lost and the last row is blank. *)
Theorem NewLine_scrolls_at_bottom (m : Machine) :
  cursor_on_display (this m) ->
  exists m',
    NewLine m = Some (tt, m') /\
    m_nCursorX (this m') = 0 /\
    setup (this m') = setup (this m) /\
    m_bAutoPage (this m') = m_bAutoPage (this m) /\
    if m_nCursorY (this m) + 1 <? m_nRows (this m)
    then m_nCursorY (this m') = m_nCursorY (this m) + 1 /\
         m_Buffer m' = m_Buffer m /\ trace m' = trace m
    else if m_bAutoPage (this m)
    then m_nCursorY (this m') = 0 /\
         m_Buffer m' = m_Buffer m /\ trace m' = trace m
    else m_nCursorY (this m') = m_nRows (this m) - 1 /\
         forall y x,
           m_Buffer m' y x
           = if on_display (this m) y x
             then (if y =? m_nRows (this m) - 1 then 32
                   else u8 (m_Buffer m (y + 1) x))
             else m_Buffer m y x.
Proof.
  intros W. unfold NewLine, CarriageReturn. unfold bind at 1.
  unfold modify_this at 1. unfold CursorDown. unfold bind at 1.
  unfold get_this at 1. unfold bind at 1. unfold modify_this at 1.
  cbn [this m_Buffer trace m_nCursorY m_nRows m_bAutoPage set_nCursorX
       set_nCursorY].
  rewrite (u32_id (m_nCursorY (this m) + 1)) by wf_solve.
  destruct (m_nCursorY (this m) + 1 <? m_nRows (this m)) eqn:E.
  - zbool.
    replace (m_nRows (this m) <=? m_nCursorY (this m) + 1) with false
      by (symmetry; apply Z.leb_gt; lia).
    eexists. split; [reflexivity|]. wf_solve.
  - zbool.
    replace (m_nRows (this m) <=? m_nCursorY (this m) + 1) with true
      by (symmetry; apply Z.leb_le; lia).
    destruct (m_bAutoPage (this m)) eqn:EA; cbn [negb].
    + eexists. split; [reflexivity|]. wf_solve; assumption.
    + unfold bind.
      match goal with
      | |- context [Scroll ?M] =>
          destruct (Scroll_spec M) as (m' & -> & S & B & _); [wf_solve ..|]
      end.
      unfold modify_this. eexists. split; [reflexivity|].
      cbn [this m_Buffer] in *. rewrite S.
      cbn [m_nCursorX m_nCursorY m_bAutoPage set_nCursorX set_nCursorY].
      rewrite u32_id by wf_solve.
      split; [reflexivity|]. split; [reflexivity|]. split; [exact EA|].
      split; [wf_solve|].
      intros y x. rewrite B. unfold on_display.
      cbn [m_nColumns m_nRows set_nCursorX set_nCursorY].
      destruct (0 <=? x), (x <? m_nColumns (this m)), (0 <=? y),
               (y <? m_nRows (this m)); reflexivity.
Qed.

Lemma NewLine_scrolls_at_bottom_witness :
  exists m',
    NewLine machine_16x2 = Some (tt, m') /\
    m_nCursorX (this m') = 0 /\
    setup (this m') = setup (this machine_16x2) /\
    m_bAutoPage (this m') = m_bAutoPage (this machine_16x2) /\
    if m_nCursorY (this machine_16x2) + 1 <? m_nRows (this machine_16x2)
    then m_nCursorY (this m') = m_nCursorY (this machine_16x2) + 1 /\
         m_Buffer m' = m_Buffer machine_16x2 /\ trace m' = trace machine_16x2
    else if m_bAutoPage (this machine_16x2)
    then m_nCursorY (this m') = 0 /\
         m_Buffer m' = m_Buffer machine_16x2 /\ trace m' = trace machine_16x2
    else m_nCursorY (this m') = m_nRows (this machine_16x2) - 1 /\
         forall y x,
           m_Buffer m' y x
           = if on_display (this machine_16x2) y x
             then (if y =? m_nRows (this machine_16x2) - 1 then 32
                   else u8 (m_Buffer machine_16x2 (y + 1) x))
             else m_Buffer machine_16x2 y x.
Proof.
  apply (NewLine_scrolls_at_bottom machine_16x2).
  unfold cursor_on_display, HD44780_MAX_COLUMNS, HD44780_MAX_ROWS; simpl; lia.
Defined.

(** X18.  [ClearDisplayEnd] and [ClearLineEnd] leave the cursor and all
    scalar members alone.  [ClearDisplayEnd] blanks the buffer from the
    cursor to the end of the display: the rest of the cursor's row and
    every row below; [ClearLineEnd] blanks the rest of the cursor's row
    only.  Every other entry keeps its value. *)
Theorem ClearDisplayEnd_blanks_from_cursor (m : Machine) :
  cursor_on_display (this m) ->
  (exists m',
     ClearDisplayEnd m = Some (tt, m') /\
     this m' = this m /\
     forall y x,
       m_Buffer m' y x
       = if on_display (this m) y x
            && ((m_nCursorY (this m) <? y)
                || ((y =? m_nCursorY (this m)) && (m_nCursorX (this m) <=? x)))
         then 32 else m_Buffer m y x) /\
  (exists m',
     ClearLineEnd m = Some (tt, m') /\
     this m' = this m /\
     forall y x,
       m_Buffer m' y x
       = if on_display (this m) y x
            && (y =? m_nCursorY (this m)) && (m_nCursorX (this m) <=? x)
         then 32 else m_Buffer m y x).
Proof.
  intros W. split.
  - destruct (ClearDisplayEnd_spec m W) as (m' & E & S & B & _).
    exists m'. split; [exact E|]. split; [exact S|].
    intros y x. rewrite B. unfold on_display.
    destruct (0 <=? x) eqn:?, (x <? m_nColumns (this m)) eqn:?,
             (y <? m_nRows (this m)) eqn:?, (0 <=? y) eqn:?,
             (m_nCursorY (this m) <? y) eqn:?,
             (y =? m_nCursorY (this m)) eqn:?,
             (m_nCursorX (this m) <=? x) eqn:?;
      cbn [andb orb]; try reflexivity; exfalso; zbool; wf_solve.
  - destruct (ClearLineEnd_spec m) as (m' & E & S & B & _); [wf_solve ..|].
    exists m'. split; [exact E|]. split; [exact S|].
    intros y x. rewrite B. unfold on_display.
    destruct (0 <=? x) eqn:?, (x <? m_nColumns (this m)) eqn:?,
             (y <? m_nRows (this m)) eqn:?, (0 <=? y) eqn:?,
             (y =? m_nCursorY (this m)) eqn:?,
             (m_nCursorX (this m) <=? x) eqn:?;
      cbn [andb orb]; try reflexivity; exfalso; zbool; wf_solve.
Qed.

Lemma ClearDisplayEnd_blanks_from_cursor_witness :
  (exists m',
     ClearDisplayEnd machine_16x2 = Some (tt, m') /\
     this m' = this machine_16x2 /\
     forall y x,
       m_Buffer m' y x
       = if on_display (this machine_16x2) y x
            && ((m_nCursorY (this machine_16x2) <? y)
                || ((y =? m_nCursorY (this machine_16x2))
                    && (m_nCursorX (this machine_16x2) <=? x)))
         then 32 else m_Buffer machine_16x2 y x) /\
  (exists m',
     ClearLineEnd machine_16x2 = Some (tt, m') /\
     this m' = this machine_16x2 /\
     forall y x,
       m_Buffer m' y x
       = if on_display (this machine_16x2) y x
            && (y =? m_nCursorY (this machine_16x2))
            && (m_nCursorX (this machine_16x2) <=? x)
         then 32 else m_Buffer machine_16x2 y x).
Proof.
  apply (ClearDisplayEnd_blanks_from_cursor machine_16x2).
  unfold cursor_on_display, HD44780_MAX_COLUMNS, HD44780_MAX_ROWS; simpl; lia.
Defined.

(** ** Escape sequences *)

Ltac eqb_false :=
  repeat match goal with
  | |- context [?c =? ?k] =>
      replace (c =? k) with false by (symmetry; apply Z.eqb_neq; lia)
  end.

Lemma is_digit_digit (k : Z) : 0 <= k <= 9 -> is_digit (48 + k) = true.
Proof.
  intros H. unfold is_digit. apply andb_true_iff. split; apply Z.leb_le; lia.
Qed.

Lemma escape_bracket (rest : list Z) (m : Machine) :
  m_nState (this m) = ScreenStateStart ->
  Write_chars (27 :: 91 :: rest) m
  = Write_chars rest
      (mkMachine (set_nState ScreenStateBracket (this m))
                 (m_Buffer m) (trace m)).
Proof.
  intros St. destruct m as [[cols rows prw pi2c addr blk st X Y con p1 p2 ap]
                              buf tr].
  cbn [this m_nState] in St. subst st. reflexivity.
Qed.

Ltac hd_machine m St :=
  destruct m as [[cols rows prw pi2c addr blk st X Y con p1 p2 ap] buf tr];
  cbn [this m_nState m_nParam1 m_nParam2] in *; subst st.

Lemma digit_in_Bracket (k : Z) (m : Machine) :
  m_nState (this m) = ScreenStateBracket ->
  0 <= k <= 9 ->
  Write_char (48 + k) m
  = Some (tt, mkMachine
                (set_nState ScreenStateNumber1 (set_nParam1 k (this m)))
                (m_Buffer m) (trace m)).
Proof.
  intros St Hk. hd_machine m St. unfold Write_char. hd_run.
  eqb_false. rewrite is_digit_digit by lia. hd_run.
  replace (u32 (48 + k - 48)) with k by (rewrite u32_id; lia).
  reflexivity.
Qed.

Lemma digit_in_Semicolon (k : Z) (m : Machine) :
  m_nState (this m) = ScreenStateSemicolon ->
  0 <= k <= 9 ->
  Write_char (48 + k) m
  = Some (tt, mkMachine
                (set_nState ScreenStateNumber2 (set_nParam2 k (this m)))
                (m_Buffer m) (trace m)).
Proof.
  intros St Hk. hd_machine m St. unfold Write_char. hd_run.
  rewrite is_digit_digit by lia. hd_run.
  replace (u32 (48 + k - 48)) with k by (rewrite u32_id; lia).
  reflexivity.
Qed.

Lemma digit_in_Number1 (k : Z) (m : Machine) :
  m_nState (this m) = ScreenStateNumber1 ->
  0 <= k <= 9 ->
  0 <= m_nParam1 (this m) ->
  m_nParam1 (this m) * 10 + k <= 99 ->
  Write_char (48 + k) m
  = Some (tt, mkMachine (set_nParam1 (m_nParam1 (this m) * 10 + k) (this m))
                (m_Buffer m) (trace m)).
Proof.
  intros St Hk Hp Hn. hd_machine m St. unfold Write_char. hd_run.
  eqb_false. rewrite is_digit_digit by lia. hd_run.
  replace (u32 (u32 (p1 * 10) + (48 + k - 48))) with (p1 * 10 + k)
    by (rewrite (u32_id (p1 * 10)) by lia; rewrite u32_id by lia; lia).
  replace (99 <? p1 * 10 + k) with false by (symmetry; apply Z.ltb_ge; lia).
  reflexivity.
Qed.

Lemma digit_in_Number2 (k : Z) (m : Machine) :
  m_nState (this m) = ScreenStateNumber2 ->
  0 <= k <= 9 ->
  0 <= m_nParam2 (this m) ->
  m_nParam2 (this m) * 10 + k <= 199 ->
  Write_char (48 + k) m
  = Some (tt, mkMachine (set_nParam2 (m_nParam2 (this m) * 10 + k) (this m))
                (m_Buffer m) (trace m)).
Proof.
  intros St Hk Hp Hn. hd_machine m St. unfold Write_char. hd_run.
  eqb_false. rewrite is_digit_digit by lia. hd_run.
  replace (u32 (u32 (p2 * 10) + (48 + k - 48))) with (p2 * 10 + k)
    by (rewrite (u32_id (p2 * 10)) by lia; rewrite u32_id by lia; lia).
  replace (199 <? p2 * 10 + k) with false by (symmetry; apply Z.ltb_ge; lia).
  reflexivity.
Qed.

Ltac parse_step L :=
  cbn [app Write_chars]; unfold bind at 1;
  rewrite L by (cbn [this m_nState m_nParam1 m_nParam2 set_nState
                     set_nParam1 set_nParam2]; first [reflexivity | lia]);
  cbn [this m_Buffer trace m_nState m_nParam1 m_nParam2 set_nState
       set_nParam1 set_nParam2].

Lemma parse_Param1 (n : Z) (rest : list Z) (m : Machine) :
  m_nState (this m) = ScreenStateBracket ->
  0 <= n <= 99 ->
  Write_chars (decimal n ++ rest) m
  = Write_chars rest
      (mkMachine (set_nParam1 n (set_nState ScreenStateNumber1 (this m)))
                 (m_Buffer m) (trace m)).
Proof.
  intros St Hn. hd_machine m St. unfold decimal.
  pose proof (Z.div_mod n 10 ltac:(lia)) as Hdm.
  pose proof (Z.mod_pos_bound n 10 ltac:(lia)) as Hm.
  destruct (n <? 10) eqn:E1; zbool.
  - parse_step digit_in_Bracket. reflexivity.
  - replace (n <? 100) with true by (symmetry; apply Z.ltb_lt; lia).
    parse_step digit_in_Bracket. parse_step digit_in_Number1.
    replace (n / 10 * 10 + n mod 10) with n by lia. reflexivity.
Qed.

Lemma parse_Param2 (n : Z) (rest : list Z) (m : Machine) :
  m_nState (this m) = ScreenStateSemicolon ->
  0 <= n <= 199 ->
  Write_chars (decimal n ++ rest) m
  = Write_chars rest
      (mkMachine (set_nParam2 n (set_nState ScreenStateNumber2 (this m)))
                 (m_Buffer m) (trace m)).
Proof.
  intros St Hn. hd_machine m St. unfold decimal.
  pose proof (Z.div_mod n 10 ltac:(lia)) as Hdm.
  pose proof (Z.mod_pos_bound n 10 ltac:(lia)) as Hm.
  destruct (n <? 10) eqn:E1; zbool.
  - parse_step digit_in_Semicolon. reflexivity.
  - destruct (n <? 100) eqn:E2; zbool.
    + parse_step digit_in_Semicolon. parse_step digit_in_Number2.
      replace (n / 10 * 10 + n mod 10) with n by lia. reflexivity.
    + assert (n / 100 = 1) as H100
        by (symmetry; apply (Z.div_unique n 100 1 (n - 100)); lia).
      pose proof (Z.div_mod (n / 10) 10 ltac:(lia)) as Hdm2.
      pose proof (Z.mod_pos_bound (n / 10) 10 ltac:(lia)) as Hm2.
      assert (10 <= n / 10 <= 19) as Hd by lia.
      rewrite H100.
      parse_step digit_in_Semicolon. parse_step digit_in_Number2.
      parse_step digit_in_Number2.
      replace ((1 * 10 + (n / 10) mod 10) * 10 + n mod 10) with n by lia.
      reflexivity.
Qed.

Lemma semicolon_in_Number1 (m : Machine) :
  m_nState (this m) = ScreenStateNumber1 ->
  Write_char 59 m
  = Some (tt, mkMachine (set_nState ScreenStateSemicolon (this m))
                (m_Buffer m) (trace m)).
Proof. intros St. hd_machine m St. reflexivity. Qed.

Lemma H_in_Number2 (m : Machine) :
  m_nState (this m) = ScreenStateNumber2 ->
  Write_char 72 m
  = (CursorMove (m_nParam1 (this m)) (m_nParam2 (this m)) ;; goto_Start) m.
Proof. intros St. hd_machine m St. reflexivity. Qed.

Lemma X_in_Number1 (m : Machine) :
  m_nState (this m) = ScreenStateNumber1 ->
  Write_char 88 m = (EraseChars (m_nParam1 (this m)) ;; goto_Start) m.
Proof. intros St. hd_machine m St. reflexivity. Qed.



(** X20.  Written in the start state with the cursor on the display,
    the sequence ESC [ n X with a decimal n up to 99 blanks n buffer
    entries from the cursor on, but none beyond the end of the cursor's
    row; the cursor does not move and every other entry keeps its
    value. *)
Theorem erase_sequence (nCount : Z) (m : Machine) :
  m_nState (this m) = ScreenStateStart ->
  cursor_on_display (this m) ->
  0 <= nCount <= 99 ->
  exists m',
    Write_chars ([27; 91] ++ decimal nCount ++ [88]) m = Some (tt, m') /\
    m_nCursorX (this m') = m_nCursorX (this m) /\
    m_nCursorY (this m') = m_nCursorY (this m) /\
    m_nState (this m') = ScreenStateStart /\
    setup (this m') = setup (this m) /\
    forall y x,
      m_Buffer m' y x
      = if (y =? m_nCursorY (this m)) && (m_nCursorX (this m) <=? x)
           && (x <? m_nCursorX (this m) + nCount)
           && (x <? m_nColumns (this m))
        then 32 else m_Buffer m y x.
Proof.
  intros St W Hn. hd_machine m St. cbn [app].
  rewrite escape_bracket by reflexivity.
  rewrite parse_Param1 by (first [reflexivity | lia]).
  cbn [Write_chars]. unfold bind at 1.
  rewrite X_in_Number1 by reflexivity.
  cbn [this m_Buffer trace m_nParam1 set_nParam1 set_nState].
  unfold bind at 1.
  match goal with
  | |- context [EraseChars nCount ?M] =>
      destruct (EraseChars_spec nCount M) as (m1 & -> & S1 & B1 & _);
        [wf_solve ..|]
  end.
  unfold bind, goto_Start, modify_this, ret. eexists. split; [reflexivity|].
  cbn [this m_Buffer] in *. rewrite S1.
  repeat (split; [reflexivity|]).
  intros y x. rewrite B1. reflexivity.
Qed.

Lemma erase_sequence_witness :
  exists m',
    Write_chars ([27; 91] ++ decimal 30 ++ [88]) machine_20x4 = Some (tt, m') /\
    m_nCursorX (this m') = m_nCursorX (this machine_20x4) /\
    m_nCursorY (this m') = m_nCursorY (this machine_20x4) /\
    m_nState (this m') = ScreenStateStart /\
    setup (this m') = setup (this machine_20x4) /\
    forall y x,
      m_Buffer m' y x
      = if (y =? m_nCursorY (this machine_20x4))
           && (m_nCursorX (this machine_20x4) <=? x)
           && (x <? m_nCursorX (this machine_20x4) + 30)
           && (x <? m_nColumns (this machine_20x4))
        then 32 else m_Buffer machine_20x4 y x.
Proof.
  apply (erase_sequence 30 machine_20x4).
  - reflexivity.
  - unfold cursor_on_display, HD44780_MAX_COLUMNS, HD44780_MAX_ROWS;
      simpl; lia.
  - lia.
Defined.

(** ** Text *)

Lemma display_code_byte (c : Z) :
  32 <= c < 256 -> 0 <= display_code c < 256.
Proof.
  intros H. unfold display_code.
  destruct (128 <=? c) eqn:?, (c <=? 135) eqn:?; cbn [andb]; zbool; lia.
Qed.

Lemma printable_in_Start (c : Z) (m : Machine) :
  m_nState (this m) = ScreenStateStart ->
  cursor_on_display (this m) ->
  32 <= c < 256 ->
  m_nCursorX (this m) + 1 < m_nColumns (this m) ->
  exists evs,
    Write_char c m
    = Some (tt, mkMachine (set_nCursorX (m_nCursorX (this m) + 1) (this m))
                  (buffer_with (m_Buffer m) (m_nCursorY (this m))
                     (m_nCursorX (this m)) (display_code c))
                  (trace m ++ evs)).
Proof.
  intros St W Hc HX. unfold Write_char. unfold bind at 1, get_this at 1.
  rewrite St. eqb_false. unfold DisplayChar. rewrite (u8_small c) by lia.
  replace (32 <=? c) with true by (symmetry; apply Z.leb_le; lia).
  unfold bind at 1, get_this at 1. unfold bind at 1.
  match goal with
  | |- context [SetChar ?x ?y ?ch m] =>
      destruct (SetChar_run x y ch m) as (evs & ->); [wf_solve ..|]
  end.
  unfold CursorRight, bind, get_this, modify_this. cbn [this m_Buffer trace].
  rewrite (u32_id (m_nCursorX (this m) + 1)) by wf_solve.
  replace (m_nColumns (this m) <=? m_nCursorX (this m) + 1) with false
    by (symmetry; apply Z.leb_gt; lia).
  exists evs. unfold ret. do 3 f_equal.
  pose proof (display_code_byte c Hc) as Hb. unfold display_code in *.
  destruct ((128 <=? c) && (c <=? 135)) eqn:E.
  - apply andb_true_iff in E as [? ?]. zbool.
    rewrite (u8_small (c - 128)) by lia. now rewrite u8_small by lia.
  - now rewrite u8_small by lia.
Qed.

(** X21.  Text written in the start state that fits between the cursor
    and the end of its row (bytes from 32 to 255, so no control
    character) lands in the buffer from the cursor on, one entry per
    byte, with the codes 0x80..0x87 of the definable characters stored
    as 0..7; the cursor ends behind the text on the same row, the state
    is still the start state and every other entry keeps its value. *)
Theorem printable_text_lands_in_buffer (pChar : list Z) :
  forall m : Machine,
    m_nState (this m) = ScreenStateStart ->
    cursor_on_display (this m) ->
    forallb (fun c => (32 <=? c) && (c <? 256)) pChar = true ->
    m_nCursorX (this m) + Z.of_nat (length pChar) < m_nColumns (this m) ->
    exists m',
      Write_chars pChar m = Some (tt, m') /\
      m_nCursorX (this m') = m_nCursorX (this m) + Z.of_nat (length pChar) /\
      m_nCursorY (this m') = m_nCursorY (this m) /\
      m_nState (this m') = ScreenStateStart /\
      setup (this m') = setup (this m) /\
      forall y x,
        m_Buffer m' y x
        = if (y =? m_nCursorY (this m)) && (m_nCursorX (this m) <=? x)
             && (x <? m_nCursorX (this m) + Z.of_nat (length pChar))
          then display_code
                 (nth (Z.to_nat (x - m_nCursorX (this m))) pChar 0)
          else m_Buffer m y x.
Proof.
  induction pChar as [| c rest IH]; intros m St W Hp HX.
  - exists m. split; [reflexivity|].
    split; [cbn [length]; lia|]. repeat (split; [reflexivity || exact St|]).
    intros y x. cbn [length].
    destruct (y =? m_nCursorY (this m)), (m_nCursorX (this m) <=? x) eqn:?,
             (x <? m_nCursorX (this m) + Z.of_nat 0) eqn:?;
      cbn [andb]; try reflexivity; exfalso; zbool; lia.
  - cbn [forallb] in Hp. apply andb_true_iff in Hp as [Hc Hp].
    apply andb_true_iff in Hc as [Hc1 Hc2]. zbool.
    cbn [length] in HX. rewrite Nat2Z.inj_succ in HX.
    cbn [Write_chars]. unfold bind at 1.
    destruct (printable_in_Start c m St W) as (evs & ->); [lia | lia |].
    match goal with
    | |- context [Write_chars rest ?M] =>
        destruct (IH M) as (m' & -> & PX & PY & PS & PSet & PB)
    end.
    + hd_machine m St. reflexivity.
    + wf_solve.
    + exact Hp.
    + wf_solve.
    + exists m'. split; [reflexivity|].
      cbn [this m_Buffer] in *.
      cbn [m_nCursorX m_nCursorY set_nCursorX] in *.
      assert (m_nCursorX (set_nCursorX (m_nCursorX (this m) + 1) (this m))
              = m_nCursorX (this m) + 1) as EX by reflexivity.
      assert (m_nCursorY (set_nCursorX (m_nCursorX (this m) + 1) (this m))
              = m_nCursorY (this m)) as EY by reflexivity.
      rewrite ?EX in *. rewrite ?EY in *. clear EX EY.
      cbn [length]. rewrite Nat2Z.inj_succ.
      split; [lia|]. split; [exact PY|]. split; [exact PS|].
      split; [exact PSet|].
      intros y x. rewrite PB. unfold buffer_with.
      destruct (y =? m_nCursorY (this m)) eqn:Ey; cbn [andb]; [| reflexivity].
      destruct (m_nCursorX (this m) + 1 <=? x) eqn:E1,
               (x <? m_nCursorX (this m) + 1 + Z.of_nat (length rest)) eqn:E2,
               (m_nCursorX (this m) <=? x) eqn:E3,
               (x <? m_nCursorX (this m) + Z.succ (Z.of_nat (length rest)))
                 eqn:E4,
               (x =? m_nCursorX (this m)) eqn:E5;
        cbn [andb]; zbool; try lia; try reflexivity.
      * replace (Z.to_nat (x - m_nCursorX (this m)))
          with (S (Z.to_nat (x - (m_nCursorX (this m) + 1)))) by lia.
        reflexivity.
      * subst x. now rewrite Z.sub_diag.
Qed.

Lemma printable_text_lands_in_buffer_witness :
  exists m',
    Write_chars [72; 105; 129] machine_20x4 = Some (tt, m') /\
    m_nCursorX (this m')
    = m_nCursorX (this machine_20x4) + Z.of_nat (length [72; 105; 129]) /\
    m_nCursorY (this m') = m_nCursorY (this machine_20x4) /\
    m_nState (this m') = ScreenStateStart /\
    setup (this m') = setup (this machine_20x4) /\
    forall y x,
      m_Buffer m' y x
      = if (y =? m_nCursorY (this machine_20x4))
           && (m_nCursorX (this machine_20x4) <=? x)
           && (x <? m_nCursorX (this machine_20x4)
                    + Z.of_nat (length [72; 105; 129]))
        then display_code
               (nth (Z.to_nat (x - m_nCursorX (this machine_20x4)))
                  [72; 105; 129] 0)
        else m_Buffer machine_20x4 y x.
Proof.
  apply (printable_text_lands_in_buffer [72; 105; 129] machine_20x4).
  - reflexivity.
  - unfold cursor_on_display, HD44780_MAX_COLUMNS, HD44780_MAX_ROWS;
      simpl; lia.
  - reflexivity.
  - simpl; lia.
Defined.

(** ** Definable characters *)


End HD44780Facts.
